(** * The WSA client API: a shallow embedding and its specification

  The development follows the newer (VRT based) version of the API
  layer of the ThinkRF WSA client library: the frequency setter and
  getter, the decimation getter, the VRT packet reader, the
  absolute-maximum-amplitude lookup and the sweep-list manager.

  C integers are mathematical integers with the wrap-around of every
  conversion written out.  The command channel, the data channel and
  the host clock are an explicit state threaded through every call,
  together with a ghost trace of what was done on them. *)

From Stdlib Require Import ZArith List String Ascii Bool Lia.
From Stdlib Require Import DecimalString DecimalZ.
From Stdlib Require NArith Decimal DecimalFacts DecimalPos.
Import ListNotations.

Open Scope Z_scope.

(** ** C integer conversions *)

Module CInt.

(** Conversion to an unsigned type of [bits] bits. *)
Definition wrap_unsigned (bits : Z) (x : Z) : Z := x mod 2 ^ bits.

(** Conversion to a signed two's complement type of [bits] bits. *)
Definition wrap_signed (bits : Z) (x : Z) : Z :=
  (x + 2 ^ (bits - 1)) mod 2 ^ bits - 2 ^ (bits - 1).

Definition to_uint64 : Z -> Z := wrap_unsigned 64.
Definition to_uint32 : Z -> Z := wrap_unsigned 32.
Definition to_int16 : Z -> Z := wrap_signed 16.
Definition to_int32 : Z -> Z := wrap_signed 32.
Definition to_int64 : Z -> Z := wrap_signed 64.

Definition int16_range (x : Z) : Prop := -32768 <= x <= 32767.
Definition int64_range (x : Z) : Prop :=
  -9223372036854775808 <= x <= 9223372036854775807.

End CInt.
Export CInt.

(** ** C strings *)

Module CString.

(** The line terminator written as backslash-n in the C source. *)
Definition nl : string := String (ascii_of_nat 10) EmptyString.

(** [strcmp]: only the sign of the result is specified by C. *)
Definition strcmp (a b : string) : Z :=
  match String.compare a b with
  | Eq => 0
  | Lt => -1
  | Gt => 1
  end.

(** [strstr hay needle]: the suffix of [hay] that starts at the first
    occurrence of [needle], [None] for the NULL pointer. *)
Fixpoint strstr (hay needle : string) : option string :=
  if String.prefix needle hay then Some hay
  else match hay with
       | EmptyString => None
       | String _ hay' => strstr hay' needle
       end.

(** [printf] conversions for the integer types the API formats. *)
Definition fmt_lld (z : Z) : string := NilZero.string_of_int (Z.to_int z).
Definition fmt_d (z : Z) : string := NilZero.string_of_int (Z.to_int z).
Definition fmt_u (z : Z) : string :=
  NilZero.string_of_int (Z.to_int (to_uint32 z)).

(** *** The scanner behind [strtok] *)

Fixpoint is_delim (delim : string) (c : ascii) : bool :=
  match delim with
  | EmptyString => false
  | String d delim' => if Ascii.eqb c d then true else is_delim delim' c
  end.

Fixpoint skip_delims (delim s : string) : string :=
  match s with
  | EmptyString => EmptyString
  | String c s' => if is_delim delim c then skip_delims delim s' else s
  end.

(** The token at the head of [s] and the text after the delimiter that
    ends it. *)
Fixpoint take_token (delim s : string) : string * string :=
  match s with
  | EmptyString => (EmptyString, EmptyString)
  | String c s' =>
      if is_delim delim c then (EmptyString, s')
      else let (t, r) := take_token delim s' in (String c t, r)
  end.

(** One call of [strtok] on the text [s]: the token ([None] is NULL)
    and the new saved position. *)
Definition strtok_scan (delim s : string) : option string * string :=
  match skip_delims delim s with
  | EmptyString => (None, EmptyString)
  | s1 => let (t, r) := take_token delim s1 in (Some t, r)
  end.

(** The first [n] tokens [strtok] finds in [s], with the text left
    unread after them; [None] when [s] holds fewer tokens. *)
Fixpoint strtok_tokens (n : nat) (delim s : string)
  : option (list string * string) :=
  match n with
  | O => Some ([], s)
  | S n' =>
      match strtok_scan delim s with
      | (None, _) => None
      | (Some t, r) =>
          match strtok_tokens n' delim r with
          | Some (ts, r') => Some (t :: ts, r')
          | None => None
          end
      end
  end.

End CString.
Export CString.


(** ** What the API layer takes from the rest of the library *)

(** The C floating types and the two numeric parsing helpers of the
    commons module.  The helpers return a negative number when the text
    is no number and store the value through a pointer otherwise: here
    [None] and [Some].  The conversions are the C casts the API applies
    to a [double]. *)
Class CNumeric : Type := {
  double : Type;
  cfloat : Type;
  to_double : string -> option double;
  to_int : string -> option Z;
  double_of_uint64 : Z -> double;
  double_ltb : double -> double -> bool;
  int64_of_double : double -> Z;
  int32_of_double : double -> Z;
  int16_of_double : double -> Z;
  float_of_double : double -> cfloat
}.

(** The constants of the error header and of the VRT protocol that the
    API names. *)
Class WsaConsts : Type := {
  WSA_ERR_FREQOUTOFBOUND : Z;
  WSA_ERR_INVRFGAIN : Z;
  WSA_ERR_INVNUMBER : Z;
  WSA_ERR_NOTIQFRAME : Z;
  WSA_ERR_RESPUNKNOWN : Z;
  WSA_ERR_SWEEPALREADYRUNNING : Z;
  WSA_ERR_SWEEPIDOOB : Z;
  WSA_ERR_SWEEPLISTEMPTY : Z;
  WSA_ERR_SWEEPMODEUNDEF : Z;
  RECEIVER_STREAM_ID : Z;
  DIGITIZER_STREAM_ID : Z;
  IF_DATA_STREAM_ID : Z;
  BYTES_PER_VRT_WORD : Z
}.

(** ** Data *)

Inductive wsa_gain : Type :=
| WSA_GAIN_HIGH
| WSA_GAIN_MED
| WSA_GAIN_LOW
| WSA_GAIN_VLOW.

(** The integer value of an enumerator: [WSA_GAIN_HIGH = 1] and the
    others count up from it. *)
Definition gain_value (g : wsa_gain) : Z :=
  match g with
  | WSA_GAIN_HIGH => 1
  | WSA_GAIN_MED => 2
  | WSA_GAIN_LOW => 3
  | WSA_GAIN_VLOW => 4
  end.

Record wsa_socket : Type := {
  sock_cmd : Z;
  sock_data : Z
}.

Record wsa_resp : Type := {
  status : Z;
  output : string
}.

Record wsa_vrt_packet_header : Type := {
  stream_id : Z;
  pkt_count : Z;
  samples_per_packet : Z;
  time_stamp_sec : Z;
  time_stamp_psec : Z
}.

Section Descriptor.
Context {num : CNumeric}.

Record wsa_descriptor : Type := {
  prod_name : string;
  prod_serial : string;
  prod_version : string;
  rfe_name : string;
  rfe_version : string;
  fw_version : string;
  intf_type : string;
  inst_bw : Z;
  max_sample_size : Z;
  max_tune_freq : Z;
  min_tune_freq : Z;
  freq_resolution : Z;
  max_if_gain : Z;
  min_if_gain : Z;
  min_decimation : Z;
  max_decimation : Z;
  abs_max_amp : list cfloat
}.

Record wsa_device : Type := {
  descr : wsa_descriptor;
  sock : wsa_socket
}.

(** One entry of the sweep list as [wsa_sweep_entry_read] fills it.
    [sweep_samples_per_packet] is the field [samples_per_packet] of the C
    structure, and [gain_rf] holds the integer value of the enumerator. *)
Record wsa_sweep_list : Type := {
  start_freq : Z;
  stop_freq : Z;
  fstep : Z;
  fshift : cfloat;
  decimation_rate : Z;
  ant_port : Z;
  gain_rf : Z;
  gain_if : Z;
  sweep_samples_per_packet : Z;
  packets_per_block : Z;
  dwell_seconds : Z;
  dwell_microseconds : Z;
  trigger_enable : Z;
  trigger_start_freq : Z;
  trigger_stop_freq : Z;
  trigger_amplitude : Z
}.

End Descriptor.

(** The two channels of a session, seen from the client: what the
    instrument answers to a line written on the command channel and what
    a read on the data channel delivers.  [cmd_write] is a line with no
    reply expected (the outcome of the write), [cmd_query] a line with
    the reply read back (status and trimmed text), [data_recv] a read of
    at most so many bytes within a timeout (outcome and the bytes
    received). *)
Class Environment : Type := {
  env_state : Type;
  cmd_write : env_state -> string -> env_state * Z;
  cmd_query : env_state -> string -> env_state * (Z * string);
  data_recv : env_state -> Z -> Z -> Z -> env_state * (Z * list Z)
}.

(** The layout of the VRT units: their sizes in bytes, the decoders from
    bytes to fields, the timeout of a read, and [wsa_decode_frame],
    which de-interleaves a payload into the two sample buffers. *)
Class VrtCodec : Type := {
  wsa_vrt_packet_trailer : Type;
  wsa_receiver_packet : Type;
  wsa_digitizer_packet : Type;
  header_bytes : Z;
  trailer_bytes : Z;
  context_bytes : wsa_vrt_packet_header -> Z;
  payload_bytes : wsa_vrt_packet_header -> Z;
  vrt_timeout : Z;
  decode_header : list Z -> wsa_vrt_packet_header;
  decode_trailer : list Z -> wsa_vrt_packet_trailer;
  decode_receiver : list Z -> wsa_receiver_packet;
  decode_digitizer : list Z -> wsa_digitizer_packet;
  wsa_decode_frame : list Z -> list Z -> list Z -> Z -> Z * (list Z * list Z)
}.

(** ** The state every call runs in *)

(** A ghost record of what a call did: a line written on the command
    channel, a read on the data channel, a call of a numeric parsing
    helper. *)
Inductive event : Type :=
| EvWrite (line : string)
| EvRecv (nbytes : Z)
| EvParse (text : string).

Section World.
Context {env : Environment}.

(** [w_clock n] is what the [n]-th call of [clock()] returns and [w_now]
    counts the calls made; [w_strtok] is the position [strtok] saved. *)
Record world : Type := {
  w_env : env_state;
  w_clock : nat -> Z;
  w_now : nat;
  w_strtok : string;
  w_trace : list event
}.

Definition set_env (e : env_state) (w : world) : world :=
  {| w_env := e; w_clock := w_clock w; w_now := w_now w;
     w_strtok := w_strtok w; w_trace := w_trace w |}.

Definition set_strtok (s : string) (w : world) : world :=
  {| w_env := w_env w; w_clock := w_clock w; w_now := w_now w;
     w_strtok := s; w_trace := w_trace w |}.

Definition log (e : event) (w : world) : world :=
  {| w_env := w_env w; w_clock := w_clock w; w_now := w_now w;
     w_strtok := w_strtok w; w_trace := w_trace w ++ [e] |}.

Definition tick (w : world) : world :=
  {| w_env := w_env w; w_clock := w_clock w; w_now := S (w_now w);
     w_strtok := w_strtok w; w_trace := w_trace w |}.

(** A computation: from a state to a result and the state after it, or
    to nothing when the C program has no defined behaviour (a NULL
    pointer handed to a string function) or a loop ran out of fuel. *)
Definition M (A : Type) : Type := world -> option (A * world).

Definition ret {A : Type} (a : A) : M A := fun w => Some (a, w).

Definition bind {A B : Type} (m : M A) (k : A -> M B) : M B :=
  fun w => match m w with
           | Some (a, w') => k a w'
           | None => None
           end.

Definition undefined {A : Type} : M A := fun _ => None.

End World.

Declare Scope wsa_scope.
Delimit Scope wsa_scope with wsa.
Notation "x <- m ;; k" := (bind m (fun x => k))
  (at level 61, m at next level, right associativity) : wsa_scope.
Notation "' p <- m ;; k" := (bind m (fun x => match x with p => k end))
  (at level 61, p pattern, m at next level, right associativity) : wsa_scope.
Notation "m1 ;;; m2" := (bind m1 (fun _ => m2))
  (at level 61, right associativity) : wsa_scope.
Open Scope wsa_scope.

(** ** Assignments to the fields of a sweep entry *)

Section SweepEntryFields.
Context {num : CNumeric}.

Definition set_start_freq (v : Z) (sl : wsa_sweep_list)
  : wsa_sweep_list :=
  {| start_freq := v; stop_freq := stop_freq sl; fstep := fstep sl;
     fshift := fshift sl; decimation_rate := decimation_rate sl;
     ant_port := ant_port sl; gain_rf := gain_rf sl; gain_if := gain_if sl;
     sweep_samples_per_packet := sweep_samples_per_packet sl;
     packets_per_block := packets_per_block sl;
     dwell_seconds := dwell_seconds sl;
     dwell_microseconds := dwell_microseconds sl;
     trigger_enable := trigger_enable sl;
     trigger_start_freq := trigger_start_freq sl;
     trigger_stop_freq := trigger_stop_freq sl;
     trigger_amplitude := trigger_amplitude sl |}.

Definition set_stop_freq (v : Z) (sl : wsa_sweep_list)
  : wsa_sweep_list :=
  {| start_freq := start_freq sl; stop_freq := v; fstep := fstep sl;
     fshift := fshift sl; decimation_rate := decimation_rate sl;
     ant_port := ant_port sl; gain_rf := gain_rf sl; gain_if := gain_if sl;
     sweep_samples_per_packet := sweep_samples_per_packet sl;
     packets_per_block := packets_per_block sl;
     dwell_seconds := dwell_seconds sl;
     dwell_microseconds := dwell_microseconds sl;
     trigger_enable := trigger_enable sl;
     trigger_start_freq := trigger_start_freq sl;
     trigger_stop_freq := trigger_stop_freq sl;
     trigger_amplitude := trigger_amplitude sl |}.

Definition set_fstep (v : Z) (sl : wsa_sweep_list)
  : wsa_sweep_list :=
  {| start_freq := start_freq sl; stop_freq := stop_freq sl; fstep := v;
     fshift := fshift sl; decimation_rate := decimation_rate sl;
     ant_port := ant_port sl; gain_rf := gain_rf sl; gain_if := gain_if sl;
     sweep_samples_per_packet := sweep_samples_per_packet sl;
     packets_per_block := packets_per_block sl;
     dwell_seconds := dwell_seconds sl;
     dwell_microseconds := dwell_microseconds sl;
     trigger_enable := trigger_enable sl;
     trigger_start_freq := trigger_start_freq sl;
     trigger_stop_freq := trigger_stop_freq sl;
     trigger_amplitude := trigger_amplitude sl |}.

Definition set_fshift (v : cfloat) (sl : wsa_sweep_list)
  : wsa_sweep_list :=
  {| start_freq := start_freq sl; stop_freq := stop_freq sl;
     fstep := fstep sl; fshift := v; decimation_rate := decimation_rate sl;
     ant_port := ant_port sl; gain_rf := gain_rf sl; gain_if := gain_if sl;
     sweep_samples_per_packet := sweep_samples_per_packet sl;
     packets_per_block := packets_per_block sl;
     dwell_seconds := dwell_seconds sl;
     dwell_microseconds := dwell_microseconds sl;
     trigger_enable := trigger_enable sl;
     trigger_start_freq := trigger_start_freq sl;
     trigger_stop_freq := trigger_stop_freq sl;
     trigger_amplitude := trigger_amplitude sl |}.

Definition set_decimation_rate (v : Z) (sl : wsa_sweep_list)
  : wsa_sweep_list :=
  {| start_freq := start_freq sl; stop_freq := stop_freq sl;
     fstep := fstep sl; fshift := fshift sl; decimation_rate := v;
     ant_port := ant_port sl; gain_rf := gain_rf sl; gain_if := gain_if sl;
     sweep_samples_per_packet := sweep_samples_per_packet sl;
     packets_per_block := packets_per_block sl;
     dwell_seconds := dwell_seconds sl;
     dwell_microseconds := dwell_microseconds sl;
     trigger_enable := trigger_enable sl;
     trigger_start_freq := trigger_start_freq sl;
     trigger_stop_freq := trigger_stop_freq sl;
     trigger_amplitude := trigger_amplitude sl |}.

Definition set_ant_port (v : Z) (sl : wsa_sweep_list)
  : wsa_sweep_list :=
  {| start_freq := start_freq sl; stop_freq := stop_freq sl;
     fstep := fstep sl; fshift := fshift sl;
     decimation_rate := decimation_rate sl; ant_port := v;
     gain_rf := gain_rf sl; gain_if := gain_if sl;
     sweep_samples_per_packet := sweep_samples_per_packet sl;
     packets_per_block := packets_per_block sl;
     dwell_seconds := dwell_seconds sl;
     dwell_microseconds := dwell_microseconds sl;
     trigger_enable := trigger_enable sl;
     trigger_start_freq := trigger_start_freq sl;
     trigger_stop_freq := trigger_stop_freq sl;
     trigger_amplitude := trigger_amplitude sl |}.

Definition set_gain_rf (v : Z) (sl : wsa_sweep_list)
  : wsa_sweep_list :=
  {| start_freq := start_freq sl; stop_freq := stop_freq sl;
     fstep := fstep sl; fshift := fshift sl;
     decimation_rate := decimation_rate sl; ant_port := ant_port sl;
     gain_rf := v; gain_if := gain_if sl;
     sweep_samples_per_packet := sweep_samples_per_packet sl;
     packets_per_block := packets_per_block sl;
     dwell_seconds := dwell_seconds sl;
     dwell_microseconds := dwell_microseconds sl;
     trigger_enable := trigger_enable sl;
     trigger_start_freq := trigger_start_freq sl;
     trigger_stop_freq := trigger_stop_freq sl;
     trigger_amplitude := trigger_amplitude sl |}.

Definition set_gain_if (v : Z) (sl : wsa_sweep_list)
  : wsa_sweep_list :=
  {| start_freq := start_freq sl; stop_freq := stop_freq sl;
     fstep := fstep sl; fshift := fshift sl;
     decimation_rate := decimation_rate sl; ant_port := ant_port sl;
     gain_rf := gain_rf sl; gain_if := v;
     sweep_samples_per_packet := sweep_samples_per_packet sl;
     packets_per_block := packets_per_block sl;
     dwell_seconds := dwell_seconds sl;
     dwell_microseconds := dwell_microseconds sl;
     trigger_enable := trigger_enable sl;
     trigger_start_freq := trigger_start_freq sl;
     trigger_stop_freq := trigger_stop_freq sl;
     trigger_amplitude := trigger_amplitude sl |}.

Definition set_sweep_samples_per_packet (v : Z) (sl : wsa_sweep_list)
  : wsa_sweep_list :=
  {| start_freq := start_freq sl; stop_freq := stop_freq sl;
     fstep := fstep sl; fshift := fshift sl;
     decimation_rate := decimation_rate sl; ant_port := ant_port sl;
     gain_rf := gain_rf sl; gain_if := gain_if sl;
     sweep_samples_per_packet := v;
     packets_per_block := packets_per_block sl;
     dwell_seconds := dwell_seconds sl;
     dwell_microseconds := dwell_microseconds sl;
     trigger_enable := trigger_enable sl;
     trigger_start_freq := trigger_start_freq sl;
     trigger_stop_freq := trigger_stop_freq sl;
     trigger_amplitude := trigger_amplitude sl |}.

Definition set_packets_per_block (v : Z) (sl : wsa_sweep_list)
  : wsa_sweep_list :=
  {| start_freq := start_freq sl; stop_freq := stop_freq sl;
     fstep := fstep sl; fshift := fshift sl;
     decimation_rate := decimation_rate sl; ant_port := ant_port sl;
     gain_rf := gain_rf sl; gain_if := gain_if sl;
     sweep_samples_per_packet := sweep_samples_per_packet sl;
     packets_per_block := v; dwell_seconds := dwell_seconds sl;
     dwell_microseconds := dwell_microseconds sl;
     trigger_enable := trigger_enable sl;
     trigger_start_freq := trigger_start_freq sl;
     trigger_stop_freq := trigger_stop_freq sl;
     trigger_amplitude := trigger_amplitude sl |}.

Definition set_dwell_seconds (v : Z) (sl : wsa_sweep_list)
  : wsa_sweep_list :=
  {| start_freq := start_freq sl; stop_freq := stop_freq sl;
     fstep := fstep sl; fshift := fshift sl;
     decimation_rate := decimation_rate sl; ant_port := ant_port sl;
     gain_rf := gain_rf sl; gain_if := gain_if sl;
     sweep_samples_per_packet := sweep_samples_per_packet sl;
     packets_per_block := packets_per_block sl; dwell_seconds := v;
     dwell_microseconds := dwell_microseconds sl;
     trigger_enable := trigger_enable sl;
     trigger_start_freq := trigger_start_freq sl;
     trigger_stop_freq := trigger_stop_freq sl;
     trigger_amplitude := trigger_amplitude sl |}.

Definition set_dwell_microseconds (v : Z) (sl : wsa_sweep_list)
  : wsa_sweep_list :=
  {| start_freq := start_freq sl; stop_freq := stop_freq sl;
     fstep := fstep sl; fshift := fshift sl;
     decimation_rate := decimation_rate sl; ant_port := ant_port sl;
     gain_rf := gain_rf sl; gain_if := gain_if sl;
     sweep_samples_per_packet := sweep_samples_per_packet sl;
     packets_per_block := packets_per_block sl;
     dwell_seconds := dwell_seconds sl; dwell_microseconds := v;
     trigger_enable := trigger_enable sl;
     trigger_start_freq := trigger_start_freq sl;
     trigger_stop_freq := trigger_stop_freq sl;
     trigger_amplitude := trigger_amplitude sl |}.

Definition set_trigger_enable (v : Z) (sl : wsa_sweep_list)
  : wsa_sweep_list :=
  {| start_freq := start_freq sl; stop_freq := stop_freq sl;
     fstep := fstep sl; fshift := fshift sl;
     decimation_rate := decimation_rate sl; ant_port := ant_port sl;
     gain_rf := gain_rf sl; gain_if := gain_if sl;
     sweep_samples_per_packet := sweep_samples_per_packet sl;
     packets_per_block := packets_per_block sl;
     dwell_seconds := dwell_seconds sl;
     dwell_microseconds := dwell_microseconds sl; trigger_enable := v;
     trigger_start_freq := trigger_start_freq sl;
     trigger_stop_freq := trigger_stop_freq sl;
     trigger_amplitude := trigger_amplitude sl |}.

Definition set_trigger_start_freq (v : Z) (sl : wsa_sweep_list)
  : wsa_sweep_list :=
  {| start_freq := start_freq sl; stop_freq := stop_freq sl;
     fstep := fstep sl; fshift := fshift sl;
     decimation_rate := decimation_rate sl; ant_port := ant_port sl;
     gain_rf := gain_rf sl; gain_if := gain_if sl;
     sweep_samples_per_packet := sweep_samples_per_packet sl;
     packets_per_block := packets_per_block sl;
     dwell_seconds := dwell_seconds sl;
     dwell_microseconds := dwell_microseconds sl;
     trigger_enable := trigger_enable sl; trigger_start_freq := v;
     trigger_stop_freq := trigger_stop_freq sl;
     trigger_amplitude := trigger_amplitude sl |}.

Definition set_trigger_stop_freq (v : Z) (sl : wsa_sweep_list)
  : wsa_sweep_list :=
  {| start_freq := start_freq sl; stop_freq := stop_freq sl;
     fstep := fstep sl; fshift := fshift sl;
     decimation_rate := decimation_rate sl; ant_port := ant_port sl;
     gain_rf := gain_rf sl; gain_if := gain_if sl;
     sweep_samples_per_packet := sweep_samples_per_packet sl;
     packets_per_block := packets_per_block sl;
     dwell_seconds := dwell_seconds sl;
     dwell_microseconds := dwell_microseconds sl;
     trigger_enable := trigger_enable sl;
     trigger_start_freq := trigger_start_freq sl; trigger_stop_freq := v;
     trigger_amplitude := trigger_amplitude sl |}.

Definition set_trigger_amplitude (v : Z) (sl : wsa_sweep_list)
  : wsa_sweep_list :=
  {| start_freq := start_freq sl; stop_freq := stop_freq sl;
     fstep := fstep sl; fshift := fshift sl;
     decimation_rate := decimation_rate sl; ant_port := ant_port sl;
     gain_rf := gain_rf sl; gain_if := gain_if sl;
     sweep_samples_per_packet := sweep_samples_per_packet sl;
     packets_per_block := packets_per_block sl;
     dwell_seconds := dwell_seconds sl;
     dwell_microseconds := dwell_microseconds sl;
     trigger_enable := trigger_enable sl;
     trigger_start_freq := trigger_start_freq sl;
     trigger_stop_freq := trigger_stop_freq sl; trigger_amplitude := v |}.

End SweepEntryFields.

(** ** The API *)

Section Api.
Context {num : CNumeric} {consts : WsaConsts} {env : Environment}
  {codec : VrtCodec}.

(** *** The C library as the API uses it *)

Definition strtok (str : option string) (delim : string)
  : M (option string) :=
  fun w =>
    let s := match str with
             | Some s => s
             | None => w_strtok w
             end in
    let (tok, rest) := strtok_scan delim s in
    Some (tok, set_strtok rest w).

Definition clock : M Z :=
  fun w => Some (w_clock w (w_now w), tick w).

(** A call of [to_double] on the pointer [str]. *)
Definition call_to_double (str : option string) : M (option double) :=
  match str with
  | None => undefined
  | Some s => fun w => Some (to_double s, log (EvParse s) w)
  end.

(** A call of [to_int] on the text [s]. *)
Definition call_to_int (s : string) : M (option Z) :=
  fun w => Some (to_int s, log (EvParse s) w).

(** *** The transaction layer and the socket layer *)

(** Modelled from the spec: [wsa_send_command] of the library layer,
    declared in the library header, is not among the sources.  It writes
    one command line to the command channel, waits for no reply, and
    returns success or the failure of the write. *)
Definition wsa_send_command (dev : wsa_device) (command : string) : M Z :=
  fun w =>
    let (e, r) := cmd_write (w_env w) command in
    Some (r, log (EvWrite command) (set_env e w)).

(** Modelled from the spec: [wsa_send_query] of the library layer,
    declared in the library header, is not among the sources.  It writes
    the command line and reads the reply; the response holds the text,
    trimmed of its framing, and a status: the number of bytes read or a
    negative failure code. *)
Definition wsa_send_query (dev : wsa_device) (command : string)
  : M wsa_resp :=
  fun w =>
    let '(e, (s, text)) := cmd_query (w_env w) command in
    Some ({| status := s; output := text |},
          log (EvWrite command) (set_env e w)).

(** Modelled from the spec: [wsa_sock_recv_data] of the socket layer is
    not among the sources.  One read on a stream within a timeout: the
    outcome and the bytes received. *)
Definition wsa_sock_recv_data (sock_fd nbytes timeout : Z)
  : M (Z * list Z) :=
  fun w =>
    let '(e, (r, bytes)) := data_recv (w_env w) sock_fd nbytes timeout in
    Some ((r, bytes), log (EvRecv nbytes) (set_env e w)).

(** *** Local functions *)

Definition wsa_verify_freq (dev : wsa_device) (freq : Z) : Z :=
  if (freq <? min_tune_freq (descr dev))
     || (freq >? max_tune_freq (descr dev))
  then WSA_ERR_FREQOUTOFBOUND
  else 0.

(** The result is the integer value of the enumerator; the NULL cast of
    the last branch is 0. *)
Definition gain_rf_strtonum (str : string) : Z :=
  match strstr str "HIGH" with
  | Some _ => gain_value WSA_GAIN_HIGH
  | None =>
      match strstr str "MED" with
      | Some _ => gain_value WSA_GAIN_MED
      | None =>
          match strstr str "VLOW" with
          | Some _ => gain_value WSA_GAIN_VLOW
          | None =>
              match strstr str "LOW" with
              | Some _ => gain_value WSA_GAIN_LOW
              | None => 0
              end
          end
      end
  end.

(** *** Amplitude *)

(** [value] is what the caller's variable held before the call; the
    second component of the result is what it holds after it.  An index
    outside the array has no defined behaviour. *)
Definition wsa_get_abs_max_amp (dev : wsa_device) (gain : Z)
  (value : cfloat) : option (Z * cfloat) :=
  if (gain <? gain_value WSA_GAIN_VLOW)
     || (gain >? gain_value WSA_GAIN_HIGH)
  then Some (WSA_ERR_INVRFGAIN, value)
  else match nth_error (abs_max_amp (descr dev)) (Z.to_nat gain) with
       | Some a => Some (0, a)
       | None => None
       end.

(** *** Sweep status and size, flush, abort *)

Definition wsa_get_sweep_status (device : wsa_device) (status_buf : string)
  : M (Z * string) :=
  query <- wsa_send_query device ("SWEEP:LIST:STATUS?" ++ nl) ;;
  if status query <=? 0 then ret (to_int16 (status query), status_buf)
  else if negb (strcmp (output query) "STOPPED" =? 0)
          && negb (strcmp (output query) "RUNNING" =? 0)
  then ret (WSA_ERR_SWEEPMODEUNDEF, status_buf)
  else ret (0, output query).

Definition wsa_get_sweep_entry_size (device : wsa_device) (size : Z)
  : M (Z * Z) :=
  query <- wsa_send_query device ("SWEEP:ENTRY:COUNT?" ++ nl) ;;
  if status query <=? 0 then ret (to_int16 (status query), size)
  else
    r <- call_to_double (Some (output query)) ;;
    match r with
    | None => ret (WSA_ERR_RESPUNKNOWN, size)
    | Some temp => ret (0, int32_of_double temp)
    end.

(** [status0] stands for the content of the local buffer [status], which
    the C function does not initialise. *)
Definition wsa_flush_data (dev : wsa_device) (status0 : string) : M Z :=
  '(result, status_buf) <- wsa_get_sweep_status dev status0 ;;
  if result <? 0 then ret result
  else if strcmp status_buf "RUNNING" =? 0
  then ret WSA_ERR_SWEEPALREADYRUNNING
  else
    result <- wsa_send_command dev ("SWEEP:FLUSH" ++ nl) ;;
    if result <? 0 then ret result else ret 0.

Definition wsa_system_abort_capture (dev : wsa_device) (status0 : string)
  : M Z :=
  '(result, status_buf) <- wsa_get_sweep_status dev status0 ;;
  if result <? 0 then ret result
  else if strcmp status_buf "RUNNING" =? 0
  then ret WSA_ERR_SWEEPALREADYRUNNING
  else
    result <- wsa_send_command dev ("SYSTEM:ABORT" ++ nl) ;;
    if result <? 0 then ret result else ret 0.

(** *** Data acquisition *)

(** The caller's structures that a packet read fills. *)
Record vrt_structs : Type := {
  header : wsa_vrt_packet_header;
  trailer : wsa_vrt_packet_trailer;
  receiver : wsa_receiver_packet;
  digitizer : wsa_digitizer_packet
}.

Definition set_header (h : wsa_vrt_packet_header) (p : vrt_structs)
  : vrt_structs :=
  {| header := h; trailer := trailer p; receiver := receiver p;
     digitizer := digitizer p |}.

Definition set_trailer (t : wsa_vrt_packet_trailer) (p : vrt_structs)
  : vrt_structs :=
  {| header := header p; trailer := t; receiver := receiver p;
     digitizer := digitizer p |}.

Definition set_receiver (r : wsa_receiver_packet) (p : vrt_structs)
  : vrt_structs :=
  {| header := header p; trailer := trailer p; receiver := r;
     digitizer := digitizer p |}.

Definition set_digitizer (d : wsa_digitizer_packet) (p : vrt_structs)
  : vrt_structs :=
  {| header := header p; trailer := trailer p; receiver := receiver p;
     digitizer := d |}.

(** Modelled from the spec: [wsa_read_vrt_packet_raw] of the library
    layer is not among the sources.  It reads one header unit from the
    data channel and decodes it; a receiver or digitizer context frame
    has its context fields decoded and the read returns; an IQ data frame
    has its payload and then its trailer read; a stream identifier that
    is none of the known ones is the error [WSA_ERR_NOTIQFRAME].  A
    failed read on the channel is returned as it is. *)
Definition wsa_read_vrt_packet_raw (dev : wsa_device) (p : vrt_structs)
  (data_buffer : list Z) : M (Z * (vrt_structs * list Z)) :=
  let fd := sock_data (sock dev) in
  '(r, hbytes) <- wsa_sock_recv_data fd header_bytes vrt_timeout ;;
  if r <? 0 then ret (r, (p, data_buffer))
  else
    let h := decode_header hbytes in
    let p := set_header h p in
    if stream_id h =? RECEIVER_STREAM_ID then
      '(r, cbytes) <- wsa_sock_recv_data fd (context_bytes h) vrt_timeout ;;
      if r <? 0 then ret (r, (p, data_buffer))
      else ret (0, (set_receiver (decode_receiver cbytes) p, data_buffer))
    else if stream_id h =? DIGITIZER_STREAM_ID then
      '(r, cbytes) <- wsa_sock_recv_data fd (context_bytes h) vrt_timeout ;;
      if r <? 0 then ret (r, (p, data_buffer))
      else ret (0, (set_digitizer (decode_digitizer cbytes) p, data_buffer))
    else if stream_id h =? IF_DATA_STREAM_ID then
      '(r, payload) <- wsa_sock_recv_data fd (payload_bytes h) vrt_timeout ;;
      if r <? 0 then ret (r, (p, data_buffer))
      else
        '(r, tbytes) <- wsa_sock_recv_data fd trailer_bytes vrt_timeout ;;
        if r <? 0 then ret (r, (p, payload))
        else ret (0, (set_trailer (decode_trailer tbytes) p, payload))
    else ret (WSA_ERR_NOTIQFRAME, (p, data_buffer)).

(** The result holds the caller's structures and the two sample buffers
    after the call.  The data buffer is allocated by the call and has no
    content before the raw read fills it. *)
Definition wsa_read_vrt_packet (dev : wsa_device) (status0 : string)
  (p : vrt_structs) (i_buffer q_buffer : list Z) (samples : Z)
  : M (Z * (vrt_structs * (list Z * list Z))) :=
  let data_buffer := @nil Z in
  '(result, (p, data_buffer)) <- wsa_read_vrt_packet_raw dev p data_buffer ;;
  if result <? 0 then
    (if result =? WSA_ERR_NOTIQFRAME
     then wsa_system_abort_capture dev status0 ;;; ret tt
     else ret tt) ;;;
    ret (result, (p, (i_buffer, q_buffer)))
  else if stream_id (header p) =? IF_DATA_STREAM_ID then
    let '(_, (i_buffer, q_buffer)) :=
      wsa_decode_frame data_buffer i_buffer q_buffer samples in
    ret (0, (p, (i_buffer, q_buffer)))
  else ret (0, (p, (i_buffer, q_buffer))).

Definition wsa_get_decimation (dev : wsa_device) (rate : Z) : M (Z * Z) :=
  query <- wsa_send_query dev (":SENSE:DEC?" ++ nl) ;;
  if status query <=? 0 then ret (to_int16 (status query), rate)
  else
    r <- call_to_int (output query) ;;
    match r with
    | None => ret (WSA_ERR_RESPUNKNOWN, rate)
    | Some temp =>
        if (negb (temp =? 0) && (temp <? min_decimation (descr dev)))
           || (temp >? max_decimation (descr dev))
        then ret (WSA_ERR_RESPUNKNOWN, rate)
        else ret (0, to_int32 temp)
    end.

Definition wsa_system_request_acquisition_access (dev : wsa_device)
  (access : Z) : M (Z * Z) :=
  query <- wsa_send_query dev ("SYSTem:LOCK:REQuest? ACQuisition" ++ nl) ;;
  if status query <=? 0 then ret (to_int16 (status query), access)
  else if strcmp (output query) "1" =? 0 then ret (0, 1)
  else if strcmp (output query) "0" =? 0 then ret (0, 0)
  else ret (0, access).

Definition wsa_system_read_status (dev : wsa_device) (access : Z)
  : M (Z * Z) :=
  query <- wsa_send_query dev (":SYSTem:LOCK:HAVE? ACQuisition" ++ nl) ;;
  if status query <=? 0 then ret (to_int16 (status query), access)
  else if strcmp (output query) "1" =? 0 then ret (0, 1)
  else if strcmp (output query) "0" =? 0 then ret (0, 0)
  else ret (0, access).

(** *** Gain *)

Definition wsa_get_gain_rf (dev : wsa_device) (gain : Z) : M (Z * Z) :=
  query <- wsa_send_query dev ("INPUT:GAIN:RF?" ++ nl) ;;
  if status query <=? 0 then ret (to_int16 (status query), gain)
  else ret (0, gain_rf_strtonum (output query)).

(** *** Frequency *)

Definition wsa_get_freq (dev : wsa_device) (cfreq : Z) : M (Z * Z) :=
  query <- wsa_send_query dev ("FREQ:CENT?" ++ nl) ;;
  if status query <=? 0 then ret (to_int16 (status query), cfreq)
  else
    r <- call_to_double (Some (output query)) ;;
    match r with
    | None => ret (WSA_ERR_RESPUNKNOWN, cfreq)
    | Some temp =>
        if double_ltb temp (double_of_uint64 (min_tune_freq (descr dev)))
           || double_ltb (double_of_uint64 (max_tune_freq (descr dev))) temp
        then ret (WSA_ERR_RESPUNKNOWN, cfreq)
        else ret (0, int64_of_double temp)
    end.

(** The signed argument is converted to the unsigned parameter of
    [wsa_verify_freq]. *)
Definition wsa_set_freq (dev : wsa_device) (cfreq : Z) : M Z :=
  let result := wsa_verify_freq dev (to_uint64 cfreq) in
  if result <? 0 then ret result
  else
    result <- wsa_send_command dev
                ("FREQ:CENT " ++ fmt_lld cfreq ++ " Hz" ++ nl) ;;
    if result <? 0 then ret result else ret 0.

(** *** The sweep list *)

Definition wsa_sweep_entry_copy (dev : wsa_device) (id : Z) : M Z :=
  let size := 0 in
  if (id <? 0) || (id >? size) then ret WSA_ERR_SWEEPIDOOB
  else
    '(result, size) <- wsa_get_sweep_entry_size dev size ;;
    if result <? 0 then ret result
    else if size =? 0 then ret WSA_ERR_SWEEPLISTEMPTY
    else wsa_send_command dev ("SWEEP:ENTRY:COPY " ++ fmt_u id ++ nl).

Definition wsa_sweep_start (dev : wsa_device) (status0 : string) : M Z :=
  let size := 0 in
  '(result, status_buf) <- wsa_get_sweep_status dev status0 ;;
  if result <? 0 then ret result
  else if strcmp status_buf "RUNNING" =? 0
  then ret WSA_ERR_SWEEPALREADYRUNNING
  else
    '(result, size) <- wsa_get_sweep_entry_size dev size ;;
    if result <? 0 then ret result
    else if size <=? 0 then ret WSA_ERR_SWEEPLISTEMPTY
    else
      result <- wsa_send_command dev ("SWEEP:LIST:START" ++ nl) ;;
      if result <? 0 then ret result else ret 0.

(** The loop of [wsa_sweep_stop] that reads what is left on the data
    channel.  The outcome of a read and the bytes it delivers are dropped;
    only the clock ends the loop. *)
Fixpoint wsa_sweep_stop_drain (fuel : nat) (dev : wsa_device)
  (vrt_header_bytes timeout end_time : Z) : M unit :=
  match fuel with
  | O => undefined
  | S fuel' =>
      now <- clock ;;
      if now <=? end_time then
        wsa_sock_recv_data (sock_data (sock dev)) vrt_header_bytes timeout ;;;
        wsa_sweep_stop_drain fuel' dev vrt_header_bytes timeout end_time
      else ret tt
  end.

Definition wsa_sweep_stop (fuel : nat) (dev : wsa_device) (status0 : string)
  : M Z :=
  let vrt_header_bytes := 2 * BYTES_PER_VRT_WORD in
  let timeout := 360 in
  result <- wsa_send_command dev ("SWEEP:LIST:STOP" ++ nl) ;;
  if result <? 0 then ret result
  else
    result <- wsa_flush_data dev status0 ;;
    if result <? 0 then ret result
    else
      start_time <- clock ;;
      let end_time := 5000 + start_time in
      wsa_sweep_stop_drain fuel dev vrt_header_bytes timeout end_time ;;;
      ret 0.

(** One numeric field of the record: [to_double] on the token, and the
    early return of [WSA_ERR_RESPUNKNOWN], with the entry as filled so
    far, when the token is no number. *)
Definition convert_or_return (tok : option string) (sl : wsa_sweep_list)
  (k : double -> M (Z * wsa_sweep_list)) : M (Z * wsa_sweep_list) :=
  r <- call_to_double tok ;;
  match r with
  | None => ret (WSA_ERR_RESPUNKNOWN, sl)
  | Some temp => k temp
  end.

(** [strstr] on a pointer that may be NULL. *)
Definition call_strstr (tok : option string) (needle : string)
  : M (option string) :=
  match tok with
  | None => undefined
  | Some s => ret (strstr s needle)
  end.

Definition call_gain_rf_strtonum (tok : option string) : M Z :=
  match tok with
  | None => undefined
  | Some s => ret (gain_rf_strtonum s)
  end.

(** The trigger part of the record: the token of the trigger type is in
    [tok]. *)
Definition sweep_entry_read_trigger (tok : option string)
  (sl : wsa_sweep_list) : M (Z * wsa_sweep_list) :=
  level <- call_strstr tok "LEVEL" ;;
  match level with
  | Some _ =>
      let sl := set_trigger_enable 1 sl in
      tok <- strtok None "," ;;
      convert_or_return tok sl (fun temp =>
      let sl := set_trigger_start_freq (int64_of_double temp) sl in
      tok <- strtok None "," ;;
      convert_or_return tok sl (fun temp =>
      let sl := set_trigger_stop_freq (int64_of_double temp) sl in
      tok <- strtok None "," ;;
      convert_or_return tok sl (fun temp =>
      let sl := set_trigger_amplitude (int32_of_double temp) sl in
      ret (0, sl))))
  | None =>
      none <- call_strstr tok "NONE" ;;
      match none with
      | Some _ => ret (0, set_trigger_enable 0 sl)
      | None => ret (0, sl)
      end
  end.

Definition wsa_sweep_entry_read (dev : wsa_device) (id : Z)
  (sweep_list : wsa_sweep_list) : M (Z * wsa_sweep_list) :=
  if id <? 0 then ret (WSA_ERR_INVNUMBER, sweep_list)
  else
    query <- wsa_send_query dev ("SWEEP:ENTRY:READ? " ++ fmt_d id ++ nl) ;;
    if status query <=? 0 then ret (to_int16 (status query), sweep_list)
    else
      let sl := sweep_list in
      tok <- strtok (Some (output query)) "," ;;
      convert_or_return tok sl (fun temp =>
      let sl := set_start_freq (int64_of_double temp) sl in
      tok <- strtok None "," ;;
      convert_or_return tok sl (fun temp =>
      let sl := set_stop_freq (int64_of_double temp) sl in
      tok <- strtok None "," ;;
      convert_or_return tok sl (fun temp =>
      let sl := set_fstep (int64_of_double temp) sl in
      tok <- strtok None "," ;;
      convert_or_return tok sl (fun temp =>
      let sl := set_fshift (float_of_double temp) sl in
      tok <- strtok None "," ;;
      convert_or_return tok sl (fun temp =>
      let sl := set_decimation_rate (int32_of_double temp) sl in
      tok <- strtok None "," ;;
      convert_or_return tok sl (fun temp =>
      let sl := set_ant_port (int32_of_double temp) sl in
      tok <- strtok None "," ;;
      gain <- call_gain_rf_strtonum tok ;;
      let sl := set_gain_rf gain sl in
      tok <- strtok None "," ;;
      convert_or_return tok sl (fun temp =>
      let sl := set_gain_if (int32_of_double temp) sl in
      tok <- strtok None "," ;;
      convert_or_return tok sl (fun temp =>
      let sl := set_sweep_samples_per_packet (int16_of_double temp) sl in
      tok <- strtok None "," ;;
      convert_or_return tok sl (fun temp =>
      let sl := set_packets_per_block (int32_of_double temp) sl in
      tok <- strtok None "," ;;
      convert_or_return tok sl (fun temp =>
      let sl := set_dwell_seconds (int32_of_double temp) sl in
      tok <- strtok None "," ;;
      convert_or_return tok sl (fun temp =>
      let sl := set_dwell_microseconds (int32_of_double temp) sl in
      tok <- strtok None "," ;;
      sweep_entry_read_trigger tok sl))))))))))).

End Api.

(** ** The rest of the API

    The setters and getters of the control settings and of the sweep
    entry template, and the other operations on the sweep list. *)

(** More constants of the error header. *)
Class WsaMoreConsts : Type := {
  WSA_ERR_INVDECIMATIONRATE : Z;
  WSA_ERR_INVIFGAIN : Z;
  WSA_ERR_INVANTENNAPORT : Z;
  WSA_ERR_INVFILTERMODE : Z;
  WSA_ERR_INVRFESETTING : Z;
  WSA_ERR_INVTRIGGERMODE : Z;
  WSA_ERR_INVPLLREFSOURCE : Z;
  WSA_ERR_INVALID_DWELL : Z;
  WSA_ERR_STARTOOB : Z;
  WSA_ERR_STOPOOB : Z;
  WSA_ERR_INVSTOPFREQ : Z;
  WSA_ERR_SWEEPENTRYDELETEFAIL : Z
}.

(** The names of the two RF front ends and the number of antenna ports,
    from the library header. *)
Definition WSA_RFE0440 : string := "RFE0440".
Definition WSA_RFE0560 : string := "RFE0560".
Definition WSA_RFE0560_MAX_ANT_PORT : Z := 2.

Definition int32_range (x : Z) : Prop := -2147483648 <= x <= 2147483647.

(** The C platform the library is built for: the width of the type
    [long], in bits. *)
Class CPlatform : Type := {
  long_bits : Z
}.

(** The bounds of the number of samples in a packet, from a header of
    the library. *)
Class Wsa4000Limits : Type := {
  WSA4000_MIN_SAMPLES_PER_PACKET : Z;
  WSA4000_MAX_SAMPLES_PER_PACKET : Z
}.

(** The negation of a [double]. *)
Class CNegation {num : CNumeric} : Type := {
  double_opp : double -> double
}.

Section ApiRest.
Context {num : CNumeric} {consts : WsaConsts} {more : WsaMoreConsts}
  {env : Environment} {plat : CPlatform} {limits : Wsa4000Limits}
  {neg : CNegation}.

(** A text formatted into a local buffer of [size] bytes, by [sprintf] or
    by [strcpy] and [strcat]: the text and its terminator have to fit;
    a longer text is written past the end of the buffer and the program
    has no defined behaviour. *)
Definition sprintf (size : nat) (text : string) : M string :=
  fun w =>
    if (String.length text <? size)%nat then Some (text, w) else None.

(** The conversion [%ld] takes a [long]; the API hands it the trigger
    amplitude, an [int32_t].  Where [long] has 32 bits the two types have
    one representation and the decimal text of the amplitude is printed.
    Where [long] is wider the conversion reads an argument of another
    size than the one passed: the call has no defined behaviour. *)
Definition fmt_ld (z : Z) : M string :=
  if long_bits =? 32 then ret (fmt_d z) else undefined.

(** *** Data acquisition and decimation *)

Definition wsa_set_decimation (dev : wsa_device) (rate : Z) : M Z :=
  if (negb (rate =? 0) && (rate <? min_decimation (descr dev)))
     || (rate >? max_decimation (descr dev))
  then ret WSA_ERR_INVDECIMATIONRATE
  else
    temp_str <- sprintf 50 ("SENSE:DEC " ++ fmt_d rate ++ " " ++ nl) ;;
    result <- wsa_send_command dev temp_str ;;
    if result <? 0 then ret result else ret 0.

(** *** Gain *)

Definition wsa_get_gain_if (dev : wsa_device) (gain : Z) : M (Z * Z) :=
  if strcmp (rfe_name (descr dev)) WSA_RFE0440 =? 0
  then ret (WSA_ERR_INVRFESETTING, gain)
  else
    query <- wsa_send_query dev ("INPUT:GAIN:IF?" ++ nl) ;;
    if status query <=? 0 then ret (to_int16 (status query), gain)
    else
      r <- call_to_int (output query) ;;
      match r with
      | None => ret (WSA_ERR_RESPUNKNOWN, gain)
      | Some temp =>
          if (temp <? min_if_gain (descr dev))
             || (temp >? max_if_gain (descr dev))
          then ret (WSA_ERR_RESPUNKNOWN, gain)
          else ret (0, to_int32 temp)
      end.

Definition wsa_set_gain_if (dev : wsa_device) (gain : Z) : M Z :=
  if strcmp (rfe_name (descr dev)) WSA_RFE0440 =? 0
  then ret WSA_ERR_INVRFESETTING
  else if (gain <? min_if_gain (descr dev))
          || (gain >? max_if_gain (descr dev))
  then ret WSA_ERR_INVIFGAIN
  else
    temp_str <- sprintf 50 ("INPUT:GAIN:IF " ++ fmt_d gain ++ " dB" ++ nl) ;;
    result <- wsa_send_command dev temp_str ;;
    if result <? 0 then ret result else ret 0.

(** The word the [switch] of the two RF gain setters appends for a
    gain. *)
Definition gain_rf_word (gain : Z) : string :=
  if gain =? gain_value WSA_GAIN_HIGH then "HIGH"
  else if gain =? gain_value WSA_GAIN_MED then "MED"
  else if gain =? gain_value WSA_GAIN_LOW then "LOW"
  else if gain =? gain_value WSA_GAIN_VLOW then "VLOW"
  else "ERROR".

Definition wsa_set_gain_rf (dev : wsa_device) (gain : Z) : M Z :=
  if (gain >? gain_value WSA_GAIN_VLOW) || (gain <? gain_value WSA_GAIN_HIGH)
  then ret WSA_ERR_INVRFGAIN
  else
    temp_str <- sprintf 50 ("INPUT:GAIN:RF " ++ gain_rf_word gain ++ nl) ;;
    result <- wsa_send_command dev temp_str ;;
    if result <? 0 then ret result else ret 0.

(** *** RFE control *)

Definition wsa_get_antenna (dev : wsa_device) (port_num : Z) : M (Z * Z) :=
  if strcmp (rfe_name (descr dev)) WSA_RFE0440 =? 0
  then ret (WSA_ERR_INVRFESETTING, port_num)
  else
    query <- wsa_send_query dev ("INPUT:ANTENNA?" ++ nl) ;;
    if status query <=? 0 then ret (to_int16 (status query), port_num)
    else
      r <- call_to_int (output query) ;;
      match r with
      | None => ret (WSA_ERR_RESPUNKNOWN, port_num)
      | Some temp =>
          if (temp <? 1) || (temp >? WSA_RFE0560_MAX_ANT_PORT)
          then ret (WSA_ERR_RESPUNKNOWN, port_num)
          else ret (0, to_int32 temp)
      end.

Definition wsa_set_antenna (dev : wsa_device) (port_num : Z) : M Z :=
  if strcmp (rfe_name (descr dev)) WSA_RFE0440 =? 0
  then ret WSA_ERR_INVRFESETTING
  else if (port_num <? 1) || (port_num >? WSA_RFE0560_MAX_ANT_PORT)
  then ret WSA_ERR_INVANTENNAPORT
  else
    temp_str <- sprintf 30 ("INPUT:ANTENNA " ++ fmt_d port_num ++ nl) ;;
    result <- wsa_send_command dev temp_str ;;
    if result <? 0 then ret result else ret 0.

Definition wsa_get_bpf_mode (dev : wsa_device) (mode : Z) : M (Z * Z) :=
  if strcmp (rfe_name (descr dev)) WSA_RFE0440 =? 0
  then ret (WSA_ERR_INVRFESETTING, mode)
  else
    query <- wsa_send_query dev ("INP:FILT:PRES?" ++ nl) ;;
    if status query <=? 0 then ret (to_int16 (status query), mode)
    else
      r <- call_to_int (output query) ;;
      match r with
      | None => ret (WSA_ERR_RESPUNKNOWN, mode)
      | Some temp =>
          if (temp <? 0) || (temp >? 1)
          then ret (WSA_ERR_RESPUNKNOWN, mode)
          else ret (0, to_int16 temp)
      end.

Definition wsa_set_bpf_mode (dev : wsa_device) (mode : Z) : M Z :=
  if strcmp (rfe_name (descr dev)) WSA_RFE0440 =? 0
  then ret WSA_ERR_INVRFESETTING
  else if (mode <? 0) || (mode >? 1)
  then ret WSA_ERR_INVFILTERMODE
  else
    temp_str <- sprintf 50 ("INPUT:FILT:PRES " ++ fmt_d mode ++ nl) ;;
    result <- wsa_send_command dev temp_str ;;
    if result <? 0 then ret result else ret 0.

(** The firmware version is printed, not returned; the printing is left
    out. *)
Definition wsa_get_fw_ver (dev : wsa_device) : M Z :=
  if strcmp (rfe_name (descr dev)) WSA_RFE0440 =? 0
  then ret WSA_ERR_INVRFESETTING
  else
    query <- wsa_send_query dev ("*IDN?" ++ nl) ;;
    if status query <=? 0 then ret (to_int16 (status query))
    else ret 0.

(** *** Trigger *)

Definition wsa_set_trigger_level (dev : wsa_device)
  (start_freq stop_freq amplitude : Z) : M Z :=
  let result := wsa_verify_freq dev (to_uint64 start_freq) in
  if result =? WSA_ERR_FREQOUTOFBOUND then ret WSA_ERR_STARTOOB
  else if result <? 0 then ret result
  else
    let result := wsa_verify_freq dev (to_uint64 stop_freq) in
    if result =? WSA_ERR_FREQOUTOFBOUND then ret WSA_ERR_STOPOOB
    else if result <? 0 then ret result
    else
      amp <- fmt_ld amplitude ;;
      temp_str <- sprintf 50
                    (":TRIG:LEVEL " ++ fmt_lld start_freq ++ ","
                       ++ fmt_lld stop_freq ++ "," ++ amp ++ nl) ;;
      result <- wsa_send_command dev temp_str ;;
      if result <? 0 then ret result else ret 0.

Definition wsa_set_trigger_enable (dev : wsa_device) (enable : Z) : M Z :=
  if (enable <? 0) || (enable >? 1) then ret WSA_ERR_INVTRIGGERMODE
  else
    temp_str <- sprintf 50 (":TRIGGER:ENABLE " ++ fmt_d enable ++ nl) ;;
    result <- wsa_send_command dev temp_str ;;
    if result <? 0 then ret result else ret 0.

Definition wsa_get_trigger_enable (dev : wsa_device) (enable : Z)
  : M (Z * Z) :=
  query <- wsa_send_query dev (":TRIG:ENABLE?" ++ nl) ;;
  if status query <=? 0 then ret (to_int16 (status query), enable)
  else
    r <- call_to_int (output query) ;;
    match r with
    | None => ret (WSA_ERR_RESPUNKNOWN, enable)
    | Some temp =>
        if (temp <? 0) || (temp >? 1)
        then ret (WSA_ERR_RESPUNKNOWN, enable)
        else ret (0, to_int16 temp)
    end.

(** *** PLL reference *)

Definition wsa_set_reference_pll (dev : wsa_device) (pll_ref : string)
  : M Z :=
  if (strcmp pll_ref "INT" =? 0) || (strcmp pll_ref "EXT" =? 0) then
    temp_str <- sprintf 30 ("SOURCE:REFERENCE:PLL " ++ pll_ref ++ nl) ;;
    result <- wsa_send_command dev temp_str ;;
    if result <? 0 then ret result else ret 0
  else ret WSA_ERR_INVPLLREFSOURCE.

(** *** The sweep entry template *)

Definition wsa_get_sweep_antenna (dev : wsa_device) (port_num : Z)
  : M (Z * Z) :=
  if strcmp (rfe_name (descr dev)) WSA_RFE0440 =? 0
  then ret (WSA_ERR_INVRFESETTING, port_num)
  else
    query <- wsa_send_query dev ("SWEEP:ENTRY:ANTENNA?" ++ nl) ;;
    if status query <=? 0 then ret (to_int16 (status query), port_num)
    else
      r <- call_to_int (output query) ;;
      match r with
      | None => ret (WSA_ERR_RESPUNKNOWN, port_num)
      | Some temp =>
          if (temp <? 1) || (temp >? WSA_RFE0560_MAX_ANT_PORT)
          then ret (WSA_ERR_RESPUNKNOWN, port_num)
          else ret (0, to_int32 temp)
      end.

Definition wsa_set_sweep_antenna (dev : wsa_device) (port_num : Z) : M Z :=
  if strcmp (rfe_name (descr dev)) WSA_RFE0440 =? 0
  then ret WSA_ERR_INVRFESETTING
  else if (port_num <? 1) || (port_num >? WSA_RFE0560_MAX_ANT_PORT)
  then ret WSA_ERR_INVANTENNAPORT
  else
    temp_str <- sprintf 30 ("SWEEP:ENTRY:ANTENNA " ++ fmt_d port_num ++ nl) ;;
    result <- wsa_send_command dev temp_str ;;
    if result <? 0 then ret result else ret 0.

Definition wsa_get_sweep_gain_if (dev : wsa_device) (gain : Z)
  : M (Z * Z) :=
  if strcmp (rfe_name (descr dev)) WSA_RFE0440 =? 0
  then ret (WSA_ERR_INVRFESETTING, gain)
  else
    query <- wsa_send_query dev ("SWEEP:ENTRY:GAIN:IF?" ++ nl) ;;
    if status query <=? 0 then ret (to_int16 (status query), gain)
    else
      r <- call_to_int (output query) ;;
      match r with
      | None => ret (WSA_ERR_RESPUNKNOWN, gain)
      | Some temp =>
          if (temp <? min_if_gain (descr dev))
             || (temp >? max_if_gain (descr dev))
          then ret (WSA_ERR_RESPUNKNOWN, gain)
          else ret (0, to_int32 temp)
      end.

Definition wsa_set_sweep_gain_if (dev : wsa_device) (gain : Z) : M Z :=
  if strcmp (rfe_name (descr dev)) WSA_RFE0440 =? 0
  then ret WSA_ERR_INVRFESETTING
  else if (gain <? min_if_gain (descr dev))
          || (gain >? max_if_gain (descr dev))
  then ret WSA_ERR_INVIFGAIN
  else
    temp_str <- sprintf 50 ("SWEEP:ENTRY:GAIN:IF " ++ fmt_d gain ++ nl) ;;
    result <- wsa_send_command dev temp_str ;;
    if result <? 0 then ret result else ret 0.

Definition wsa_get_sweep_gain_rf (dev : wsa_device) (gain : Z)
  : M (Z * Z) :=
  query <- wsa_send_query dev ("SWEEP:ENTRY:GAIN:RF?" ++ nl) ;;
  if status query <=? 0 then ret (to_int16 (status query), gain)
  else ret (0, gain_rf_strtonum (output query)).

Definition wsa_set_sweep_gain_rf (dev : wsa_device) (gain : Z) : M Z :=
  if (gain >? gain_value WSA_GAIN_VLOW) || (gain <? gain_value WSA_GAIN_HIGH)
  then ret WSA_ERR_INVRFGAIN
  else
    temp_str <- sprintf 50
                  ("SWEEP:ENTRY:GAIN:RF " ++ gain_rf_word gain ++ nl) ;;
    result <- wsa_send_command dev temp_str ;;
    if result <? 0 then ret result else ret 0.

Definition wsa_get_sweep_decimation (device : wsa_device) (rate : Z)
  : M (Z * Z) :=
  query <- wsa_send_query device ("SWEEP:ENTRY:DECIMATION?" ++ nl) ;;
  if status query <=? 0 then ret (to_int16 (status query), rate)
  else
    r <- call_to_int (output query) ;;
    match r with
    | None => ret (WSA_ERR_RESPUNKNOWN, rate)
    | Some temp =>
        if (negb (temp =? 0) && (temp <? min_decimation (descr device)))
           || (temp >? max_decimation (descr device))
        then ret (WSA_ERR_RESPUNKNOWN, rate)
        else ret (0, to_int32 temp)
    end.

Definition wsa_set_sweep_decimation (device : wsa_device) (rate : Z)
  : M Z :=
  if (negb (rate =? 0) && (rate <? min_decimation (descr device)))
     || (rate >? max_decimation (descr device))
  then ret WSA_ERR_INVDECIMATIONRATE
  else
    temp_str <- sprintf 50 ("SWEEP:ENTRY:DECIMATION " ++ fmt_d rate ++ nl) ;;
    result <- wsa_send_command device temp_str ;;
    if result <? 0 then ret result else ret 0.

(** The two out-parameters are the pair [(start_freq, stop_freq)]. *)
Definition wsa_get_sweep_freq (device : wsa_device) (freqs : Z * Z)
  : M (Z * (Z * Z)) :=
  let '(start_freq, stop_freq) := freqs in
  query <- wsa_send_query device ("SWEEP:ENTRY:FREQ:CENTER?" ++ nl) ;;
  if status query <=? 0
  then ret (to_int16 (status query), (start_freq, stop_freq))
  else
    tok <- strtok (Some (output query)) "," ;;
    r <- call_to_double tok ;;
    match r with
    | None => ret (WSA_ERR_RESPUNKNOWN, (start_freq, stop_freq))
    | Some temp =>
        let start_freq := int64_of_double temp in
        tok <- strtok None "," ;;
        r <- call_to_double tok ;;
        match r with
        | None => ret (WSA_ERR_RESPUNKNOWN, (start_freq, stop_freq))
        | Some temp => ret (0, (start_freq, int64_of_double temp))
        end
    end.

Definition wsa_set_sweep_freq (device : wsa_device)
  (start_freq stop_freq : Z) : M Z :=
  let result := wsa_verify_freq device (to_uint64 start_freq) in
  if result =? WSA_ERR_FREQOUTOFBOUND then ret WSA_ERR_STARTOOB
  else if result <? 0 then ret result
  else
    let result := wsa_verify_freq device (to_uint64 stop_freq) in
    if result =? WSA_ERR_FREQOUTOFBOUND then ret WSA_ERR_STOPOOB
    else if result <? 0 then ret result
    else if stop_freq <=? start_freq then ret WSA_ERR_INVSTOPFREQ
    else
      temp_str <- sprintf 50
                    ("SWEEP:ENTRY:FREQ:CENT " ++ fmt_lld start_freq ++ " Hz, "
                       ++ fmt_lld stop_freq ++ " Hz" ++ nl) ;;
      result <- wsa_send_command device temp_str ;;
      if result <? 0 then ret result else ret 0.

Definition wsa_set_sweep_dwell (device : wsa_device)
  (seconds microseconds : Z) : M Z :=
  if (seconds <? 0) || (microseconds <? 0) then ret WSA_ERR_INVALID_DWELL
  else
    temp_str <- sprintf 50
                  ("SWEEP:ENTRY:DWELL " ++ fmt_u seconds ++ ","
                     ++ fmt_u microseconds ++ nl) ;;
    result <- wsa_send_command device temp_str ;;
    if result <? 0 then ret result else ret 0.

Definition wsa_set_sweep_trigger_level (dev : wsa_device)
  (start_freq stop_freq amplitude : Z) : M Z :=
  let result := wsa_verify_freq dev (to_uint64 start_freq) in
  if result =? WSA_ERR_FREQOUTOFBOUND then ret WSA_ERR_STARTOOB
  else
    let result := wsa_verify_freq dev (to_uint64 stop_freq) in
    if result =? WSA_ERR_FREQOUTOFBOUND then ret WSA_ERR_STOPOOB
    else if stop_freq <=? start_freq then ret WSA_ERR_INVSTOPFREQ
    else
      amp <- fmt_ld amplitude ;;
      temp_str <- sprintf 50
                    ("SWEEP:ENTRY:TRIGGER:LEVEL " ++ fmt_lld start_freq ++ ","
                       ++ fmt_lld stop_freq ++ "," ++ amp ++ nl) ;;
      result <- wsa_send_command dev temp_str ;;
      if result <? 0 then ret result else ret 0.

Definition wsa_set_sweep_trigger_type (dev : wsa_device) (enable : Z)
  : M Z :=
  if (enable <? 0) || (enable >? 1) then ret WSA_ERR_INVTRIGGERMODE
  else
    temp_str <- (if enable =? 0
                 then sprintf 50 ("SWEEP:ENTRY:TRIGGER:TYPE NONE" ++ nl)
                 else sprintf 50 ("SWEEP:ENTRY:TRIGGER:TYPE LEVEL" ++ nl)) ;;
    result <- wsa_send_command dev temp_str ;;
    if result <? 0 then ret result else ret 0.

Definition wsa_get_sweep_trigger_type (dev : wsa_device) (enable : Z)
  : M (Z * Z) :=
  query <- wsa_send_query dev ("SWEEP:ENTRY:TRIGGER:TYPE?" ++ nl) ;;
  if status query <=? 0 then ret (to_int16 (status query), enable)
  else if strcmp (output query) "LEVEL" =? 0 then ret (0, 1)
  else if strcmp (output query) "NONE" =? 0 then ret (0, 0)
  else ret (0, -1).

(** *** The sweep list *)

(** [size0] stands for the content of the local variable [size], which
    the C function does not initialise. *)
Definition wsa_sweep_entry_delete (dev : wsa_device) (size0 : Z) (id : Z)
  : M Z :=
  '(result, size) <- wsa_get_sweep_entry_size dev size0 ;;
  if result <? 0 then ret WSA_ERR_SWEEPENTRYDELETEFAIL
  else if (id <? 1) || (id >? size) then ret WSA_ERR_SWEEPIDOOB
  else
    temp_str <- sprintf 50 ("SWEEP:ENTRY:DELETE " ++ fmt_u id ++ nl) ;;
    wsa_send_command dev temp_str.

Definition wsa_sweep_resume (dev : wsa_device) (status0 : string) : M Z :=
  let size := 0 in
  '(result, status_buf) <- wsa_get_sweep_status dev status0 ;;
  if result <? 0 then ret result
  else if strcmp status_buf "RUNNING" =? 0
  then ret WSA_ERR_SWEEPALREADYRUNNING
  else
    '(result, size) <- wsa_get_sweep_entry_size dev size ;;
    if result <? 0 then ret result
    else if size <=? 0 then ret WSA_ERR_SWEEPLISTEMPTY
    else
      result <- wsa_send_command dev ("SWEEP:LIST:RESUME" ++ nl) ;;
      if result <? 0 then ret result else ret 0.

(** The sum [size + 1], evaluated when [id] is not negative, is computed
    in [int32_t]: it has no defined value when [size] is the largest
    one. *)
Definition wsa_sweep_entry_save (dev : wsa_device) (id : Z) : M Z :=
  let size := 0 in
  '(result, size) <- wsa_get_sweep_entry_size dev size ;;
  if result <? 0 then ret result
  else if id <? 0 then ret WSA_ERR_SWEEPIDOOB
  else if size =? 2147483647 then undefined
  else if id >? size + 1 then ret WSA_ERR_SWEEPIDOOB
  else
    temp_str <- sprintf 50 ("SWEEP:ENTRY:SAVE " ++ fmt_u id ++ nl) ;;
    result <- wsa_send_command dev temp_str ;;
    if result <? 0 then ret result else ret 0.

(** *** The other getters *)

Definition wsa_get_samples_per_packet (device : wsa_device)
  (samples_per_packet : Z) : M (Z * Z) :=
  query <- wsa_send_query device ("TRACE:SPPACKET?" ++ nl) ;;
  if status query <=? 0 then ret (to_int16 (status query), samples_per_packet)
  else
    r <- call_to_int (output query) ;;
    match r with
    | None => ret (WSA_ERR_RESPUNKNOWN, samples_per_packet)
    | Some temp =>
        if (temp <? WSA4000_MIN_SAMPLES_PER_PACKET)
           || (temp >? WSA4000_MAX_SAMPLES_PER_PACKET)
        then ret (WSA_ERR_RESPUNKNOWN, samples_per_packet)
        else ret (0, to_int32 temp)
    end.

Definition wsa_get_packets_per_block (device : wsa_device)
  (packets_per_block : Z) : M (Z * Z) :=
  query <- wsa_send_query device ("TRACE:BLOCK:PACKETS?" ++ nl) ;;
  if status query <=? 0 then ret (to_int16 (status query), packets_per_block)
  else
    r <- call_to_int (output query) ;;
    match r with
    | None => ret (WSA_ERR_RESPUNKNOWN, packets_per_block)
    | Some temp => ret (0, to_int32 temp)
    end.

Definition wsa_get_freq_shift (dev : wsa_device) (fshift : cfloat)
  : M (Z * cfloat) :=
  let range := double_of_uint64 (inst_bw (descr dev)) in
  query <- wsa_send_query dev ("FREQ:SHIFT?" ++ nl) ;;
  if status query <=? 0 then ret (to_int16 (status query), fshift)
  else
    r <- call_to_double (Some (output query)) ;;
    match r with
    | None => ret (WSA_ERR_RESPUNKNOWN, fshift)
    | Some temp =>
        if double_ltb temp (double_opp range) || double_ltb range temp
        then ret (WSA_ERR_RESPUNKNOWN, fshift)
        else ret (0, float_of_double temp)
    end.

(** The three out-parameters are the triple
    [(start_freq, (stop_freq, amplitude))]. *)
Definition wsa_get_trigger_level (dev : wsa_device) (levels : Z * (Z * Z))
  : M (Z * (Z * (Z * Z))) :=
  let '(start_freq, (stop_freq, amplitude)) := levels in
  query <- wsa_send_query dev (":TRIG:LEVEL?" ++ nl) ;;
  if status query <=? 0
  then ret (to_int16 (status query), (start_freq, (stop_freq, amplitude)))
  else
    tok <- strtok (Some (output query)) "," ;;
    r <- call_to_double tok ;;
    match r with
    | None => ret (WSA_ERR_RESPUNKNOWN, (start_freq, (stop_freq, amplitude)))
    | Some temp =>
        if double_ltb temp (double_of_uint64 (min_tune_freq (descr dev)))
           || double_ltb (double_of_uint64 (max_tune_freq (descr dev))) temp
        then ret (WSA_ERR_RESPUNKNOWN, (start_freq, (stop_freq, amplitude)))
        else
          let start_freq := int64_of_double temp in
          tok <- strtok None "," ;;
          r <- call_to_double tok ;;
          match r with
          | None =>
              ret (WSA_ERR_RESPUNKNOWN, (start_freq, (stop_freq, amplitude)))
          | Some temp =>
              if double_ltb temp
                   (double_of_uint64 (min_tune_freq (descr dev)))
                 || double_ltb
                      (double_of_uint64 (max_tune_freq (descr dev))) temp
              then
                ret (WSA_ERR_RESPUNKNOWN,
                     (start_freq, (stop_freq, amplitude)))
              else
                let stop_freq := int64_of_double temp in
                tok <- strtok None "," ;;
                r <- call_to_double tok ;;
                match r with
                | None =>
                    ret (WSA_ERR_RESPUNKNOWN,
                         (start_freq, (stop_freq, amplitude)))
                | Some temp =>
                    ret (0, (start_freq, (stop_freq, int32_of_double temp)))
                end
          end
    end.

(** The reply is copied into the caller's buffer, whose size the function
    does not know. *)
Definition wsa_get_reference_pll (dev : wsa_device) (pll_ref : string)
  : M (Z * string) :=
  if negb (strcmp (rfe_name (descr dev)) WSA_RFE0560 =? 0)
  then ret (WSA_ERR_INVRFESETTING, pll_ref)
  else
    query <- wsa_send_query dev ("SOURCE:REFERENCE:PLL?" ++ nl) ;;
    if status query <=? 0 then ret (to_int16 (status query), pll_ref)
    else ret (0, output query).

(** On a reply that is no number the function prints the [double] that
    was not set with the conversion [%ld]: that call has no defined
    behaviour. *)
Definition wsa_get_lock_ref_pll (dev : wsa_device) (lock_ref : Z)
  : M (Z * Z) :=
  query <- wsa_send_query dev ("LOCK:REFerence?" ++ nl) ;;
  if status query <=? 0 then ret (to_int16 (status query), lock_ref)
  else
    r <- call_to_double (Some (output query)) ;;
    match r with
    | None => undefined
    | Some temp => ret (0, int32_of_double temp)
    end.

(** The value is converted to [uint32_t] and stored in an [int32_t]. *)
Definition wsa_get_sweep_samples_per_packet (device : wsa_device)
  (samples_per_packet : Z) : M (Z * Z) :=
  query <- wsa_send_query device ("SWEEP:ENTRY:SPPACKET?" ++ nl) ;;
  if status query <=? 0 then ret (to_int16 (status query), samples_per_packet)
  else
    r <- call_to_int (output query) ;;
    match r with
    | None => ret (WSA_ERR_RESPUNKNOWN, samples_per_packet)
    | Some temp =>
        if (temp <? WSA4000_MIN_SAMPLES_PER_PACKET)
           || (temp >? WSA4000_MAX_SAMPLES_PER_PACKET)
        then ret (WSA_ERR_RESPUNKNOWN, samples_per_packet)
        else ret (0, to_int32 (to_uint32 temp))
    end.

Definition wsa_get_sweep_packets_per_block (device : wsa_device)
  (packets_per_block : Z) : M (Z * Z) :=
  query <- wsa_send_query device ("SWEEP:ENTRY:PPBLOCK?" ++ nl) ;;
  if status query <=? 0 then ret (to_int16 (status query), packets_per_block)
  else
    r <- call_to_int (output query) ;;
    match r with
    | None => ret (WSA_ERR_RESPUNKNOWN, packets_per_block)
    | Some temp => ret (0, to_uint32 temp)
    end.

Definition wsa_get_sweep_freq_shift (device : wsa_device) (fshift : cfloat)
  : M (Z * cfloat) :=
  query <- wsa_send_query device ("SWEEP:ENTRY:FREQ:SHIFT?" ++ nl) ;;
  if status query <=? 0 then ret (to_int16 (status query), fshift)
  else
    r <- call_to_double (Some (output query)) ;;
    match r with
    | None => ret (WSA_ERR_RESPUNKNOWN, fshift)
    | Some temp => ret (0, float_of_double temp)
    end.

Definition wsa_get_sweep_freq_step (device : wsa_device) (fstep : Z)
  : M (Z * Z) :=
  query <- wsa_send_query device ("SWEEP:ENTRY:FREQ:STEP?" ++ nl) ;;
  if status query <=? 0 then ret (to_int16 (status query), fstep)
  else
    r <- call_to_double (Some (output query)) ;;
    match r with
    | None => ret (WSA_ERR_RESPUNKNOWN, fstep)
    | Some temp => ret (0, int64_of_double temp)
    end.

(** The two out-parameters are the pair [(seconds, microseconds)]. *)
Definition wsa_get_sweep_dwell (device : wsa_device) (dwell : Z * Z)
  : M (Z * (Z * Z)) :=
  let '(seconds, microseconds) := dwell in
  query <- wsa_send_query device ("SWEEP:ENTRY:DWELL?" ++ nl) ;;
  if status query <=? 0
  then ret (to_int16 (status query), (seconds, microseconds))
  else
    tok <- strtok (Some (output query)) "," ;;
    r <- call_to_double tok ;;
    match r with
    | None => ret (WSA_ERR_RESPUNKNOWN, (seconds, microseconds))
    | Some temp =>
        let seconds := int32_of_double temp in
        tok <- strtok None "," ;;
        r <- call_to_double tok ;;
        match r with
        | None => ret (WSA_ERR_RESPUNKNOWN, (seconds, microseconds))
        | Some temp => ret (0, (seconds, int32_of_double temp))
        end
    end.

Definition wsa_get_sweep_trigger_level (dev : wsa_device)
  (levels : Z * (Z * Z)) : M (Z * (Z * (Z * Z))) :=
  let '(start_freq, (stop_freq, amplitude)) := levels in
  query <- wsa_send_query dev ("SWEEP:ENTRY:TRIGGER:LEVEL?" ++ nl) ;;
  if status query <=? 0
  then ret (to_int16 (status query), (start_freq, (stop_freq, amplitude)))
  else
    tok <- strtok (Some (output query)) "," ;;
    r <- call_to_double tok ;;
    match r with
    | None => ret (WSA_ERR_RESPUNKNOWN, (start_freq, (stop_freq, amplitude)))
    | Some temp =>
        let start_freq := int64_of_double temp in
        tok <- strtok None "," ;;
        r <- call_to_double tok ;;
        match r with
        | None =>
            ret (WSA_ERR_RESPUNKNOWN, (start_freq, (stop_freq, amplitude)))
        | Some temp =>
            let stop_freq := int64_of_double temp in
            tok <- strtok None "," ;;
            r <- call_to_double tok ;;
            match r with
            | None =>
                ret (WSA_ERR_RESPUNKNOWN,
                     (start_freq, (stop_freq, amplitude)))
            | Some temp =>
                ret (0, (start_freq, (stop_freq, int32_of_double temp)))
            end
        end
    end.

Definition wsa_get_sweep_iteration (device : wsa_device) (interation : Z)
  : M (Z * Z) :=
  query <- wsa_send_query device ("SWEEP:LIST:ITERATION?" ++ nl) ;;
  if status query <=? 0 then ret (to_int16 (status query), interation)
  else
    r <- call_to_double (Some (output query)) ;;
    match r with
    | None => ret (WSA_ERR_RESPUNKNOWN, interation)
    | Some temp => ret (0, int32_of_double temp)
    end.

End ApiRest.

(** ** Observations on a trace *)

(** How many times the line [line] was written on the command channel. *)
Fixpoint count_writes (line : string) (tr : list event) : nat :=
  match tr with
  | [] => O
  | EvWrite l :: tr' =>
      if String.eqb l line then S (count_writes line tr')
      else count_writes line tr'
  | _ :: tr' => count_writes line tr'
  end.

(** ** A sample platform

    One instance of every interface, to run the API on concrete inputs:
    doubles restricted to the integers they hold, sample values for the
    constants (the error codes negative, as the API documents them), and
    a scripted instrument. *)

Module Sample.

(** Rounding of an integer to the nearest integer with 53 significant
    bits, ties to even: the value of the integer as a binary64. *)
Definition round_binary64 (n : Z) : Z :=
  let a := Z.abs n in
  if a <? 2 ^ 53 then n
  else
    let e := Z.log2 a - 52 in
    let q := a / 2 ^ e in
    let r := a mod 2 ^ e in
    let half := 2 ^ (e - 1) in
    let q' := if (half <? r) || ((r =? half) && Z.odd q) then q + 1 else q in
    Z.sgn n * (q' * 2 ^ e).

(** A decimal integer, with an optional minus sign, as a number. *)
Definition parse_decimal (s : string) : option Z :=
  match NilZero.int_of_string s with
  | Some d => Some (Z.of_int d)
  | None => None
  end.

#[export] Instance numeric : CNumeric := {|
  double := Z;
  cfloat := Z;
  to_double := fun s => option_map round_binary64 (parse_decimal s);
  to_int := parse_decimal;
  double_of_uint64 := round_binary64;
  double_ltb := Z.ltb;
  int64_of_double := to_int64;
  int32_of_double := to_int32;
  int16_of_double := to_int16;
  float_of_double := fun d => d
|}.

#[export] Instance consts : WsaConsts := {|
  WSA_ERR_FREQOUTOFBOUND := -11301;
  WSA_ERR_INVRFGAIN := -11306;
  WSA_ERR_INVNUMBER := -10008;
  WSA_ERR_NOTIQFRAME := -11504;
  WSA_ERR_RESPUNKNOWN := -10204;
  WSA_ERR_SWEEPALREADYRUNNING := -13001;
  WSA_ERR_SWEEPIDOOB := -13004;
  WSA_ERR_SWEEPLISTEMPTY := -13002;
  WSA_ERR_SWEEPMODEUNDEF := -13005;
  RECEIVER_STREAM_ID := 2415919105;
  DIGITIZER_STREAM_ID := 2415919106;
  IF_DATA_STREAM_ID := 2415919107;
  BYTES_PER_VRT_WORD := 4
|}.

(** The scripted instrument: the answers to queries by query text, the
    center frequency as the text last sent, and the reads the data
    channel will deliver, in order. *)
Record instrument : Type := {
  answers : list (string * (Z * string));
  center : string;
  units : list (Z * list Z)
}.

Fixpoint answer_of (q : string) (table : list (string * (Z * string)))
  : Z * string :=
  match table with
  | [] => (-1, EmptyString)
  | (q', a) :: table' => if String.eqb q q' then a else answer_of q table'
  end.

(** The text of a line up to its first blank. *)
Fixpoint first_word (s : string) : string :=
  match s with
  | EmptyString => EmptyString
  | String c s' =>
      if Ascii.eqb c " "%char then EmptyString else String c (first_word s')
  end.

Definition instrument_write (st : instrument) (line : string)
  : instrument * Z :=
  if String.prefix "FREQ:CENT " line then
    ({| answers := answers st;
        center := first_word (String.substring 10 (String.length line) line);
        units := units st |}, 0)
  else (st, 0).

Definition instrument_query (st : instrument) (line : string)
  : instrument * (Z * string) :=
  if String.eqb line ("FREQ:CENT?" ++ nl)
  then (st, (Z.of_nat (String.length (center st)), center st))
  else (st, answer_of line (answers st)).

Definition instrument_recv (st : instrument) (fd nbytes timeout : Z)
  : instrument * (Z * list Z) :=
  match units st with
  | [] => (st, (-1, []))
  | u :: us =>
      ({| answers := answers st; center := center st; units := us |}, u)
  end.

#[export] Instance environment : Environment := {|
  env_state := instrument;
  cmd_write := instrument_write;
  cmd_query := instrument_query;
  data_recv := instrument_recv
|}.

(** A header unit of two words whose second word is the stream
    identifier, most significant byte first. *)
Definition be32 (bytes : list Z) : Z :=
  fold_left (fun acc b => acc * 256 + b) (firstn 4 bytes) 0.

#[export] Instance codec : VrtCodec := {|
  wsa_vrt_packet_trailer := list Z;
  wsa_receiver_packet := list Z;
  wsa_digitizer_packet := list Z;
  header_bytes := 8;
  trailer_bytes := 4;
  context_bytes := fun _ => 4;
  payload_bytes := fun h => 4 * samples_per_packet h;
  vrt_timeout := 1000;
  decode_header := fun bytes =>
    {| stream_id := be32 (skipn 4 bytes);
       pkt_count := Z.land (nth 1 bytes 0) 15;
       samples_per_packet := nth 2 bytes 0 * 256 + nth 3 bytes 0 - 3;
       time_stamp_sec := 0;
       time_stamp_psec := 0 |};
  decode_trailer := fun bytes => bytes;
  decode_receiver := fun bytes => bytes;
  decode_digitizer := fun bytes => bytes;
  wsa_decode_frame := fun data i_buf q_buf n => (0, (i_buf, q_buf))
|}.

Definition descriptor : wsa_descriptor := {|
  prod_name := "WSA4000";
  prod_serial := "";
  prod_version := "";
  rfe_name := "RFE0560";
  rfe_version := "";
  fw_version := "";
  intf_type := "TCPIP";
  inst_bw := 125000000;
  max_sample_size := 2560 * 1024;
  max_tune_freq := 11000 * 1000000;
  min_tune_freq := 100000;
  freq_resolution := 100000;
  max_if_gain := 34;
  min_if_gain := -10;
  min_decimation := 16;
  max_decimation := 1023;
  abs_max_amp := [0; -15; 0; 13; 20]
|}.

Definition device : wsa_device :=
  {| descr := descriptor; sock := {| sock_cmd := 3; sock_data := 4 |} |}.

(** A state of the client in front of the instrument [st], with the
    clock readings [ticks], before anything was done. *)
Definition start (st : instrument) (ticks : nat -> Z) : world :=
  {| w_env := st; w_clock := ticks; w_now := O;
     w_strtok := EmptyString; w_trace := [] |}.

(** A reply with its byte count as the status. *)
Definition reply (text : string) : Z * string :=
  (Z.of_nat (String.length text), text).

(** An instrument with the sweep status [sweep_status] and the sweep
    list [entries], the records as it sends them. *)
Definition bench (sweep_status : string) (entries : list string)
  (data : list (Z * list Z)) : instrument :=
  {| answers :=
       [(("SWEEP:LIST:STATUS?" ++ nl)%string, reply sweep_status);
        (("SWEEP:ENTRY:COUNT?" ++ nl)%string,
         reply (fmt_d (Z.of_nat (List.length entries))));
        (("SWEEP:ENTRY:READ? 1" ++ nl)%string,
         reply (nth 0 entries EmptyString))];
     center := "0";
     units := data |}.

(** An instrument that answers no query. *)
Definition silent : instrument :=
  {| answers := []; center := EmptyString; units := [] |}.

(** A header unit with the stream identifier 0x90000009, which names no
    stream. *)
Definition stray_header : Z * list Z := (8, [24; 0; 0; 5; 144; 0; 0; 9]).

Definition record_none : string :=
  "2400000000,2500000000,1000000,0,16,1,MED,0,1024,1,0,500,NONE,7,8,9".

Definition record_periodic : string :=
  "2400000000,2500000000,1000000,0,16,1,MED,0,1024,1,0,500,PERIODIC".

Definition record_fields : list string :=
  ["2400000000"; "2500000000"; "1000000"; "0"; "16"; "1"; "MED"; "0";
   "1024"; "1"; "0"; "500"]%string.

Definition blank_entry : wsa_sweep_list := {|
  start_freq := 0; stop_freq := 0; fstep := 0; fshift := 0;
  decimation_rate := 0; ant_port := 0; gain_rf := 0; gain_if := 0;
  sweep_samples_per_packet := 0; packets_per_block := 0;
  dwell_seconds := 0; dwell_microseconds := 0;
  trigger_enable := 1; trigger_start_freq := 2410000000;
  trigger_stop_freq := 2420000000; trigger_amplitude := -40
|}.

Definition blank_structs : vrt_structs := {|
  header := {| stream_id := 0; pkt_count := 0; samples_per_packet := 0;
               time_stamp_sec := 0; time_stamp_psec := 0 |};
  trailer := [];
  receiver := [];
  digitizer := []
|}.

(** A clock that advances by 2000 ticks from one reading to the next. *)
Definition steady_clock (n : nat) : Z := 2000 * Z.of_nat n.

End Sample.

(** ** The sample platform, continued *)

Module SampleRest.
Import Sample.

#[export] Instance more : WsaMoreConsts := {|
  WSA_ERR_INVDECIMATIONRATE := -11311;
  WSA_ERR_INVIFGAIN := -11307;
  WSA_ERR_INVANTENNAPORT := -11304;
  WSA_ERR_INVFILTERMODE := -11305;
  WSA_ERR_INVRFESETTING := -11312;
  WSA_ERR_INVTRIGGERMODE := -11601;
  WSA_ERR_INVPLLREFSOURCE := -11313;
  WSA_ERR_INVALID_DWELL := -13006;
  WSA_ERR_STARTOOB := -11602;
  WSA_ERR_STOPOOB := -11603;
  WSA_ERR_INVSTOPFREQ := -11604;
  WSA_ERR_SWEEPENTRYDELETEFAIL := -13003
|}.

(** A platform whose [long] has 32 bits, and one whose [long] has 64. *)
#[export] Instance platform : CPlatform := {| long_bits := 32 |}.

Definition lp64 : CPlatform := {| long_bits := 64 |}.

#[export] Instance limits : Wsa4000Limits := {|
  WSA4000_MIN_SAMPLES_PER_PACKET := 128;
  WSA4000_MAX_SAMPLES_PER_PACKET := 65520
|}.

#[export] Instance negation : CNegation := {| double_opp := Z.opp |}.

(** A WSA4000 with the RFE0440 front end. *)
Definition descriptor_rfe0440 : wsa_descriptor := {|
  prod_name := "WSA4000";
  prod_serial := "";
  prod_version := "";
  rfe_name := WSA_RFE0440;
  rfe_version := "";
  fw_version := "";
  intf_type := "TCPIP";
  inst_bw := 125000000;
  max_sample_size := 2560 * 1024;
  max_tune_freq := 4000 * 1000000;
  min_tune_freq := 200 * 1000000;
  freq_resolution := 100000;
  max_if_gain := 0;
  min_if_gain := 0;
  min_decimation := 16;
  max_decimation := 1023;
  abs_max_amp := [0; -15; 0; 13; 20]
|}.

Definition device_rfe0440 : wsa_device :=
  {| descr := descriptor_rfe0440;
     sock := {| sock_cmd := 3; sock_data := 4 |} |}.

(** An instrument that accepts every command and answers the queries of
    [table], given without their line ends, each with the byte count of
    its reply as the status. *)
Definition answering (table : list (string * string)) : instrument :=
  {| answers := map (fun qa => ((fst qa ++ nl)%string, reply (snd qa))) table;
     center := EmptyString;
     units := [] |}.

(** The state of the client in front of an instrument that answers
    [table]. *)
Definition facing (table : list (string * string)) : world :=
  start (answering table) steady_clock.

(** A command channel that is down: every write and every query fails
    with the status -1, and so does every read of the data channel. *)
Definition dead_line : Environment := {|
  env_state := unit;
  cmd_write := fun st _ => (st, -1);
  cmd_query := fun st _ => (st, (-1, EmptyString));
  data_recv := fun st _ _ _ => (st, (-1, []))
|}.

Definition dead_start : @world dead_line :=
  @Build_world dead_line tt steady_clock O EmptyString [].

Definition record_level : string :=
  "2400000000,2500000000,1000000,0,16,1,MED,0,1024,1,0,500,LEVEL,2410000000,2420000000,-35".


(** A receiver context packet on the data channel: the header unit, then
    the context field. *)
Definition receiver_header : Z * list Z := (8, [65; 0; 0; 6; 144; 0; 0; 1]).
Definition receiver_context : Z * list Z := (4, [0; 0; 0; 1]).

(** An instrument with the units [data] waiting on its data channel. *)
Definition streaming (data : list (Z * list Z)) : world :=
  start {| answers := []; center := EmptyString; units := data |}
    steady_clock.

End SampleRest.

(** ** Notions the properties are stated with *)

Section Notions.
Context {num : CNumeric} {consts : WsaConsts} {env : Environment}.

(** A getter with the out-parameter of type [A] that sends the query
    [q] short-circuits: whenever the reply to [q] has a status [s <= 0],
    the call returns [s] (as the 16-bit result), the out-parameter keeps
    its value, and the state after the call is the state before it with
    the reply read and the one write of [q] traced: no call of a parsing
    helper, no other write. *)
Definition short_circuits {A : Type} (getter : A -> M (Z * A)) (q : string)
  : Prop :=
  forall (old : A) (w : world) (e : env_state) (s : Z) (text : string),
    cmd_query (w_env w) q = (e, (s, text)) ->
    s <= 0 ->
    getter old w = Some ((to_int16 s, old), log (EvWrite q) (set_env e w)).

(** The claim on a frame of an unknown stream, as the specification
    words it: when the header unit read from the data channel names none
    of the known streams, the read returns [WSA_ERR_NOTIQFRAME] and,
    before it returns, the abort command was written exactly once. *)
Definition aborts_exactly_once {codec : VrtCodec} (dev : wsa_device)
  (status0 : string) (p : vrt_structs) (i_buffer q_buffer : list Z)
  (samples : Z) (w : world) : Prop :=
  forall (e : env_state) (r : Z) (hbytes : list Z),
    data_recv (w_env w) (sock_data (sock dev)) header_bytes vrt_timeout
    = (e, (r, hbytes)) ->
    0 <= r ->
    stream_id (decode_header hbytes) <> RECEIVER_STREAM_ID ->
    stream_id (decode_header hbytes) <> DIGITIZER_STREAM_ID ->
    stream_id (decode_header hbytes) <> IF_DATA_STREAM_ID ->
    exists out w' tr,
      wsa_read_vrt_packet dev status0 p i_buffer q_buffer samples w
      = Some ((WSA_ERR_NOTIQFRAME, out), w')
      /\ w_trace w' = (w_trace w ++ tr)%list
      /\ count_writes ("SYSTEM:ABORT" ++ nl) tr = 1%nat.

(** The numeric layer is exact on the integers below 2^53, which a
    double holds exactly: the helper parses the decimal text of such an
    integer to it, and the comparison and the cast back to an integer
    are those of the integers. *)
Definition exact_below_2_53 : Prop :=
  forall n : Z,
    0 <= n < 2 ^ 53 ->
    to_double (fmt_lld n) = Some (double_of_uint64 n)
    /\ int64_of_double (double_of_uint64 n) = n
    /\ (forall m : Z,
          0 <= m < 2 ^ 53 ->
          double_ltb (double_of_uint64 n) (double_of_uint64 m) = (n <? m)).

(** The instrument in the state [e] stores the frequency [f] it is sent
    and echoes it: the write of the set command succeeds, and the query
    that follows is answered with the decimal text of [f]. *)
Definition stores_and_echoes (e : env_state) (f : Z) : Prop :=
  exists (e1 : env_state) (r : Z) (e2 : env_state) (s : Z),
    cmd_write e ("FREQ:CENT " ++ fmt_lld f ++ " Hz" ++ nl) = (e1, r)
    /\ 0 <= r
    /\ cmd_query e1 ("FREQ:CENT?" ++ nl) = (e2, (s, fmt_lld f))
    /\ 0 < s.

(** The reply [text] is an entry record: its first thirteen tokens are
    the twelve fields of the capture settings, [fields], and the token
    of the trigger type, [trig]; [rest] is the text after them.  All
    fields but the RF gain (the seventh) are numbers to [to_double]. *)
Definition entry_record (text : string) (fields : list string)
  (trig rest : string) : Prop :=
  List.length fields = 12%nat
  /\ strtok_tokens 13 "," text = Some ((fields ++ [trig])%list, rest)
  /\ (forall (i : nat) (t : string),
        i <> 6%nat -> nth_error fields i = Some t -> to_double t <> None).

(** The tokens of [fields] that [wsa_sweep_entry_read] hands to
    [to_double], in order. *)
Definition numeric_fields (fields : list string) : list string :=
  (firstn 6 fields ++ skipn 7 fields)%list.

(** The trigger settings of an entry. *)
Definition same_trigger_levels (a b : wsa_sweep_list) : Prop :=
  trigger_start_freq a = trigger_start_freq b
  /\ trigger_stop_freq a = trigger_stop_freq b
  /\ trigger_amplitude a = trigger_amplitude b.

(** A call without an out-parameter that sends the query [q]
    short-circuits in the same sense. *)
Definition returns_failed_status (call : M Z) (q : string) : Prop :=
  forall (w : world) (e : env_state) (s : Z) (text : string),
    cmd_query (w_env w) q = (e, (s, text)) ->
    s <= 0 ->
    call w = Some (to_int16 s, log (EvWrite q) (set_env e w)).


End Notions.

(** * Properties *)

(** ** Integer conversions *)

Lemma to_int16_id (x : Z) : int16_range x -> to_int16 x = x.
Proof.
  unfold int16_range, to_int16, wrap_signed. intros H.
  change (2 ^ (16 - 1)) with 32768. change (2 ^ 16) with 65536.
  rewrite Z.mod_small by lia. lia.
Qed.

Lemma to_uint64_nonneg (x : Z) : 0 <= x -> int64_range x -> to_uint64 x = x.
Proof.
  unfold int64_range, to_uint64, wrap_unsigned. intros H0 H.
  apply Z.mod_small. change (2 ^ 64) with 18446744073709551616. lia.
Qed.

Lemma to_uint64_neg (x : Z) :
  x < 0 -> int64_range x -> to_uint64 x = x + 18446744073709551616.
Proof.
  unfold int64_range, to_uint64, wrap_unsigned. intros H0 H.
  change (2 ^ 64) with 18446744073709551616.
  rewrite <- (Z.mod_small (x + 18446744073709551616) 18446744073709551616)
    by lia.
  rewrite <- (Z_mod_plus_full x 1 18446744073709551616). f_equal; lia.
Qed.

Section ApiSpec.
Context {num : CNumeric} {consts : WsaConsts} {env : Environment}
  {codec : VrtCodec}.

(** ** The amplitude lookup *)

(** C8.  For every value of the gain enumeration the range guard of
    [wsa_get_abs_max_amp] holds, so the call returns
    [WSA_ERR_INVRFGAIN] and leaves the caller's value as it was: the
    branch that reads the table is never taken. *)
Theorem wsa_get_abs_max_amp_always_invalid :
  forall (dev : wsa_device) (g : wsa_gain) (value : cfloat),
    (gain_value g <? gain_value WSA_GAIN_VLOW)
      || (gain_value g >? gain_value WSA_GAIN_HIGH) = true
    /\ wsa_get_abs_max_amp dev (gain_value g) value
       = Some (WSA_ERR_INVRFGAIN, value).
Proof.
  intros dev g value. unfold wsa_get_abs_max_amp.
  destruct g; simpl; split; reflexivity.
Qed.

(** The guard holds for every integer, not only for the enumerators. *)
Lemma wsa_get_abs_max_amp_guard (gain : Z) :
  (gain <? gain_value WSA_GAIN_VLOW) || (gain >? gain_value WSA_GAIN_HIGH)
  = true.
Proof.
  cbn [gain_value].
  destruct (Z.ltb_spec gain 4) as [Hlt | Hge]; [reflexivity|].
  cbn [orb]. rewrite Z.gtb_ltb. apply Z.ltb_lt. lia.
Qed.

(** ** The frequency setter *)

Lemma wsa_verify_freq_rejects (dev : wsa_device) (freq : Z) :
  freq < min_tune_freq (descr dev) \/ max_tune_freq (descr dev) < freq ->
  wsa_verify_freq dev freq = WSA_ERR_FREQOUTOFBOUND.
Proof.
  intros H. unfold wsa_verify_freq.
  destruct (freq <? min_tune_freq (descr dev)) eqn:E1; [reflexivity|].
  destruct (freq >? max_tune_freq (descr dev)) eqn:E2; [reflexivity|].
  apply Z.ltb_ge in E1. rewrite Z.gtb_ltb in E2. apply Z.ltb_ge in E2. lia.
Qed.

Lemma wsa_verify_freq_accepts (dev : wsa_device) (freq : Z) :
  min_tune_freq (descr dev) <= freq <= max_tune_freq (descr dev) ->
  wsa_verify_freq dev freq = 0.
Proof.
  intros H. unfold wsa_verify_freq.
  replace (freq <? min_tune_freq (descr dev)) with false
    by (symmetry; apply Z.ltb_ge; lia).
  replace (freq >? max_tune_freq (descr dev)) with false
    by (symmetry; rewrite Z.gtb_ltb; apply Z.ltb_ge; lia).
  reflexivity.
Qed.

(** C6.  A frequency outside the tune range of the descriptor, negative
    ones included, is rejected by [wsa_set_freq] with
    [WSA_ERR_FREQOUTOFBOUND], and the state of both channels and the
    trace are what they were: nothing was written.  The error code is a
    negative number and the upper tune bound fits the signed 64-bit
    argument of the setter, as in every descriptor of the library
    (4 GHz and 11 GHz). *)
Theorem wsa_set_freq_out_of_bounds :
  forall (dev : wsa_device) (cfreq : Z) (w : world),
    WSA_ERR_FREQOUTOFBOUND < 0 ->
    max_tune_freq (descr dev) <= 9223372036854775807 ->
    int64_range cfreq ->
    cfreq < 0 \/ cfreq < min_tune_freq (descr dev)
      \/ max_tune_freq (descr dev) < cfreq ->
    wsa_set_freq dev cfreq w = Some (WSA_ERR_FREQOUTOFBOUND, w).
Proof.
  intros dev cfreq w Hneg Hmax Hrange Hout. unfold wsa_set_freq.
  assert (Hrej : wsa_verify_freq dev (to_uint64 cfreq)
                 = WSA_ERR_FREQOUTOFBOUND).
  { apply wsa_verify_freq_rejects.
    destruct (Z_lt_ge_dec cfreq 0) as [Hlt | Hge].
    - rewrite to_uint64_neg by assumption. right.
      unfold int64_range in Hrange. lia.
    - rewrite to_uint64_nonneg by (assumption || lia). lia. }
  rewrite Hrej.
  apply Z.ltb_lt in Hneg. rewrite Hneg. reflexivity.
Qed.

(** ** Getters on a failed query *)

Lemma wsa_send_query_run (dev : wsa_device) (q : string) (w : world)
  (e : env_state) (s : Z) (text : string) :
  cmd_query (w_env w) q = (e, (s, text)) ->
  wsa_send_query dev q w
  = Some ({| status := s; output := text |}, log (EvWrite q) (set_env e w)).
Proof.
  intros H. unfold wsa_send_query. rewrite H. reflexivity.
Qed.

Lemma wsa_send_command_run (dev : wsa_device) (line : string) (w : world)
  (e : env_state) (r : Z) :
  cmd_write (w_env w) line = (e, r) ->
  wsa_send_command dev line w = Some (r, log (EvWrite line) (set_env e w)).
Proof.
  intros H. unfold wsa_send_command. rewrite H. reflexivity.
Qed.

(** The first step of every getter: the query, then the test of the
    status. *)
Ltac query_step H :=
  unfold bind; rewrite (wsa_send_query_run _ _ _ _ _ _ H); cbn [status output].

(** Every getter of the API starts with the same two statements: the
    query, and the return of the status when it is not positive.  What
    follows them, [k], plays no part on a failed query. *)
Lemma query_prefix_short_circuits {A : Type} (dev : wsa_device) (q : string)
  (k : A -> wsa_resp -> M (Z * A)) :
  short_circuits
    (fun old : A =>
       query <- wsa_send_query dev q ;;
       if status query <=? 0 then ret (to_int16 (status query), old)
       else k old query)
    q.
Proof.
  intros old w e s text Hq Hs. query_step Hq.
  apply Z.leb_le in Hs. rewrite Hs. reflexivity.
Qed.

Lemma wsa_get_sweep_status_short (device : wsa_device) :
  short_circuits (wsa_get_sweep_status device) ("SWEEP:LIST:STATUS?" ++ nl).
Proof.
  exact (query_prefix_short_circuits device _ _).
Qed.

Lemma wsa_get_sweep_entry_size_short (device : wsa_device) :
  short_circuits (wsa_get_sweep_entry_size device)
    ("SWEEP:ENTRY:COUNT?" ++ nl).
Proof.
  exact (query_prefix_short_circuits device _ _).
Qed.

(** ** The sweep status, seen by its callers *)

Lemma count_writes_app (line : string) (tr1 tr2 : list event) :
  count_writes line (tr1 ++ tr2)
  = (count_writes line tr1 + count_writes line tr2)%nat.
Proof.
  induction tr1 as [| ev tr1 IH]; [reflexivity|].
  destruct ev as [l | n | t]; cbn [app count_writes]; try exact IH.
  destruct (String.eqb l line); rewrite IH; reflexivity.
Qed.

Lemma wsa_get_sweep_status_running (device : wsa_device) (buf : string)
  (w : world) (e : env_state) (s : Z) :
  cmd_query (w_env w) ("SWEEP:LIST:STATUS?" ++ nl) = (e, (s, "RUNNING"%string)) ->
  0 < s ->
  wsa_get_sweep_status device buf w
  = Some ((0, "RUNNING"%string),
          log (EvWrite ("SWEEP:LIST:STATUS?" ++ nl)) (set_env e w)).
Proof.
  intros Hq Hs. unfold wsa_get_sweep_status. query_step Hq.
  apply Z.leb_gt in Hs. rewrite Hs. reflexivity.
Qed.

Lemma wsa_get_sweep_status_stopped (device : wsa_device) (buf : string)
  (w : world) (e : env_state) (s : Z) :
  cmd_query (w_env w) ("SWEEP:LIST:STATUS?" ++ nl) = (e, (s, "STOPPED"%string)) ->
  0 < s ->
  wsa_get_sweep_status device buf w
  = Some ((0, "STOPPED"%string),
          log (EvWrite ("SWEEP:LIST:STATUS?" ++ nl)) (set_env e w)).
Proof.
  intros Hq Hs. unfold wsa_get_sweep_status. query_step Hq.
  apply Z.leb_gt in Hs. rewrite Hs. reflexivity.
Qed.

(** ** Starting a sweep *)

(** C2.  [wsa_sweep_start] is rejected with
    [WSA_ERR_SWEEPALREADYRUNNING] when the status query answers RUNNING,
    and with [WSA_ERR_SWEEPLISTEMPTY] when the status is STOPPED and the
    size of the list, as the count query gives it, is 0.  In both cases
    the lines written are the queries only: SWEEP:LIST:START is written
    no more often than before the call. *)
Theorem wsa_sweep_start_rejections :
  forall (dev : wsa_device) (status0 : string) (w : world)
         (e : env_state) (s : Z) (text : string),
    cmd_query (w_env w) ("SWEEP:LIST:STATUS?" ++ nl) = (e, (s, text)) ->
    0 < s ->
    (text = "RUNNING"%string ->
     exists w',
       wsa_sweep_start dev status0 w = Some (WSA_ERR_SWEEPALREADYRUNNING, w')
       /\ w_trace w' = (w_trace w ++ [EvWrite ("SWEEP:LIST:STATUS?" ++ nl)])%list
       /\ count_writes ("SWEEP:LIST:START" ++ nl) (w_trace w')
          = count_writes ("SWEEP:LIST:START" ++ nl) (w_trace w))
    /\ (text = "STOPPED"%string ->
        forall (e2 : env_state) (s2 : Z) (text2 : string) (d : double),
          cmd_query e ("SWEEP:ENTRY:COUNT?" ++ nl) = (e2, (s2, text2)) ->
          0 < s2 ->
          to_double text2 = Some d ->
          int32_of_double d = 0 ->
          exists w',
            wsa_sweep_start dev status0 w = Some (WSA_ERR_SWEEPLISTEMPTY, w')
            /\ w_trace w'
               = (w_trace w ++ [EvWrite ("SWEEP:LIST:STATUS?" ++ nl);
                                EvWrite ("SWEEP:ENTRY:COUNT?" ++ nl);
                                EvParse text2])%list
            /\ count_writes ("SWEEP:LIST:START" ++ nl) (w_trace w')
               = count_writes ("SWEEP:LIST:START" ++ nl) (w_trace w)).
Proof.
  intros dev status0 w e s text Hq Hs. split.
  - intros ->. eexists. split; [|split].
    + unfold wsa_sweep_start, bind.
      rewrite (wsa_get_sweep_status_running _ _ _ _ _ Hq Hs). reflexivity.
    + reflexivity.
    + cbn [w_trace log set_env]. rewrite count_writes_app.
      cbn. apply Nat.add_0_r.
  - intros -> e2 s2 text2 d Hq2 Hs2 Hd Hsize. eexists. split; [|split].
    + unfold wsa_sweep_start, bind.
      rewrite (wsa_get_sweep_status_stopped _ _ _ _ _ Hq Hs).
      cbn -[wsa_get_sweep_entry_size].
      unfold wsa_get_sweep_entry_size. unfold bind at 1.
      erewrite wsa_send_query_run by (cbn [w_env log set_env]; exact Hq2).
      cbn [status output]. apply Z.leb_gt in Hs2. rewrite Hs2.
      unfold bind, call_to_double. rewrite Hd. unfold ret.
      rewrite Hsize. reflexivity.
    + cbn [w_trace log set_env]. rewrite <- !app_assoc. reflexivity.
    + cbn [w_trace log set_env]. rewrite !count_writes_app.
      cbn. rewrite !Nat.add_0_r. reflexivity.
Qed.

(** ** Reading a packet of an unknown stream *)

Lemma wsa_system_abort_capture_run (dev : wsa_device) (status0 : string)
  (w : world) (e : env_state) (s : Z) (text : string) :
  cmd_query (w_env w) ("SWEEP:LIST:STATUS?" ++ nl) = (e, (s, text)) ->
  exists (r : Z) (w' : world) (tr : list event),
    wsa_system_abort_capture dev status0 w = Some (r, w')
    /\ w_trace w'
       = (w_trace w ++ EvWrite ("SWEEP:LIST:STATUS?" ++ nl) :: tr)%list
    /\ (tr = [] \/ tr = [EvWrite ("SYSTEM:ABORT" ++ nl)])
    /\ (0 < s -> text = "STOPPED"%string ->
        tr = [EvWrite ("SYSTEM:ABORT" ++ nl)])
    /\ (0 < s -> text = "RUNNING"%string -> tr = [])
    /\ (-32768 <= s < 0 -> tr = []).
Proof.
  intros Hq.
  destruct (cmd_write e ("SYSTEM:ABORT" ++ nl)) as [e3 r3] eqn:Hw.
  destruct (Z.ltb_spec 0 s) as [Hpos | Hnonpos].
  - (* the query was answered *)
    destruct (String.eqb_spec text "RUNNING") as [-> | Hrun].
    + exists WSA_ERR_SWEEPALREADYRUNNING. eexists. exists [].
      unfold wsa_system_abort_capture, bind.
      rewrite (wsa_get_sweep_status_running _ _ _ _ _ Hq Hpos).
      cbn. repeat split; auto; try discriminate; lia.
    + destruct (String.eqb_spec text "STOPPED") as [-> | Hstop].
      * exists (if r3 <? 0 then r3 else 0). eexists.
        exists [EvWrite ("SYSTEM:ABORT" ++ nl)].
        unfold wsa_system_abort_capture, bind.
        rewrite (wsa_get_sweep_status_stopped _ _ _ _ _ Hq Hpos).
        cbn -[wsa_send_command].
        erewrite wsa_send_command_run by (cbn [w_env log set_env]; exact Hw).
        split; [destruct (r3 <? 0); reflexivity|].
        cbn [w_trace log set_env]. rewrite <- app_assoc.
        repeat split; auto; try discriminate; lia.
      * (* neither word: the status getter reports the undefined mode *)
        assert (Hget : wsa_get_sweep_status dev status0 w
                       = Some ((WSA_ERR_SWEEPMODEUNDEF, status0),
                               log (EvWrite ("SWEEP:LIST:STATUS?" ++ nl))
                                 (set_env e w))).
        { unfold wsa_get_sweep_status. query_step Hq.
          replace (s <=? 0) with false by (symmetry; apply Z.leb_gt; lia).
          unfold strcmp.
          destruct (String.compare text "STOPPED") eqn:E1;
            [apply String.compare_eq_iff in E1; contradiction| |];
            (destruct (String.compare text "RUNNING") eqn:E2;
             [apply String.compare_eq_iff in E2; contradiction| |]);
            reflexivity. }
        unfold wsa_system_abort_capture, bind. rewrite Hget.
        destruct (WSA_ERR_SWEEPMODEUNDEF <? 0).
        -- do 2 eexists. exists []. cbn.
           repeat split; auto; try contradiction; lia.
        -- destruct (strcmp status0 "RUNNING" =? 0).
           ++ do 2 eexists. exists []. cbn.
              repeat split; auto; try contradiction; lia.
           ++ exists (if r3 <? 0 then r3 else 0). eexists.
              exists [EvWrite ("SYSTEM:ABORT" ++ nl)].
              erewrite wsa_send_command_run
                by (cbn [w_env log set_env]; exact Hw).
              split; [destruct (r3 <? 0); reflexivity|].
              cbn [w_trace log set_env]. rewrite <- app_assoc.
              repeat split; auto; try contradiction; lia.
  - (* no reply: the status is returned through 16 bits *)
    assert (Hget : wsa_get_sweep_status dev status0 w
                   = Some ((to_int16 s, status0),
                           log (EvWrite ("SWEEP:LIST:STATUS?" ++ nl))
                             (set_env e w))).
    { exact (wsa_get_sweep_status_short dev status0 w e s text Hq Hnonpos). }
    unfold wsa_system_abort_capture, bind. rewrite Hget.
    destruct (Z.ltb_spec (to_int16 s) 0) as [Hneg | Hge].
    + do 2 eexists. exists []. cbn.
      repeat split; auto; lia.
    + assert (Hs : ~ (-32768 <= s < 0)).
      { intros Hs. rewrite to_int16_id in Hge
          by (unfold int16_range; lia). lia. }
      destruct (strcmp status0 "RUNNING" =? 0).
      * do 2 eexists. exists []. cbn.
        repeat split; auto; lia.
      * exists (if r3 <? 0 then r3 else 0). eexists.
              exists [EvWrite ("SYSTEM:ABORT" ++ nl)].
        erewrite wsa_send_command_run
          by (cbn [w_env log set_env]; exact Hw).
        split; [destruct (r3 <? 0); reflexivity|].
        cbn [w_trace log set_env]. rewrite <- app_assoc.
        repeat split; auto; try contradiction; lia.
Qed.

Lemma wsa_read_vrt_packet_raw_unknown (dev : wsa_device) (p : vrt_structs)
  (buf : list Z) (w : world) (e : env_state) (r : Z) (hbytes : list Z) :
  data_recv (w_env w) (sock_data (sock dev)) header_bytes vrt_timeout
  = (e, (r, hbytes)) ->
  0 <= r ->
  stream_id (decode_header hbytes) <> RECEIVER_STREAM_ID ->
  stream_id (decode_header hbytes) <> DIGITIZER_STREAM_ID ->
  stream_id (decode_header hbytes) <> IF_DATA_STREAM_ID ->
  wsa_read_vrt_packet_raw dev p buf w
  = Some ((WSA_ERR_NOTIQFRAME, (set_header (decode_header hbytes) p, buf)),
          log (EvRecv header_bytes) (set_env e w)).
Proof.
  intros Hrecv Hr Hrec Hdig Hif.
  unfold wsa_read_vrt_packet_raw, bind, wsa_sock_recv_data.
  rewrite Hrecv.
  replace (r <? 0) with false by (symmetry; apply Z.ltb_ge; exact Hr).
  apply Z.eqb_neq in Hrec, Hdig, Hif. rewrite Hrec, Hdig, Hif.
  reflexivity.
Qed.

(** C1, as amended.  On a packet whose stream identifier is none of the
    known ones, [wsa_read_vrt_packet] returns [WSA_ERR_NOTIQFRAME] and
    before that runs the abort of the capture once: one query of the
    sweep status, and after it the abort command, written once when the
    status is STOPPED and not at all when the status is RUNNING or the
    query failed.  The abort command is never written twice. *)
Theorem wsa_read_vrt_packet_unknown_stream :
  forall (dev : wsa_device) (status0 : string) (p : vrt_structs)
         (i_buffer q_buffer : list Z) (samples : Z) (w : world)
         (e : env_state) (r : Z) (hbytes : list Z)
         (e2 : env_state) (s : Z) (text : string),
    WSA_ERR_NOTIQFRAME < 0 ->
    data_recv (w_env w) (sock_data (sock dev)) header_bytes vrt_timeout
    = (e, (r, hbytes)) ->
    0 <= r ->
    stream_id (decode_header hbytes) <> RECEIVER_STREAM_ID ->
    stream_id (decode_header hbytes) <> DIGITIZER_STREAM_ID ->
    stream_id (decode_header hbytes) <> IF_DATA_STREAM_ID ->
    cmd_query e ("SWEEP:LIST:STATUS?" ++ nl) = (e2, (s, text)) ->
    exists (w' : world) (tr : list event),
      wsa_read_vrt_packet dev status0 p i_buffer q_buffer samples w
      = Some ((WSA_ERR_NOTIQFRAME,
               (set_header (decode_header hbytes) p, (i_buffer, q_buffer))),
              w')
      /\ w_trace w'
         = (w_trace w ++ EvRecv header_bytes
              :: EvWrite ("SWEEP:LIST:STATUS?" ++ nl) :: tr)%list
      /\ (count_writes ("SYSTEM:ABORT" ++ nl) tr <= 1)%nat
      /\ (0 < s -> text = "STOPPED"%string ->
          tr = [EvWrite ("SYSTEM:ABORT" ++ nl)])
      /\ (0 < s -> text = "RUNNING"%string -> tr = [])
      /\ (-32768 <= s < 0 -> tr = []).
Proof.
  intros dev status0 p i_buffer q_buffer samples w e r hbytes e2 s text
    Hneg Hrecv Hr Hrec Hdig Hif Hq.
  pose proof (wsa_read_vrt_packet_raw_unknown dev p [] w e r hbytes
                Hrecv Hr Hrec Hdig Hif) as Hraw.
  destruct (wsa_system_abort_capture_run dev status0
              (log (EvRecv header_bytes) (set_env e w)) e2 s text)
    as (ra & w' & tr & Hab & Htr & Hcases & Hstop & Hrun & Hfail);
    [exact Hq|].
  exists w', tr. split; [|split; [|split]].
  - unfold wsa_read_vrt_packet, bind. rewrite Hraw.
    apply Z.ltb_lt in Hneg. rewrite Hneg. rewrite Z.eqb_refl.
    rewrite Hab. reflexivity.
  - rewrite Htr. cbn [w_trace log set_env]. rewrite <- app_assoc.
    reflexivity.
  - destruct Hcases as [-> | ->]; cbn; lia.
  - auto.
Qed.

(** ** Stopping a sweep *)

Lemma wsa_sweep_stop_drain_run (dev : wsa_device)
  (hb timeout end_time : Z) :
  forall (n fuel : nat) (w : world),
    (n < fuel)%nat ->
    (forall k : nat, (k < n)%nat ->
                     w_clock w (w_now w + k)%nat <= end_time) ->
    end_time < w_clock w (w_now w + n)%nat ->
    exists w' : world,
      wsa_sweep_stop_drain fuel dev hb timeout end_time w = Some (tt, w')
      /\ w_trace w' = (w_trace w ++ repeat (EvRecv hb) n)%list
      /\ w_now w' = (w_now w + S n)%nat.
Proof.
  induction n as [| n IH]; intros fuel w Hfuel Hin Hout;
    (destruct fuel as [| fuel]; [lia|]).
  - rewrite Nat.add_0_r in Hout. exists (tick w).
    cbn [wsa_sweep_stop_drain]. unfold bind, clock.
    replace (w_clock w (w_now w) <=? end_time) with false
      by (symmetry; apply Z.leb_gt; exact Hout).
    split; [reflexivity|]. cbn [tick w_trace w_now repeat].
    rewrite app_nil_r. split; [reflexivity | lia].
  - cbn [wsa_sweep_stop_drain]. unfold bind at 1, clock.
    pose proof (Hin O ltac:(lia)) as H0. rewrite Nat.add_0_r in H0.
    apply Z.leb_le in H0. rewrite H0.
    unfold bind at 1, wsa_sock_recv_data.
    destruct (data_recv (w_env (tick w)) (sock_data (sock dev)) hb timeout)
      as [e' [r bytes]].
    destruct (IH fuel (log (EvRecv hb) (set_env e' (tick w))))
      as (w' & Hrun & Htr & Hnow).
    + lia.
    + intros k Hk. cbn [log set_env tick w_clock w_now].
      replace (S (w_now w) + k)%nat with (w_now w + S k)%nat by lia.
      apply Hin. lia.
    + cbn [log set_env tick w_clock w_now].
      replace (S (w_now w) + n)%nat with (w_now w + S n)%nat by lia.
      exact Hout.
    + exists w'. split; [exact Hrun|]. split.
      * rewrite Htr. cbn [log set_env tick w_trace repeat].
        rewrite <- app_assoc. reflexivity.
      * rewrite Hnow. cbn [log set_env tick w_now]. lia.
Qed.

(** C10.  Once the stop command and the flush have succeeded,
    [wsa_sweep_stop] returns 0, whatever the reads of the drain loop
    deliver or fail with.  The loop ends by the clock alone: with [n]
    readings of the clock inside the window of 5000 ticks after the
    start reading, it makes exactly [n] reads of the data channel, and
    fuel beyond [n] is enough. *)
Theorem wsa_sweep_stop_returns_zero :
  forall (dev : wsa_device) (status0 : string) (w w1 w2 : world)
         (r1 r2 : Z) (n fuel : nat),
    wsa_send_command dev ("SWEEP:LIST:STOP" ++ nl) w = Some (r1, w1) ->
    0 <= r1 ->
    wsa_flush_data dev status0 w1 = Some (r2, w2) ->
    0 <= r2 ->
    (forall k : nat,
        (k < n)%nat ->
        w_clock w2 (S (w_now w2) + k)%nat <= 5000 + w_clock w2 (w_now w2)) ->
    5000 + w_clock w2 (w_now w2) < w_clock w2 (S (w_now w2) + n)%nat ->
    (n < fuel)%nat ->
    exists w3 : world,
      wsa_sweep_stop fuel dev status0 w = Some (0, w3)
      /\ w_trace w3
         = (w_trace w2 ++ repeat (EvRecv (2 * BYTES_PER_VRT_WORD)) n)%list.
Proof.
  intros dev status0 w w1 w2 r1 r2 n fuel Hstop Hr1 Hflush Hr2 Hin Hout
    Hfuel.
  destruct (wsa_sweep_stop_drain_run dev (2 * BYTES_PER_VRT_WORD) 360
              (5000 + w_clock w2 (w_now w2)) n fuel (tick w2))
    as (w3 & Hrun & Htr & _); [exact Hfuel | exact Hin | exact Hout |].
  exists w3. split; [|exact Htr].
  unfold wsa_sweep_stop. unfold bind at 1. rewrite Hstop.
  replace (r1 <? 0) with false by (symmetry; apply Z.ltb_ge; exact Hr1).
  unfold bind at 1. rewrite Hflush.
  replace (r2 <? 0) with false by (symmetry; apply Z.ltb_ge; exact Hr2).
  unfold bind at 1. unfold clock at 1. unfold bind. rewrite Hrun.
  reflexivity.
Qed.

(** ** Copying a sweep entry *)

(** The bound check of [wsa_sweep_entry_copy] runs before the size of the
    list is asked for, against the initial value 0 of the local
    variable: every positive id is rejected, and nothing is sent. *)
Lemma wsa_sweep_entry_copy_positive_id (dev : wsa_device) (id : Z)
  (w : world) :
  1 <= id ->
  wsa_sweep_entry_copy dev id w = Some (WSA_ERR_SWEEPIDOOB, w).
Proof.
  intros Hid. unfold wsa_sweep_entry_copy.
  replace (id >? 0) with true by (symmetry; apply Z.gtb_lt; lia).
  rewrite orb_true_r. reflexivity.
Qed.

(** ** Setting and reading back the frequency *)

(** What [wsa_get_freq] reads back: when the instrument answers the
    query with the decimal text of a frequency [g] inside the tune
    range, the getter stores [g].  This is also what it stores after an
    instrument has truncated the frequency it was sent to its
    resolution, as long as the truncated value is still in range. *)
Lemma wsa_get_freq_reads_back (dev : wsa_device) (g old : Z) (w : world)
  (e : env_state) (s : Z) :
  exact_below_2_53 ->
  0 <= min_tune_freq (descr dev) ->
  max_tune_freq (descr dev) < 2 ^ 53 ->
  min_tune_freq (descr dev) <= g <= max_tune_freq (descr dev) ->
  cmd_query (w_env w) ("FREQ:CENT?" ++ nl) = (e, (s, fmt_lld g)) ->
  0 < s ->
  wsa_get_freq dev old w
  = Some ((0, g),
          log (EvParse (fmt_lld g))
            (log (EvWrite ("FREQ:CENT?" ++ nl)) (set_env e w))).
Proof.
  intros Hexact Hmin Hmax Hg Hq Hs.
  unfold wsa_get_freq. query_step Hq.
  replace (s <=? 0) with false by (symmetry; apply Z.leb_gt; exact Hs).
  destruct (Hexact g ltac:(lia)) as (Hparse & Hcast & Hlt).
  destruct (Hexact (max_tune_freq (descr dev)) ltac:(lia))
    as (_ & _ & Hltmax).
  unfold call_to_double. rewrite Hparse.
  rewrite (Hlt (min_tune_freq (descr dev))) by lia.
  rewrite (Hltmax g) by lia.
  replace (g <? min_tune_freq (descr dev)) with false
    by (symmetry; apply Z.ltb_ge; lia).
  replace (max_tune_freq (descr dev) <? g) with false
    by (symmetry; apply Z.ltb_ge; lia).
  cbn [orb]. rewrite Hcast. reflexivity.
Qed.

(** C4.  For a frequency [f] inside the tune range of the descriptor,
    [wsa_set_freq] followed by [wsa_get_freq] gives [f] back, when the
    instrument stores and echoes what it is sent.  The reply goes
    through a double, which is exact here: the tune range lies below
    2^53. *)
Theorem wsa_freq_round_trip :
  forall (dev : wsa_device) (f old : Z) (w : world),
    exact_below_2_53 ->
    0 <= min_tune_freq (descr dev) ->
    max_tune_freq (descr dev) < 2 ^ 53 ->
    min_tune_freq (descr dev) <= f <= max_tune_freq (descr dev) ->
    stores_and_echoes (w_env w) f ->
    exists w1 w2 : world,
      wsa_set_freq dev f w = Some (0, w1)
      /\ wsa_get_freq dev old w1 = Some ((0, f), w2).
Proof.
  intros dev f old w Hexact Hmin Hmax Hf (e1 & r & e2 & s & Hw & Hr & Hq & Hs).
  assert (H53 : 2 ^ 53 = 9007199254740992) by reflexivity.
  assert (Hu : to_uint64 f = f).
  { apply to_uint64_nonneg; unfold int64_range; lia. }
  exists (log (EvWrite ("FREQ:CENT " ++ fmt_lld f ++ " Hz" ++ nl))
            (set_env e1 w)).
  eexists. split.
  - unfold wsa_set_freq. rewrite Hu.
    rewrite (wsa_verify_freq_accepts dev f Hf). cbn [Z.ltb Z.compare].
    unfold bind. rewrite (wsa_send_command_run _ _ _ _ _ Hw).
    replace (r <? 0) with false by (symmetry; apply Z.ltb_ge; exact Hr).
    reflexivity.
  - apply (wsa_get_freq_reads_back dev f old _ e2 s Hexact Hmin Hmax Hf);
      [exact Hq | exact Hs].
Qed.


(** ** Reading a sweep entry *)

Lemma bind_run {A B : Type} (m : M A) (k : A -> M B) (w w' : world) (a : A) :
  m w = Some (a, w') -> bind m k w = k a w'.
Proof.
  intros H. unfold bind. rewrite H. reflexivity.
Qed.

Lemma strtok_tokens_S (n : nat) (delim s t : string) (ts : list string)
  (rest : string) :
  strtok_tokens (S n) delim s = Some (t :: ts, rest) ->
  exists r : string,
    strtok_scan delim s = (Some t, r)
    /\ strtok_tokens n delim r = Some (ts, rest).
Proof.
  cbn [strtok_tokens]. destruct (strtok_scan delim s) as [[t' |] r];
    [|discriminate].
  destruct (strtok_tokens n delim r) as [[ts' r'] |] eqn:E; [|discriminate].
  intros [= -> -> ->]. exists r. split; [reflexivity | exact E].
Qed.

Lemma strtok_first_run (text delim : string) (w : world)
  (tok : option string) (r : string) :
  strtok_scan delim text = (tok, r) ->
  strtok (Some text) delim w = Some (tok, set_strtok r w).
Proof.
  intros H. unfold strtok. rewrite H. reflexivity.
Qed.

Lemma strtok_next_run (delim : string) (w : world) (tok : option string)
  (r : string) :
  strtok_scan delim (w_strtok w) = (tok, r) ->
  strtok None delim w = Some (tok, set_strtok r w).
Proof.
  intros H. unfold strtok. rewrite H. reflexivity.
Qed.

Lemma convert_or_return_number (t : string) (sl : wsa_sweep_list)
  (k : double -> M (Z * wsa_sweep_list)) (w : world) (d : double) :
  to_double t = Some d ->
  convert_or_return (Some t) sl k w = k d (log (EvParse t) w).
Proof.
  intros H. unfold convert_or_return, bind, call_to_double.
  rewrite H. reflexivity.
Qed.

(** The next token, then its conversion. *)
Ltac next_token :=
  erewrite bind_run
    by (apply strtok_next_run; cbn [w_strtok set_strtok log set_env];
        eassumption);
  cbv beta.

Ltac next_number :=
  next_token; erewrite convert_or_return_number by eassumption.

(** The twelve capture settings of a record are read field by field and
    the trigger part is decided on the thirteenth token, in a state that
    has consumed the text up to it and no more. *)
Lemma wsa_sweep_entry_read_fields (dev : wsa_device) (id : Z)
  (sl : wsa_sweep_list) (w : world) (e : env_state) (s : Z)
  (text : string) (fields : list string) (trig rest : string) :
  0 <= id ->
  cmd_query (w_env w) ("SWEEP:ENTRY:READ? " ++ fmt_d id ++ nl)
  = (e, (s, text)) ->
  0 < s ->
  entry_record text fields trig rest ->
  exists (sl12 : wsa_sweep_list) (w12 : world),
    wsa_sweep_entry_read dev id sl w
    = sweep_entry_read_trigger (Some trig) sl12 w12
    /\ trigger_enable sl12 = trigger_enable sl
    /\ same_trigger_levels sl12 sl
    /\ w_strtok w12 = rest
    /\ w_trace w12
       = (w_trace w ++ EvWrite ("SWEEP:ENTRY:READ? " ++ fmt_d id ++ nl)
            :: map EvParse (numeric_fields fields))%list.
Proof.
  intros Hid Hq Hs (Hlen & Htok & Hnum).
  do 12 (destruct fields as [| ? fields]; [discriminate Hlen|]).
  destruct fields; [|discriminate Hlen]. clear Hlen.
  cbn [app] in Htok.
  repeat match type of Htok with
         | strtok_tokens (S _) _ _ = Some (_ :: _, _) =>
             let r := fresh "r" in
             let Hscan := fresh "Hscan" in
             apply strtok_tokens_S in Htok; destruct Htok as (r & Hscan & Htok)
         end.
  cbn [strtok_tokens] in Htok. injection Htok as ->.
  pose proof (Hnum 0%nat _ ltac:(discriminate) eq_refl) as N0.
  pose proof (Hnum 1%nat _ ltac:(discriminate) eq_refl) as N1.
  pose proof (Hnum 2%nat _ ltac:(discriminate) eq_refl) as N2.
  pose proof (Hnum 3%nat _ ltac:(discriminate) eq_refl) as N3.
  pose proof (Hnum 4%nat _ ltac:(discriminate) eq_refl) as N4.
  pose proof (Hnum 5%nat _ ltac:(discriminate) eq_refl) as N5.
  pose proof (Hnum 7%nat _ ltac:(discriminate) eq_refl) as N7.
  pose proof (Hnum 8%nat _ ltac:(discriminate) eq_refl) as N8.
  pose proof (Hnum 9%nat _ ltac:(discriminate) eq_refl) as N9.
  pose proof (Hnum 10%nat _ ltac:(discriminate) eq_refl) as N10.
  pose proof (Hnum 11%nat _ ltac:(discriminate) eq_refl) as N11.
  clear Hnum.
  repeat match goal with
         | N : to_double ?t <> None |- _ =>
             let d := fresh "d" in
             let Hd := fresh "Hd" in
             destruct (to_double t) as [d |] eqn:Hd;
             [clear N | contradiction N; reflexivity]
         end.
  unfold wsa_sweep_entry_read.
  replace (id <? 0) with false by (symmetry; apply Z.ltb_ge; exact Hid).
  rewrite (bind_run _ _ _ _ _ (wsa_send_query_run dev _ _ _ _ _ Hq)).
  cbn [status output].
  replace (s <=? 0) with false by (symmetry; apply Z.leb_gt; exact Hs).
  erewrite bind_run by (apply strtok_first_run; eassumption).
  erewrite convert_or_return_number by eassumption.
  do 5 next_number.
  next_token. unfold call_gain_rf_strtonum. unfold bind at 1, ret at 1.
  do 5 next_number.
  next_token.
  do 2 eexists. split; [reflexivity|].
  cbn. unfold same_trigger_levels. cbn.
  repeat split; try reflexivity.
  rewrite <- !app_assoc. reflexivity.
Qed.

(** C7.  On a record whose trigger type is NONE (the token holds NONE
    and does not hold LEVEL), [wsa_sweep_entry_read] returns 0 with
    [trigger_enable] set to 0 and the trigger start frequency, stop
    frequency and amplitude of the caller's structure as they were.
    Nothing after the token of the trigger type is consumed: the saved
    position of [strtok] is the text right after that token, and the
    numbers parsed are the eleven numeric capture settings. *)
Theorem wsa_sweep_entry_read_trigger_none :
  forall (dev : wsa_device) (id : Z) (sl : wsa_sweep_list) (w : world)
         (e : env_state) (s : Z) (text : string) (fields : list string)
         (trig rest : string),
    0 <= id ->
    cmd_query (w_env w) ("SWEEP:ENTRY:READ? " ++ fmt_d id ++ nl)
    = (e, (s, text)) ->
    0 < s ->
    entry_record text fields trig rest ->
    strstr trig "LEVEL" = None ->
    strstr trig "NONE" <> None ->
    exists (sl' : wsa_sweep_list) (w' : world),
      wsa_sweep_entry_read dev id sl w = Some ((0, sl'), w')
      /\ trigger_enable sl' = 0
      /\ same_trigger_levels sl' sl
      /\ w_strtok w' = rest
      /\ w_trace w'
         = (w_trace w ++ EvWrite ("SWEEP:ENTRY:READ? " ++ fmt_d id ++ nl)
              :: map EvParse (numeric_fields fields))%list.
Proof.
  intros dev id sl w e s text fields trig rest Hid Hq Hs Hrec Hlevel Hnone.
  destruct (wsa_sweep_entry_read_fields dev id sl w e s text fields trig rest
              Hid Hq Hs Hrec)
    as (sl12 & w12 & Hrun & Hen & Hlev & Hpos & Htr).
  exists (set_trigger_enable 0 sl12), w12.
  split; [|split; [|split; [|split]]]; try assumption.
  - rewrite Hrun. unfold sweep_entry_read_trigger, bind, call_strstr, ret.
    rewrite Hlevel. destruct (strstr trig "NONE"); [reflexivity|].
    contradiction Hnone; reflexivity.
  - reflexivity.
Qed.


End ApiSpec.

(** * The rest of the API *)

(** ** The length of a decimal text *)

Module DecimalLength.
Import Decimal DecimalFacts DecimalPos.

Lemma string_of_uint_length (d : uint) :
  String.length (NilEmpty.string_of_uint d) = nb_digits d.
Proof.
  induction d; cbn [NilEmpty.string_of_uint String.length nb_digits];
    try rewrite IHd; reflexivity.
Qed.

Lemma usize_nb_digits (d : uint) :
  Unsigned.usize d = N.of_nat (nb_digits d).
Proof.
  induction d; cbn [Unsigned.usize nb_digits]; try rewrite IHd;
    try rewrite Nnat.Nat2N.inj_succ; reflexivity.
Qed.

Lemma of_lu_upper (d : uint) :
  (Unsigned.of_lu d < 10 ^ Unsigned.usize d)%N.
Proof.
  induction d; cbn [Unsigned.of_lu Unsigned.usize];
    try rewrite N.pow_succ_r'; try (cbn; lia); lia.
Qed.

(** The decimal digits of a positive number start with a digit that is
    not 0. *)
Lemma to_uint_head (p : positive) :
  match Pos.to_uint p with
  | Nil | D0 _ => False
  | _ => True
  end.
Proof.
  pose proof (Unsigned.to_of (Pos.to_uint p)) as Hnorm.
  rewrite Unsigned.of_to in Hnorm. cbn [N.to_uint] in Hnorm.
  pose proof (Unsigned.to_uint_nonzero p) as Hnz.
  pose proof (Unsigned.to_uint_nonnil p) as Hnn.
  destruct (Pos.to_uint p) as [| u | u | u | u | u | u | u | u | u | u];
    try exact I; [contradiction Hnn; reflexivity|].
  unfold unorm in Hnorm. cbn [nzhead] in Hnorm.
  pose proof (nb_digits_nzhead u) as Hle.
  destruct (nzhead u); try (contradiction Hnz; symmetry; exact Hnorm);
    (apply (f_equal nb_digits) in Hnorm; cbn [nb_digits] in Hnorm, Hle; lia).
Qed.

Lemma pos_digits_bounds (p : positive) :
  (10 ^ N.of_nat (nb_digits (Pos.to_uint p) - 1) <= N.pos p
   < 10 ^ N.of_nat (nb_digits (Pos.to_uint p)))%N.
Proof.
  pose proof (Unsigned.of_to p) as Hval. rewrite Unsigned.of_uint_alt in Hval.
  rewrite <- Hval. clear Hval.
  split.
  - pose proof (to_uint_head p) as Hhead.
    destruct (Pos.to_uint p) as [| u | u | u | u | u | u | u | u | u | u];
      try contradiction;
      unfold rev; cbn [revapp]; rewrite Unsigned.of_lu_revapp;
      cbn [nb_digits Unsigned.of_lu]; rewrite Nat.sub_succ, Nat.sub_0_r;
      rewrite <- usize_nb_digits; nia.
  - pose proof (of_lu_upper (rev (Pos.to_uint p))) as H.
    rewrite usize_nb_digits, nb_digits_rev in H. exact H.
Qed.

Lemma fmt_lld_pos_length (p : positive) :
  String.length (fmt_lld (Z.pos p)) = nb_digits (Pos.to_uint p).
Proof.
  unfold fmt_lld. cbn [Z.to_int NilZero.string_of_int].
  unfold NilZero.string_of_uint.
  pose proof (string_of_uint_length (Pos.to_uint p)) as H.
  pose proof (Unsigned.to_uint_nonnil p) as Hnn.
  destruct (Pos.to_uint p); [contradiction Hnn; reflexivity|..]; exact H.
Qed.

(** A number below [10^k] prints in at most [k] characters, and a number
    that is at least [10^k] in more than [k]. *)
Lemma fmt_lld_length_le (z : Z) (k : nat) :
  (1 <= k)%nat -> 0 <= z < 10 ^ Z.of_nat k ->
  (String.length (fmt_lld z) <= k)%nat.
Proof.
  intros Hk [H0 Hz]. destruct z as [| p | p]; [cbn; lia | | lia].
  rewrite fmt_lld_pos_length.
  destruct (pos_digits_bounds p) as [Hlow _].
  destruct (Nat.le_gt_cases (nb_digits (Pos.to_uint p)) k) as [Hle | Hgt];
    [exact Hle|].
  exfalso.
  assert (Hpow : (10 ^ N.of_nat k <= 10 ^ N.of_nat (nb_digits (Pos.to_uint p) - 1))%N).
  { apply N.pow_le_mono_r; lia. }
  assert (HZ : Z.of_N (10 ^ N.of_nat k) = 10 ^ Z.of_nat k).
  { rewrite N2Z.inj_pow, nat_N_Z. reflexivity. }
  lia.
Qed.

Lemma fmt_lld_length_gt (z : Z) (k : nat) :
  10 ^ Z.of_nat k <= z -> (k < String.length (fmt_lld z))%nat.
Proof.
  intros Hz. assert (0 < z) by (pose proof (Z.pow_pos_nonneg 10 (Z.of_nat k)); lia).
  destruct z as [| p | p]; try lia.
  rewrite fmt_lld_pos_length.
  destruct (pos_digits_bounds p) as [_ Hup].
  destruct (Nat.le_gt_cases (nb_digits (Pos.to_uint p)) k) as [Hle | Hgt];
    [|exact Hgt].
  exfalso.
  assert (Hpow : (10 ^ N.of_nat (nb_digits (Pos.to_uint p)) <= 10 ^ N.of_nat k)%N).
  { apply N.pow_le_mono_r; lia. }
  assert (HZ : Z.of_N (10 ^ N.of_nat k) = 10 ^ Z.of_nat k).
  { rewrite N2Z.inj_pow, nat_N_Z. reflexivity. }
  lia.
Qed.

Lemma fmt_lld_neg_length (p : positive) :
  String.length (fmt_lld (Z.neg p)) = S (String.length (fmt_lld (Z.pos p))).
Proof.
  unfold fmt_lld. cbn [Z.to_int NilZero.string_of_int String.length].
  reflexivity.
Qed.

End DecimalLength.
Import DecimalLength.

(** ** Texts and buffers *)

Lemma fmt_d_int32_length (z : Z) :
  int32_range z -> (String.length (fmt_d z) <= 11)%nat.
Proof.
  unfold int32_range. intros Hz. change (fmt_d z) with (fmt_lld z).
  destruct z as [| p | p].
  - cbn. lia.
  - pose proof (fmt_lld_length_le (Z.pos p) 10 ltac:(lia)
                  ltac:(change (10 ^ Z.of_nat 10) with 10000000000; lia)).
    lia.
  - rewrite fmt_lld_neg_length.
    pose proof (fmt_lld_length_le (Z.pos p) 10 ltac:(lia)
                  ltac:(change (10 ^ Z.of_nat 10) with 10000000000; lia)).
    lia.
Qed.

Lemma fmt_u_length (z : Z) : (String.length (fmt_u z) <= 10)%nat.
Proof.
  unfold fmt_u. change (NilZero.string_of_int (Z.to_int (to_uint32 z)))
    with (fmt_lld (to_uint32 z)).
  apply fmt_lld_length_le; [lia|].
  unfold to_uint32, wrap_unsigned.
  pose proof (Z.mod_pos_bound z (2 ^ 32) ltac:(reflexivity)) as H.
  change (2 ^ 32) with 4294967296 in *.
  change (10 ^ Z.of_nat 10) with 10000000000. lia.
Qed.

Lemma fmt_u_nonneg (z : Z) : 0 <= z -> int32_range z -> fmt_u z = fmt_d z.
Proof.
  unfold int32_range, fmt_u, fmt_d, to_uint32, wrap_unsigned. intros H0 H.
  rewrite Z.mod_small; [reflexivity|]. change (2 ^ 32) with 4294967296. lia.
Qed.

Lemma length_append (a b : string) :
  String.length (a ++ b) = (String.length a + String.length b)%nat.
Proof.
  induction a as [| c a IH]; [reflexivity|].
  cbn [append String.length]. rewrite IH. reflexivity.
Qed.

Lemma strcmp_eqb (a b : string) : (strcmp a b =? 0) = String.eqb a b.
Proof.
  unfold strcmp. destruct (String.eqb_spec a b) as [-> | Hne].
  - pose proof (String.compare_antisym b b) as H.
    destruct (String.compare b b); try discriminate H; reflexivity.
  - destruct (String.compare a b) eqn:E; try reflexivity.
    apply String.compare_eq_iff in E. contradiction.
Qed.

Section ApiRestSpec.
Context {num : CNumeric} {consts : WsaConsts} {more : WsaMoreConsts}
  {env : Environment} {codec : VrtCodec} {plat : CPlatform}.

Lemma sprintf_fits (size : nat) (text : string) (w : world) :
  (String.length text < size)%nat -> sprintf size text w = Some (text, w).
Proof.
  intros H. unfold sprintf. apply Nat.ltb_lt in H. rewrite H. reflexivity.
Qed.

Lemma sprintf_overflow (size : nat) (text : string) (w : world) :
  (size <= String.length text)%nat -> sprintf size text w = None.
Proof.
  intros H. unfold sprintf. apply Nat.ltb_ge in H. rewrite H. reflexivity.
Qed.

(** A command line formatted into a buffer it fits and sent: the result
    of the write when it is negative, 0 otherwise. *)
Lemma format_and_send (dev : wsa_device) (size : nat) (line : string)
  (w : world) (e : env_state) (r : Z) :
  (String.length line < size)%nat ->
  cmd_write (w_env w) line = (e, r) ->
  (temp_str <- sprintf size line ;;
   result <- wsa_send_command dev temp_str ;;
   if result <? 0 then ret result else ret 0) w
  = Some ((if r <? 0 then r else 0), log (EvWrite line) (set_env e w)).
Proof.
  intros Hfit Hw. unfold bind. rewrite (sprintf_fits _ _ _ Hfit).
  rewrite (wsa_send_command_run _ _ _ _ _ Hw).
  destruct (r <? 0); reflexivity.
Qed.

Ltac line_fits :=
  repeat first [rewrite length_append | progress cbn [String.length nl]];
  repeat match goal with
         | |- context [String.length (fmt_d ?z)] =>
             let H := fresh "Hlen" in
             assert (H : (String.length (fmt_d z) <= 11)%nat)
               by (apply fmt_d_int32_length; unfold int32_range in *; lia);
             revert H; generalize (String.length (fmt_d z)); intros ? ?
         | |- context [String.length (fmt_u ?z)] =>
             let H := fresh "Hlen" in
             pose proof (fmt_u_length z) as H;
             revert H; generalize (String.length (fmt_u z)); intros ? ?
         end;
  lia.

(** ** The RF gain words *)

Lemma strstr_low_in_vlow (s : string) :
  strstr s "LOW" = None -> strstr s "VLOW" = None.
Proof.
  induction s as [| c s IH]; [reflexivity|].
  cbn [strstr]. destruct (String.prefix "LOW" (String c s)) eqn:E;
    [discriminate|].
  intros Hlow. specialize (IH Hlow).
  destruct (String.prefix "VLOW" (String c s)) eqn:E2; [|exact IH].
  exfalso. cbn [String.prefix] in E2.
  destruct (ascii_dec "V" c) as [Hc | Hc]; [|discriminate E2].
  destruct s as [| c1 s]; [discriminate E2|].
  cbn [strstr] in Hlow. rewrite E2 in Hlow. discriminate Hlow.
Qed.

(** X1.  The word a gain setter sends for an enumerator is read back as
    that enumerator by [gain_rf_strtonum]: also VLOW, which holds the
    word LOW.  With an instrument that answers the gain query with the
    word it was sent, [wsa_set_gain_rf] followed by [wsa_get_gain_rf]
    gives the gain back, and so do the two functions of the sweep
    entry. *)
Theorem wsa_gain_rf_round_trip :
  forall (dev : wsa_device) (g : wsa_gain) (old : Z) (w : world),
    gain_rf_strtonum (gain_rf_word (gain_value g)) = gain_value g
    /\ (forall (e1 e2 : env_state) (r s : Z),
          cmd_write (w_env w)
            ("INPUT:GAIN:RF " ++ gain_rf_word (gain_value g) ++ nl)
          = (e1, r) ->
          0 <= r ->
          cmd_query e1 ("INPUT:GAIN:RF?" ++ nl)
          = (e2, (s, gain_rf_word (gain_value g))) ->
          0 < s ->
          exists w1 w2 : world,
            wsa_set_gain_rf dev (gain_value g) w = Some (0, w1)
            /\ wsa_get_gain_rf dev old w1 = Some ((0, gain_value g), w2))
    /\ (forall (e1 e2 : env_state) (r s : Z),
          cmd_write (w_env w)
            ("SWEEP:ENTRY:GAIN:RF " ++ gain_rf_word (gain_value g) ++ nl)
          = (e1, r) ->
          0 <= r ->
          cmd_query e1 ("SWEEP:ENTRY:GAIN:RF?" ++ nl)
          = (e2, (s, gain_rf_word (gain_value g))) ->
          0 < s ->
          exists w1 w2 : world,
            wsa_set_sweep_gain_rf dev (gain_value g) w = Some (0, w1)
            /\ wsa_get_sweep_gain_rf dev old w1
               = Some ((0, gain_value g), w2)).
Proof.
  intros dev g old w.
  split; [destruct g; reflexivity|]. split.
  - intros e1 e2 r s Hw Hr Hq Hs.
    exists (log (EvWrite ("INPUT:GAIN:RF " ++ gain_rf_word (gain_value g)
                            ++ nl)) (set_env e1 w)).
    eexists. split.
    + unfold wsa_set_gain_rf.
      replace ((gain_value g >? gain_value WSA_GAIN_VLOW)
               || (gain_value g <? gain_value WSA_GAIN_HIGH)) with false
        by (destruct g; reflexivity).
      rewrite (format_and_send dev 50 _ w e1 r);
        [|destruct g; cbn; lia | exact Hw].
      replace (r <? 0) with false by (symmetry; apply Z.ltb_ge; exact Hr).
      reflexivity.
    + unfold wsa_get_gain_rf.
      erewrite bind_run
        by (apply wsa_send_query_run; cbn [w_env log set_env]; exact Hq).
      cbn [status output].
      replace (s <=? 0) with false by (symmetry; apply Z.leb_gt; exact Hs).
      destruct g; reflexivity.
  - intros e1 e2 r s Hw Hr Hq Hs.
    exists (log (EvWrite ("SWEEP:ENTRY:GAIN:RF "
                            ++ gain_rf_word (gain_value g) ++ nl))
              (set_env e1 w)).
    eexists. split.
    + unfold wsa_set_sweep_gain_rf.
      replace ((gain_value g >? gain_value WSA_GAIN_VLOW)
               || (gain_value g <? gain_value WSA_GAIN_HIGH)) with false
        by (destruct g; reflexivity).
      rewrite (format_and_send dev 50 _ w e1 r);
        [|destruct g; cbn; lia | exact Hw].
      replace (r <? 0) with false by (symmetry; apply Z.ltb_ge; exact Hr).
      reflexivity.
    + unfold wsa_get_sweep_gain_rf.
      erewrite bind_run
        by (apply wsa_send_query_run; cbn [w_env log set_env]; exact Hq).
      cbn [status output].
      replace (s <=? 0) with false by (symmetry; apply Z.leb_gt; exact Hs).
      destruct g; reflexivity.
Qed.

(** X2.  A reply to the gain query that holds none of the words HIGH,
    MED and LOW is not reported: [wsa_get_gain_rf] returns 0 and stores
    the value 0, which is the value of no enumerator. *)
Theorem wsa_get_gain_rf_unrecognised :
  forall (dev : wsa_device) (old : Z) (w : world) (e : env_state) (s : Z)
         (text : string),
    cmd_query (w_env w) ("INPUT:GAIN:RF?" ++ nl) = (e, (s, text)) ->
    0 < s ->
    strstr text "HIGH" = None ->
    strstr text "MED" = None ->
    strstr text "LOW" = None ->
    wsa_get_gain_rf dev old w
    = Some ((0, 0), log (EvWrite ("INPUT:GAIN:RF?" ++ nl)) (set_env e w))
    /\ (forall g : wsa_gain, gain_value g <> 0).
Proof.
  intros dev old w e s text Hq Hs Hhigh Hmed Hlow. split.
  - unfold wsa_get_gain_rf.
    rewrite (bind_run _ _ _ _ _ (wsa_send_query_run dev _ _ _ _ _ Hq)).
    cbn [status output].
    replace (s <=? 0) with false by (symmetry; apply Z.leb_gt; exact Hs).
    unfold gain_rf_strtonum.
    rewrite Hhigh, Hmed, (strstr_low_in_vlow _ Hlow), Hlow. reflexivity.
  - intros g. destruct g; discriminate.
Qed.

(** ** Range checks of the setters *)

Lemma to_int32_id (x : Z) : int32_range x -> to_int32 x = x.
Proof.
  unfold int32_range, to_int32, wrap_signed. intros H.
  change (2 ^ (32 - 1)) with 2147483648. change (2 ^ 32) with 4294967296.
  rewrite Z.mod_small by lia. lia.
Qed.

(** The setter's half: the value passes the check [lo <= v <= hi] and
    the line is sent. *)
Ltac setter_sends Hw Hr :=
  erewrite format_and_send; [| line_fits | exact Hw];
  match type of Hr with
  | 0 <= ?r =>
      replace (r <? 0) with false by (symmetry; apply Z.ltb_ge; exact Hr)
  end;
  reflexivity.

(** The getter's half: the query is answered, [to_int] reads [v], and [v]
    passes the check. *)
Ltac getter_reads Hq Hs Hint :=
  erewrite bind_run
    by (apply wsa_send_query_run; cbn [w_env log set_env]; exact Hq);
  cbn [status output];
  match type of Hs with
  | 0 < ?s =>
      replace (s <=? 0) with false by (symmetry; apply Z.leb_gt; exact Hs)
  end;
  unfold bind, call_to_int; rewrite Hint.

Lemma in_range_check (x lo hi : Z) :
  lo <= x <= hi -> (x <? lo) || (x >? hi) = false.
Proof.
  intros H. rewrite Z.gtb_ltb.
  replace (x <? lo) with false by (symmetry; apply Z.ltb_ge; lia).
  replace (hi <? x) with false by (symmetry; apply Z.ltb_ge; lia).
  reflexivity.
Qed.

Lemma decimation_rate_accepted (dev : wsa_device) (rate : Z) :
  (rate = 0 \/ min_decimation (descr dev) <= rate)
  /\ rate <= max_decimation (descr dev) ->
  (negb (rate =? 0) && (rate <? min_decimation (descr dev)))
  || (rate >? max_decimation (descr dev)) = false.
Proof.
  intros [Hlow Hhigh]. rewrite Z.gtb_ltb.
  replace (max_decimation (descr dev) <? rate) with false
    by (symmetry; apply Z.ltb_ge; exact Hhigh).
  rewrite orb_false_r.
  destruct Hlow as [-> | Hge]; [reflexivity|].
  replace (rate <? min_decimation (descr dev)) with false
    by (symmetry; apply Z.ltb_ge; exact Hge).
  apply andb_false_r.
Qed.

(** X3.  [wsa_set_decimation] and [wsa_set_sweep_decimation] reject a
    rate that is not 0 and below the minimum, or above the maximum, with
    [WSA_ERR_INVDECIMATIONRATE] and write nothing.  Every other rate is
    sent once: the rate 0, decimation off, also when it lies below the
    minimum.  The result is then 0, or the result of the write when that
    is negative. *)
Theorem wsa_set_decimation_checks :
  forall (dev : wsa_device) (rate : Z) (w : world),
    int32_range rate ->
    ((rate <> 0 /\ rate < min_decimation (descr dev))
     \/ max_decimation (descr dev) < rate ->
     wsa_set_decimation dev rate w = Some (WSA_ERR_INVDECIMATIONRATE, w)
     /\ wsa_set_sweep_decimation dev rate w
        = Some (WSA_ERR_INVDECIMATIONRATE, w))
    /\ ((rate = 0 \/ min_decimation (descr dev) <= rate)
        /\ rate <= max_decimation (descr dev) ->
        (forall (e : env_state) (r : Z),
            cmd_write (w_env w) ("SENSE:DEC " ++ fmt_d rate ++ " " ++ nl)
            = (e, r) ->
            wsa_set_decimation dev rate w
            = Some ((if r <? 0 then r else 0),
                    log (EvWrite ("SENSE:DEC " ++ fmt_d rate ++ " " ++ nl))
                      (set_env e w)))
        /\ (forall (e : env_state) (r : Z),
               cmd_write (w_env w)
                 ("SWEEP:ENTRY:DECIMATION " ++ fmt_d rate ++ nl)
               = (e, r) ->
               wsa_set_sweep_decimation dev rate w
               = Some ((if r <? 0 then r else 0),
                       log (EvWrite
                              ("SWEEP:ENTRY:DECIMATION " ++ fmt_d rate ++ nl))
                         (set_env e w)))).
Proof.
  intros dev rate w Hrange. split.
  - intros Hbad.
    assert (Hcheck : (negb (rate =? 0) && (rate <? min_decimation (descr dev)))
                     || (rate >? max_decimation (descr dev)) = true).
    { rewrite Z.gtb_ltb.
      destruct Hbad as [[Hnz Hlt] | Hgt].
      - apply Z.eqb_neq in Hnz. apply Z.ltb_lt in Hlt.
        rewrite Hnz, Hlt. reflexivity.
      - apply Z.ltb_lt in Hgt. rewrite Hgt. apply orb_true_r. }
    unfold wsa_set_decimation, wsa_set_sweep_decimation.
    rewrite Hcheck. split; reflexivity.
  - intros Hvalid.
    unfold wsa_set_decimation, wsa_set_sweep_decimation.
    rewrite (decimation_rate_accepted dev rate Hvalid).
    split; intros e r Hw; apply format_and_send; try exact Hw; line_fits.
Qed.

(** X4.  A rate that [wsa_set_decimation] accepts is read back by
    [wsa_get_decimation] when the instrument answers the query with a
    text that [to_int] reads as that rate: the getter checks the range
    the setter checks.  The same holds for the two functions of the
    sweep entry. *)
Theorem wsa_decimation_round_trip :
  forall (dev : wsa_device) (rate old : Z) (w : world)
         (e1 e2 : env_state) (r s : Z) (text : string),
    int32_range rate ->
    (rate = 0 \/ min_decimation (descr dev) <= rate)
    /\ rate <= max_decimation (descr dev) ->
    0 <= r ->
    0 < s ->
    to_int text = Some rate ->
    (cmd_write (w_env w) ("SENSE:DEC " ++ fmt_d rate ++ " " ++ nl)
     = (e1, r) ->
     cmd_query e1 (":SENSE:DEC?" ++ nl) = (e2, (s, text)) ->
     exists w1 w2 : world,
       wsa_set_decimation dev rate w = Some (0, w1)
       /\ wsa_get_decimation dev old w1 = Some ((0, rate), w2))
    /\ (cmd_write (w_env w) ("SWEEP:ENTRY:DECIMATION " ++ fmt_d rate ++ nl)
        = (e1, r) ->
        cmd_query e1 ("SWEEP:ENTRY:DECIMATION?" ++ nl) = (e2, (s, text)) ->
        exists w1 w2 : world,
          wsa_set_sweep_decimation dev rate w = Some (0, w1)
          /\ wsa_get_sweep_decimation dev old w1 = Some ((0, rate), w2)).
Proof.
  intros dev rate old w e1 e2 r s text Hrange Hvalid Hr Hs Hint.
  pose proof (decimation_rate_accepted dev rate Hvalid) as Hcheck.
  split; intros Hw Hq; do 2 eexists; split.
  - unfold wsa_set_decimation. rewrite Hcheck. setter_sends Hw Hr.
  - unfold wsa_get_decimation. getter_reads Hq Hs Hint.
    rewrite Hcheck, (to_int32_id rate Hrange). reflexivity.
  - unfold wsa_set_sweep_decimation. rewrite Hcheck. setter_sends Hw Hr.
  - unfold wsa_get_sweep_decimation. getter_reads Hq Hs Hint.
    rewrite Hcheck, (to_int32_id rate Hrange). reflexivity.
Qed.

(** X5.  On a device whose RF front end is the RFE0440, the functions of
    the IF gain, the antenna port and the preselect filter, those of the
    sweep entry among them, and the firmware version query return
    [WSA_ERR_INVRFESETTING] before anything is sent: the state is what
    it was. *)
Theorem rfe0440_settings_are_refused :
  forall (dev : wsa_device) (w : world) (v old : Z),
    rfe_name (descr dev) = WSA_RFE0440 ->
    wsa_get_gain_if dev old w = Some ((WSA_ERR_INVRFESETTING, old), w)
    /\ wsa_set_gain_if dev v w = Some (WSA_ERR_INVRFESETTING, w)
    /\ wsa_get_antenna dev old w = Some ((WSA_ERR_INVRFESETTING, old), w)
    /\ wsa_set_antenna dev v w = Some (WSA_ERR_INVRFESETTING, w)
    /\ wsa_get_bpf_mode dev old w = Some ((WSA_ERR_INVRFESETTING, old), w)
    /\ wsa_set_bpf_mode dev v w = Some (WSA_ERR_INVRFESETTING, w)
    /\ wsa_get_fw_ver dev w = Some (WSA_ERR_INVRFESETTING, w)
    /\ wsa_get_sweep_antenna dev old w
       = Some ((WSA_ERR_INVRFESETTING, old), w)
    /\ wsa_set_sweep_antenna dev v w = Some (WSA_ERR_INVRFESETTING, w)
    /\ wsa_get_sweep_gain_if dev old w
       = Some ((WSA_ERR_INVRFESETTING, old), w)
    /\ wsa_set_sweep_gain_if dev v w = Some (WSA_ERR_INVRFESETTING, w).
Proof.
  intros dev w v old Hrfe.
  assert (Hcmp : (strcmp (rfe_name (descr dev)) WSA_RFE0440 =? 0) = true).
  { rewrite strcmp_eqb, Hrfe. apply String.eqb_refl. }
  unfold wsa_get_gain_if, wsa_set_gain_if, wsa_get_antenna, wsa_set_antenna,
    wsa_get_bpf_mode, wsa_set_bpf_mode, wsa_get_fw_ver, wsa_get_sweep_antenna,
    wsa_set_sweep_antenna, wsa_get_sweep_gain_if, wsa_set_sweep_gain_if.
  rewrite Hcmp. repeat split; reflexivity.
Qed.

Lemma not_rfe0440 (dev : wsa_device) :
  rfe_name (descr dev) <> WSA_RFE0440 ->
  (strcmp (rfe_name (descr dev)) WSA_RFE0440 =? 0) = false.
Proof.
  intros H. rewrite strcmp_eqb. apply String.eqb_neq. exact H.
Qed.

(** X6.  A value that fails the range check of its setter is rejected
    with the code of that setter and nothing is sent: the IF gain
    outside the bounds of the descriptor, an antenna port other than 1
    and 2, a filter mode or trigger mode other than 0 and 1, a negative
    dwell time, a PLL reference other than INT and EXT, an RF gain that
    is no enumerator. *)
Theorem setters_reject_without_writing :
  forall (dev : wsa_device) (w : world),
    (forall gain : Z,
        rfe_name (descr dev) <> WSA_RFE0440 ->
        gain < min_if_gain (descr dev) \/ max_if_gain (descr dev) < gain ->
        wsa_set_gain_if dev gain w = Some (WSA_ERR_INVIFGAIN, w)
        /\ wsa_set_sweep_gain_if dev gain w = Some (WSA_ERR_INVIFGAIN, w))
    /\ (forall port_num : Z,
           rfe_name (descr dev) <> WSA_RFE0440 ->
           port_num < 1 \/ 2 < port_num ->
           wsa_set_antenna dev port_num w = Some (WSA_ERR_INVANTENNAPORT, w)
           /\ wsa_set_sweep_antenna dev port_num w
              = Some (WSA_ERR_INVANTENNAPORT, w))
    /\ (forall mode : Z,
           rfe_name (descr dev) <> WSA_RFE0440 ->
           mode < 0 \/ 1 < mode ->
           wsa_set_bpf_mode dev mode w = Some (WSA_ERR_INVFILTERMODE, w))
    /\ (forall enable : Z,
           enable < 0 \/ 1 < enable ->
           wsa_set_trigger_enable dev enable w
           = Some (WSA_ERR_INVTRIGGERMODE, w)
           /\ wsa_set_sweep_trigger_type dev enable w
              = Some (WSA_ERR_INVTRIGGERMODE, w))
    /\ (forall seconds microseconds : Z,
           seconds < 0 \/ microseconds < 0 ->
           wsa_set_sweep_dwell dev seconds microseconds w
           = Some (WSA_ERR_INVALID_DWELL, w))
    /\ (forall pll_ref : string,
           pll_ref <> "INT"%string ->
           pll_ref <> "EXT"%string ->
           wsa_set_reference_pll dev pll_ref w
           = Some (WSA_ERR_INVPLLREFSOURCE, w))
    /\ (forall gain : Z,
           gain < 1 \/ 4 < gain ->
           wsa_set_gain_rf dev gain w = Some (WSA_ERR_INVRFGAIN, w)
           /\ wsa_set_sweep_gain_rf dev gain w
              = Some (WSA_ERR_INVRFGAIN, w)).
Proof.
  intros dev w.
  assert (Hor : forall (x lo hi : Z),
             x < lo \/ hi < x -> (x <? lo) || (x >? hi) = true).
  { intros x lo hi [H | H].
    - apply Z.ltb_lt in H. rewrite H. reflexivity.
    - rewrite Z.gtb_ltb. apply Z.ltb_lt in H. rewrite H. apply orb_true_r. }
  repeat match goal with |- _ /\ _ => split end.
  - intros gain H H0. unfold wsa_set_gain_if, wsa_set_sweep_gain_if.
    rewrite (not_rfe0440 dev H), (Hor _ _ _ H0). split; reflexivity.
  - intros port_num H H0.
    unfold wsa_set_antenna, wsa_set_sweep_antenna, WSA_RFE0560_MAX_ANT_PORT.
    rewrite (not_rfe0440 dev H), (Hor _ _ _ H0). split; reflexivity.
  - intros mode H H0. unfold wsa_set_bpf_mode.
    rewrite (not_rfe0440 dev H), (Hor _ _ _ H0). reflexivity.
  - intros enable H.
    unfold wsa_set_trigger_enable, wsa_set_sweep_trigger_type.
    rewrite (Hor _ _ _ H). split; reflexivity.
  - intros seconds microseconds H. unfold wsa_set_sweep_dwell.
    replace ((seconds <? 0) || (microseconds <? 0)) with true; [reflexivity|].
    symmetry. destruct H as [H | H]; apply Z.ltb_lt in H; rewrite H;
      [reflexivity | apply orb_true_r].
  - intros pll_ref H H0. unfold wsa_set_reference_pll. rewrite !strcmp_eqb.
    apply String.eqb_neq in H, H0. rewrite H, H0. reflexivity.
  - intros gain H. unfold wsa_set_gain_rf, wsa_set_sweep_gain_rf.
    cbn [gain_value]. rewrite orb_comm. rewrite Z.gtb_ltb.
    replace ((gain <? 1) || (4 <? gain)) with true; [split; reflexivity|].
    symmetry. destruct H as [H | H]; apply Z.ltb_lt in H; rewrite H;
      [reflexivity | apply orb_true_r].
Qed.

(** ** Integer settings set and read back *)

(** X7.  The IF gain, the antenna port, the filter mode and the trigger
    mode, and the IF gain and antenna port of the sweep entry, are read
    back as they were set, on a front end other than the RFE0440 where
    the front end matters, when the instrument answers the query with a
    text that [to_int] reads as the value sent: each getter accepts the
    values its setter accepts. *)
Theorem integer_settings_round_trip :
  forall (dev : wsa_device) (v old : Z) (w : world)
         (e1 e2 : env_state) (r s : Z) (text : string),
    0 <= r ->
    0 < s ->
    to_int text = Some v ->
    (rfe_name (descr dev) <> WSA_RFE0440 ->
     int32_range v ->
     min_if_gain (descr dev) <= v <= max_if_gain (descr dev) ->
     cmd_write (w_env w) ("INPUT:GAIN:IF " ++ fmt_d v ++ " dB" ++ nl)
     = (e1, r) ->
     cmd_query e1 ("INPUT:GAIN:IF?" ++ nl) = (e2, (s, text)) ->
     exists w1 w2 : world,
       wsa_set_gain_if dev v w = Some (0, w1)
       /\ wsa_get_gain_if dev old w1 = Some ((0, v), w2))
    /\ (rfe_name (descr dev) <> WSA_RFE0440 ->
        1 <= v <= 2 ->
        cmd_write (w_env w) ("INPUT:ANTENNA " ++ fmt_d v ++ nl) = (e1, r) ->
        cmd_query e1 ("INPUT:ANTENNA?" ++ nl) = (e2, (s, text)) ->
        exists w1 w2 : world,
          wsa_set_antenna dev v w = Some (0, w1)
          /\ wsa_get_antenna dev old w1 = Some ((0, v), w2))
    /\ (rfe_name (descr dev) <> WSA_RFE0440 ->
        0 <= v <= 1 ->
        cmd_write (w_env w) ("INPUT:FILT:PRES " ++ fmt_d v ++ nl) = (e1, r) ->
        cmd_query e1 ("INP:FILT:PRES?" ++ nl) = (e2, (s, text)) ->
        exists w1 w2 : world,
          wsa_set_bpf_mode dev v w = Some (0, w1)
          /\ wsa_get_bpf_mode dev old w1 = Some ((0, v), w2))
    /\ (0 <= v <= 1 ->
        cmd_write (w_env w) (":TRIGGER:ENABLE " ++ fmt_d v ++ nl) = (e1, r) ->
        cmd_query e1 (":TRIG:ENABLE?" ++ nl) = (e2, (s, text)) ->
        exists w1 w2 : world,
          wsa_set_trigger_enable dev v w = Some (0, w1)
          /\ wsa_get_trigger_enable dev old w1 = Some ((0, v), w2))
    /\ (rfe_name (descr dev) <> WSA_RFE0440 ->
        int32_range v ->
        min_if_gain (descr dev) <= v <= max_if_gain (descr dev) ->
        cmd_write (w_env w) ("SWEEP:ENTRY:GAIN:IF " ++ fmt_d v ++ nl)
        = (e1, r) ->
        cmd_query e1 ("SWEEP:ENTRY:GAIN:IF?" ++ nl) = (e2, (s, text)) ->
        exists w1 w2 : world,
          wsa_set_sweep_gain_if dev v w = Some (0, w1)
          /\ wsa_get_sweep_gain_if dev old w1 = Some ((0, v), w2))
    /\ (rfe_name (descr dev) <> WSA_RFE0440 ->
        1 <= v <= 2 ->
        cmd_write (w_env w) ("SWEEP:ENTRY:ANTENNA " ++ fmt_d v ++ nl)
        = (e1, r) ->
        cmd_query e1 ("SWEEP:ENTRY:ANTENNA?" ++ nl) = (e2, (s, text)) ->
        exists w1 w2 : world,
          wsa_set_sweep_antenna dev v w = Some (0, w1)
          /\ wsa_get_sweep_antenna dev old w1 = Some ((0, v), w2)).
Proof.
  intros dev v old w e1 e2 r s text Hr Hs Hint.
  repeat match goal with |- _ /\ _ => split end.
  - intros Hrfe Hrange Hv Hw Hq. do 2 eexists. split.
    + unfold wsa_set_gain_if.
      rewrite (not_rfe0440 dev Hrfe), (in_range_check _ _ _ Hv).
      setter_sends Hw Hr.
    + unfold wsa_get_gain_if. rewrite (not_rfe0440 dev Hrfe).
      getter_reads Hq Hs Hint. rewrite (in_range_check _ _ _ Hv).
      rewrite (to_int32_id v Hrange). reflexivity.
  - intros Hrfe Hv Hw Hq.
    assert (Hrange : int32_range v) by (unfold int32_range; lia).
    do 2 eexists. split.
    + unfold wsa_set_antenna, WSA_RFE0560_MAX_ANT_PORT.
      rewrite (not_rfe0440 dev Hrfe), (in_range_check _ _ _ Hv).
      setter_sends Hw Hr.
    + unfold wsa_get_antenna, WSA_RFE0560_MAX_ANT_PORT.
      rewrite (not_rfe0440 dev Hrfe).
      getter_reads Hq Hs Hint. rewrite (in_range_check _ _ _ Hv).
      rewrite (to_int32_id v Hrange). reflexivity.
  - intros Hrfe Hv Hw Hq.
    assert (Hrange : int32_range v) by (unfold int32_range; lia).
    do 2 eexists. split.
    + unfold wsa_set_bpf_mode.
      rewrite (not_rfe0440 dev Hrfe), (in_range_check _ _ _ Hv).
      setter_sends Hw Hr.
    + unfold wsa_get_bpf_mode. rewrite (not_rfe0440 dev Hrfe).
      getter_reads Hq Hs Hint. rewrite (in_range_check _ _ _ Hv).
      rewrite (to_int16_id v) by (unfold int16_range; lia). reflexivity.
  - intros Hv Hw Hq.
    assert (Hrange : int32_range v) by (unfold int32_range; lia).
    do 2 eexists. split.
    + unfold wsa_set_trigger_enable. rewrite (in_range_check _ _ _ Hv).
      setter_sends Hw Hr.
    + unfold wsa_get_trigger_enable.
      getter_reads Hq Hs Hint. rewrite (in_range_check _ _ _ Hv).
      rewrite (to_int16_id v) by (unfold int16_range; lia). reflexivity.
  - intros Hrfe Hrange Hv Hw Hq. do 2 eexists. split.
    + unfold wsa_set_sweep_gain_if.
      rewrite (not_rfe0440 dev Hrfe), (in_range_check _ _ _ Hv).
      setter_sends Hw Hr.
    + unfold wsa_get_sweep_gain_if. rewrite (not_rfe0440 dev Hrfe).
      getter_reads Hq Hs Hint. rewrite (in_range_check _ _ _ Hv).
      rewrite (to_int32_id v Hrange). reflexivity.
  - intros Hrfe Hv Hw Hq.
    assert (Hrange : int32_range v) by (unfold int32_range; lia).
    do 2 eexists. split.
    + unfold wsa_set_sweep_antenna, WSA_RFE0560_MAX_ANT_PORT.
      rewrite (not_rfe0440 dev Hrfe), (in_range_check _ _ _ Hv).
      erewrite format_and_send; [| | exact Hw].
      * replace (r <? 0) with false by (symmetry; apply Z.ltb_ge; exact Hr).
        reflexivity.
      * pose proof (fmt_lld_length_le v 1 ltac:(lia)
                      ltac:(change (10 ^ Z.of_nat 1) with 10; lia)) as Hlen.
        change (fmt_lld v) with (fmt_d v) in Hlen.
        repeat first [rewrite length_append
                     | progress cbn [String.length nl]].
        lia.
    + unfold wsa_get_sweep_antenna, WSA_RFE0560_MAX_ANT_PORT.
      rewrite (not_rfe0440 dev Hrfe).
      getter_reads Hq Hs Hint. rewrite (in_range_check _ _ _ Hv).
      rewrite (to_int32_id v Hrange). reflexivity.
Qed.

(** ** The sweep status and the operations that ask for it *)

(** X8.  On an answered status query, [wsa_get_sweep_status] returns 0
    exactly for the two words STOPPED and RUNNING, and then hands the
    word to the caller; for any other text it returns
    [WSA_ERR_SWEEPMODEUNDEF] and leaves the caller's buffer as it
    was. *)
Theorem wsa_get_sweep_status_answers :
  forall (device : wsa_device) (buf : string) (w : world) (e : env_state)
         (s : Z) (text : string),
    cmd_query (w_env w) ("SWEEP:LIST:STATUS?" ++ nl) = (e, (s, text)) ->
    0 < s ->
    (text = "STOPPED"%string \/ text = "RUNNING"%string ->
     wsa_get_sweep_status device buf w
     = Some ((0, text),
             log (EvWrite ("SWEEP:LIST:STATUS?" ++ nl)) (set_env e w)))
    /\ (text <> "STOPPED"%string -> text <> "RUNNING"%string ->
        wsa_get_sweep_status device buf w
        = Some ((WSA_ERR_SWEEPMODEUNDEF, buf),
                log (EvWrite ("SWEEP:LIST:STATUS?" ++ nl)) (set_env e w))).
Proof.
  intros device buf w e s text Hq Hs. split.
  - intros [-> | ->].
    + exact (wsa_get_sweep_status_stopped device buf w e s Hq Hs).
    + exact (wsa_get_sweep_status_running device buf w e s Hq Hs).
  - intros Hstop Hrun. unfold wsa_get_sweep_status.
    rewrite (bind_run _ _ _ _ _ (wsa_send_query_run device _ _ _ _ _ Hq)).
    cbn [status output].
    replace (s <=? 0) with false by (symmetry; apply Z.leb_gt; exact Hs).
    rewrite !strcmp_eqb. apply String.eqb_neq in Hstop, Hrun.
    rewrite Hstop, Hrun. reflexivity.
Qed.

(** A running sweep makes [wsa_flush_data] return without flushing. *)
Lemma wsa_flush_data_running (dev : wsa_device) (status0 : string)
  (w : world) (e : env_state) (s : Z) :
  cmd_query (w_env w) ("SWEEP:LIST:STATUS?" ++ nl)
  = (e, (s, "RUNNING"%string)) ->
  0 < s ->
  wsa_flush_data dev status0 w
  = Some (WSA_ERR_SWEEPALREADYRUNNING,
          log (EvWrite ("SWEEP:LIST:STATUS?" ++ nl)) (set_env e w)).
Proof.
  intros Hq Hs. unfold wsa_flush_data.
  rewrite (bind_run _ _ _ _ _
             (wsa_get_sweep_status_running dev status0 w e s Hq Hs)).
  reflexivity.
Qed.


(** X10.  [wsa_sweep_stop] gives up early.  When the write of the stop
    command fails, its result is returned and nothing else is done.
    When the instrument still reports RUNNING to the flush that follows,
    the call returns [WSA_ERR_SWEEPALREADYRUNNING]: no flush command is
    written, the clock is not read and the data channel is not
    drained.  No fuel is needed in either case. *)
Theorem wsa_sweep_stop_gives_up :
  forall (fuel : nat) (dev : wsa_device) (status0 : string) (w : world)
         (e : env_state) (r : Z),
    cmd_write (w_env w) ("SWEEP:LIST:STOP" ++ nl) = (e, r) ->
    (r < 0 ->
     wsa_sweep_stop fuel dev status0 w
     = Some (r, log (EvWrite ("SWEEP:LIST:STOP" ++ nl)) (set_env e w)))
    /\ (0 <= r ->
        WSA_ERR_SWEEPALREADYRUNNING < 0 ->
        forall (e2 : env_state) (s : Z),
          cmd_query e ("SWEEP:LIST:STATUS?" ++ nl)
          = (e2, (s, "RUNNING"%string)) ->
          0 < s ->
          exists w' : world,
            wsa_sweep_stop fuel dev status0 w
            = Some (WSA_ERR_SWEEPALREADYRUNNING, w')
            /\ w_trace w'
               = (w_trace w ++ [EvWrite ("SWEEP:LIST:STOP" ++ nl);
                                EvWrite ("SWEEP:LIST:STATUS?" ++ nl)])%list
            /\ w_now w' = w_now w).
Proof.
  intros fuel dev status0 w e r Hw. split.
  - intros Hr. unfold wsa_sweep_stop.
    rewrite (bind_run _ _ _ _ _ (wsa_send_command_run dev _ _ _ _ Hw)).
    apply Z.ltb_lt in Hr. rewrite Hr. reflexivity.
  - intros Hr Hneg e2 s Hq Hs. eexists. split; [|split].
    + unfold wsa_sweep_stop.
      rewrite (bind_run _ _ _ _ _ (wsa_send_command_run dev _ _ _ _ Hw)).
      replace (r <? 0) with false by (symmetry; apply Z.ltb_ge; exact Hr).
      rewrite (bind_run _ _ _ _ _
                 (wsa_flush_data_running dev status0
                    (log (EvWrite ("SWEEP:LIST:STOP" ++ nl)) (set_env e w))
                    e2 s Hq Hs)).
      apply Z.ltb_lt in Hneg. rewrite Hneg. reflexivity.
    + cbn [w_trace log set_env]. rewrite <- app_assoc. reflexivity.
    + reflexivity.
Qed.

(** The size of the list as a caller of [wsa_get_sweep_entry_size] gets
    it from an answered query. *)
Lemma wsa_get_sweep_entry_size_run (device : wsa_device) (size : Z)
  (w : world) (e : env_state) (s : Z) (text : string) (d : double) :
  cmd_query (w_env w) ("SWEEP:ENTRY:COUNT?" ++ nl) = (e, (s, text)) ->
  0 < s ->
  to_double text = Some d ->
  wsa_get_sweep_entry_size device size w
  = Some ((0, int32_of_double d),
          log (EvParse text)
            (log (EvWrite ("SWEEP:ENTRY:COUNT?" ++ nl)) (set_env e w))).
Proof.
  intros Hq Hs Hd. unfold wsa_get_sweep_entry_size.
  rewrite (bind_run _ _ _ _ _ (wsa_send_query_run device _ _ _ _ _ Hq)).
  cbn [status output].
  replace (s <=? 0) with false by (symmetry; apply Z.leb_gt; exact Hs).
  unfold bind, call_to_double. rewrite Hd. reflexivity.
Qed.

Lemma wsa_get_sweep_entry_size_failed (device : wsa_device) (size : Z)
  (w : world) (e : env_state) (s : Z) (text : string) :
  cmd_query (w_env w) ("SWEEP:ENTRY:COUNT?" ++ nl) = (e, (s, text)) ->
  -32768 <= s <= 0 ->
  wsa_get_sweep_entry_size device size w
  = Some ((s, size),
          log (EvWrite ("SWEEP:ENTRY:COUNT?" ++ nl)) (set_env e w)).
Proof.
  intros Hq Hs. unfold wsa_get_sweep_entry_size.
  rewrite (bind_run _ _ _ _ _ (wsa_send_query_run device _ _ _ _ _ Hq)).
  cbn [status output].
  replace (s <=? 0) with true by (symmetry; apply Z.leb_le; lia).
  rewrite (to_int16_id s) by (unfold int16_range; lia). reflexivity.
Qed.

(** X11.  With the status STOPPED and a list that is not empty,
    [wsa_sweep_start] writes SWEEP:LIST:START once, after its two
    queries, and [wsa_sweep_resume] SWEEP:LIST:RESUME; the result is 0,
    or the result of the write when that is negative. *)
Theorem wsa_sweep_start_and_resume_send :
  forall (dev : wsa_device) (status0 : string) (w : world)
         (e e2 e3 : env_state) (s s2 r : Z) (text2 : string) (d : double),
    cmd_query (w_env w) ("SWEEP:LIST:STATUS?" ++ nl)
    = (e, (s, "STOPPED"%string)) ->
    0 < s ->
    cmd_query e ("SWEEP:ENTRY:COUNT?" ++ nl) = (e2, (s2, text2)) ->
    0 < s2 ->
    to_double text2 = Some d ->
    0 < int32_of_double d ->
    (cmd_write e2 ("SWEEP:LIST:START" ++ nl) = (e3, r) ->
     exists w' : world,
       wsa_sweep_start dev status0 w = Some ((if r <? 0 then r else 0), w')
       /\ w_trace w'
          = (w_trace w ++ [EvWrite ("SWEEP:LIST:STATUS?" ++ nl);
                           EvWrite ("SWEEP:ENTRY:COUNT?" ++ nl);
                           EvParse text2;
                           EvWrite ("SWEEP:LIST:START" ++ nl)])%list)
    /\ (cmd_write e2 ("SWEEP:LIST:RESUME" ++ nl) = (e3, r) ->
        exists w' : world,
          wsa_sweep_resume dev status0 w
          = Some ((if r <? 0 then r else 0), w')
          /\ w_trace w'
             = (w_trace w ++ [EvWrite ("SWEEP:LIST:STATUS?" ++ nl);
                              EvWrite ("SWEEP:ENTRY:COUNT?" ++ nl);
                              EvParse text2;
                              EvWrite ("SWEEP:LIST:RESUME" ++ nl)])%list).
Proof.
  intros dev status0 w e e2 e3 s s2 r text2 d Hq Hs Hq2 Hs2 Hd Hsize.
  split; intros Hw; eexists; split.
  - unfold wsa_sweep_start.
    rewrite (bind_run _ _ _ _ _
               (wsa_get_sweep_status_stopped dev status0 w e s Hq Hs)).
    cbn -[wsa_get_sweep_entry_size wsa_send_command].
    erewrite bind_run
      by (eapply wsa_get_sweep_entry_size_run;
          [cbn [w_env log set_env]; exact Hq2 | exact Hs2 | exact Hd]).
    cbn -[wsa_send_command].
    replace (int32_of_double d <=? 0) with false
      by (symmetry; apply Z.leb_gt; exact Hsize).
    erewrite bind_run
      by (apply wsa_send_command_run; cbn [w_env log set_env]; exact Hw).
    destruct (r <? 0); reflexivity.
  - cbn [w_trace log set_env]. rewrite <- !app_assoc. reflexivity.
  - unfold wsa_sweep_resume.
    rewrite (bind_run _ _ _ _ _
               (wsa_get_sweep_status_stopped dev status0 w e s Hq Hs)).
    cbn -[wsa_get_sweep_entry_size wsa_send_command].
    erewrite bind_run
      by (eapply wsa_get_sweep_entry_size_run;
          [cbn [w_env log set_env]; exact Hq2 | exact Hs2 | exact Hd]).
    cbn -[wsa_send_command].
    replace (int32_of_double d <=? 0) with false
      by (symmetry; apply Z.leb_gt; exact Hsize).
    erewrite bind_run
      by (apply wsa_send_command_run; cbn [w_env log set_env]; exact Hw).
    destruct (r <? 0); reflexivity.
  - cbn [w_trace log set_env]. rewrite <- !app_assoc. reflexivity.
Qed.

(** X12.  [wsa_sweep_resume] is rejected with
    [WSA_ERR_SWEEPALREADYRUNNING] after the status query alone when the
    status is RUNNING, and with [WSA_ERR_SWEEPLISTEMPTY] when the status
    is STOPPED and the size of the list is 0 or negative; in neither
    case is SWEEP:LIST:RESUME written. *)
Theorem wsa_sweep_resume_rejections :
  forall (dev : wsa_device) (status0 : string) (w : world)
         (e : env_state) (s : Z) (text : string),
    cmd_query (w_env w) ("SWEEP:LIST:STATUS?" ++ nl) = (e, (s, text)) ->
    0 < s ->
    (text = "RUNNING"%string ->
     wsa_sweep_resume dev status0 w
     = Some (WSA_ERR_SWEEPALREADYRUNNING,
             log (EvWrite ("SWEEP:LIST:STATUS?" ++ nl)) (set_env e w)))
    /\ (text = "STOPPED"%string ->
        forall (e2 : env_state) (s2 : Z) (text2 : string) (d : double),
          cmd_query e ("SWEEP:ENTRY:COUNT?" ++ nl) = (e2, (s2, text2)) ->
          0 < s2 ->
          to_double text2 = Some d ->
          int32_of_double d <= 0 ->
          exists w' : world,
            wsa_sweep_resume dev status0 w
            = Some (WSA_ERR_SWEEPLISTEMPTY, w')
            /\ w_trace w'
               = (w_trace w ++ [EvWrite ("SWEEP:LIST:STATUS?" ++ nl);
                                EvWrite ("SWEEP:ENTRY:COUNT?" ++ nl);
                                EvParse text2])%list).
Proof.
  intros dev status0 w e s text Hq Hs. split.
  - intros ->. unfold wsa_sweep_resume.
    rewrite (bind_run _ _ _ _ _
               (wsa_get_sweep_status_running dev status0 w e s Hq Hs)).
    reflexivity.
  - intros -> e2 s2 text2 d Hq2 Hs2 Hd Hsize. eexists. split.
    + unfold wsa_sweep_resume.
      rewrite (bind_run _ _ _ _ _
                 (wsa_get_sweep_status_stopped dev status0 w e s Hq Hs)).
      cbn -[wsa_get_sweep_entry_size wsa_send_command].
      erewrite bind_run
        by (eapply wsa_get_sweep_entry_size_run;
            [cbn [w_env log set_env]; exact Hq2 | exact Hs2 | exact Hd]).
      cbn -[wsa_send_command].
      apply Z.leb_le in Hsize. rewrite Hsize. reflexivity.
    + cbn [w_trace log set_env]. rewrite <- !app_assoc. reflexivity.
Qed.

(** ** Deleting and saving entries of the sweep list *)

(** X13.  [wsa_sweep_entry_delete] first asks for the size of the list.
    A failed query is reported as [WSA_ERR_SWEEPENTRYDELETEFAIL], whatever
    the error was.  With the size known, an [id] from 1 to the size has
    SWEEP:ENTRY:DELETE written with it and the result of that write
    returned as it is; any other [id] is [WSA_ERR_SWEEPIDOOB] and no
    delete command is written. *)
Theorem wsa_sweep_entry_delete_bounds :
  forall (dev : wsa_device) (size0 id : Z) (w : world) (e : env_state)
         (s : Z) (text : string),
    cmd_query (w_env w) ("SWEEP:ENTRY:COUNT?" ++ nl) = (e, (s, text)) ->
    (-32768 <= s < 0 ->
     wsa_sweep_entry_delete dev size0 id w
     = Some (WSA_ERR_SWEEPENTRYDELETEFAIL,
             log (EvWrite ("SWEEP:ENTRY:COUNT?" ++ nl)) (set_env e w)))
    /\ (0 < s ->
        forall d : double,
          to_double text = Some d ->
          (id < 1 \/ int32_of_double d < id ->
           wsa_sweep_entry_delete dev size0 id w
           = Some (WSA_ERR_SWEEPIDOOB,
                   log (EvParse text)
                     (log (EvWrite ("SWEEP:ENTRY:COUNT?" ++ nl))
                        (set_env e w))))
          /\ (1 <= id <= int32_of_double d ->
              forall (e2 : env_state) (r : Z),
                cmd_write e ("SWEEP:ENTRY:DELETE " ++ fmt_u id ++ nl)
                = (e2, r) ->
                wsa_sweep_entry_delete dev size0 id w
                = Some (r,
                        log (EvWrite
                               ("SWEEP:ENTRY:DELETE " ++ fmt_u id ++ nl))
                          (set_env e2
                             (log (EvParse text)
                                (log (EvWrite ("SWEEP:ENTRY:COUNT?" ++ nl))
                                   (set_env e w))))))).
Proof.
  intros dev size0 id w e s text Hq. split.
  - intros Hs. unfold wsa_sweep_entry_delete.
    rewrite (bind_run _ _ _ _ _
               (wsa_get_sweep_entry_size_failed dev size0 w e s text Hq
                  ltac:(lia))).
    cbn -[sprintf wsa_send_command].
    replace (s <? 0) with true by (symmetry; apply Z.ltb_lt; lia).
    reflexivity.
  - intros Hs d Hd. split.
    + intros Hid. unfold wsa_sweep_entry_delete.
      rewrite (bind_run _ _ _ _ _
                 (wsa_get_sweep_entry_size_run dev size0 w e s text d
                    Hq Hs Hd)).
      cbn -[sprintf wsa_send_command].
      replace ((id <? 1) || (id >? int32_of_double d)) with true
        by (symmetry; apply orb_true_iff; rewrite Z.ltb_lt, Z.gtb_ltb,
              Z.ltb_lt; exact Hid).
      reflexivity.
    + intros Hid e2 r Hw. unfold wsa_sweep_entry_delete.
      rewrite (bind_run _ _ _ _ _
                 (wsa_get_sweep_entry_size_run dev size0 w e s text d
                    Hq Hs Hd)).
      cbn -[sprintf wsa_send_command].
      replace ((id <? 1) || (id >? int32_of_double d)) with false
        by (symmetry; apply orb_false_iff; rewrite Z.ltb_ge, Z.gtb_ltb,
              Z.ltb_ge; lia).
      erewrite bind_run by (apply sprintf_fits; line_fits).
      apply wsa_send_command_run. cbn [w_env log set_env]. exact Hw.
Qed.

(** X14.  [wsa_sweep_entry_save] accepts the positions 0 to size + 1,
    both included: for these SWEEP:ENTRY:SAVE is written with the
    position.  A negative position and one above size + 1 are
    [WSA_ERR_SWEEPIDOOB], with no save command written. *)
Theorem wsa_sweep_entry_save_bounds :
  forall (dev : wsa_device) (id : Z) (w : world) (e : env_state)
         (s : Z) (text : string) (d : double),
    cmd_query (w_env w) ("SWEEP:ENTRY:COUNT?" ++ nl) = (e, (s, text)) ->
    0 < s ->
    to_double text = Some d ->
    int32_of_double d <> 2147483647 ->
    (id < 0 \/ int32_of_double d + 1 < id ->
     wsa_sweep_entry_save dev id w
     = Some (WSA_ERR_SWEEPIDOOB,
             log (EvParse text)
               (log (EvWrite ("SWEEP:ENTRY:COUNT?" ++ nl)) (set_env e w))))
    /\ (0 <= id <= int32_of_double d + 1 ->
        forall (e2 : env_state) (r : Z),
          cmd_write e ("SWEEP:ENTRY:SAVE " ++ fmt_u id ++ nl) = (e2, r) ->
          wsa_sweep_entry_save dev id w
          = Some ((if r <? 0 then r else 0),
                  log (EvWrite ("SWEEP:ENTRY:SAVE " ++ fmt_u id ++ nl))
                    (set_env e2
                       (log (EvParse text)
                          (log (EvWrite ("SWEEP:ENTRY:COUNT?" ++ nl))
                             (set_env e w)))))).
Proof.
  intros dev id w e s text d Hq Hs Hd Hmax.
  apply Z.eqb_neq in Hmax. split.
  - intros Hid. unfold wsa_sweep_entry_save.
    rewrite (bind_run _ _ _ _ _
               (wsa_get_sweep_entry_size_run dev 0 w e s text d Hq Hs Hd)).
    cbn -[sprintf wsa_send_command]. rewrite Hmax.
    destruct (id <? 0) eqn:Hneg; [reflexivity|].
    apply Z.ltb_ge in Hneg.
    replace (id >? int32_of_double d + 1) with true
      by (symmetry; rewrite Z.gtb_ltb; apply Z.ltb_lt; lia).
    reflexivity.
  - intros Hid e2 r Hw. unfold wsa_sweep_entry_save.
    rewrite (bind_run _ _ _ _ _
               (wsa_get_sweep_entry_size_run dev 0 w e s text d Hq Hs Hd)).
    cbn -[sprintf wsa_send_command]. rewrite Hmax.
    replace (id <? 0) with false by (symmetry; apply Z.ltb_ge; lia).
    replace (id >? int32_of_double d + 1) with false
      by (symmetry; rewrite Z.gtb_ltb; apply Z.ltb_ge; lia).
    apply format_and_send; [line_fits|].
    cbn [w_env log set_env]. exact Hw.
Qed.

(** ** Reading a packet *)

(** X15.  What [wsa_read_vrt_packet] does with the result of the raw
    read, apart from the frame of an unknown stream: a failure is
    returned as it is, with the sample buffers untouched and nothing
    written on the command channel; a successful read returns 0, and
    the sample buffers are decoded from the data only when the packet
    is of the IF data stream, the result of the decoding being
    dropped. *)
Theorem wsa_read_vrt_packet_by_raw_result :
  forall (dev : wsa_device) (status0 : string) (p p' : vrt_structs)
         (i_buffer q_buffer data : list Z) (samples r : Z) (w w1 : world),
    wsa_read_vrt_packet_raw dev p [] w = Some ((r, (p', data)), w1) ->
    (r < 0 -> r <> WSA_ERR_NOTIQFRAME ->
     wsa_read_vrt_packet dev status0 p i_buffer q_buffer samples w
     = Some ((r, (p', (i_buffer, q_buffer))), w1))
    /\ (0 <= r -> stream_id (header p') <> IF_DATA_STREAM_ID ->
        wsa_read_vrt_packet dev status0 p i_buffer q_buffer samples w
        = Some ((0, (p', (i_buffer, q_buffer))), w1))
    /\ (0 <= r -> stream_id (header p') = IF_DATA_STREAM_ID ->
        wsa_read_vrt_packet dev status0 p i_buffer q_buffer samples w
        = Some ((0, (p', snd (wsa_decode_frame data i_buffer q_buffer
                                samples))), w1)).
Proof.
  intros dev status0 p p' i_buffer q_buffer data samples r w w1 Hraw.
  unfold wsa_read_vrt_packet.
  rewrite (bind_run _ _ _ _ _ Hraw). cbv beta iota.
  split; [|split].
  - intros Hr Hne. apply Z.ltb_lt in Hr. apply Z.eqb_neq in Hne.
    rewrite Hr, Hne. reflexivity.
  - intros Hr Hid. apply Z.ltb_ge in Hr. apply Z.eqb_neq in Hid.
    rewrite Hr, Hid. reflexivity.
  - intros Hr Hid. apply Z.ltb_ge in Hr.
    rewrite Hr, Hid, Z.eqb_refl.
    destruct (wsa_decode_frame data i_buffer q_buffer samples)
      as [res [ib qb]].
    reflexivity.
Qed.

(** ** The frequencies of a sweep entry and of the trigger *)

Lemma wsa_verify_freq_signed_rejects (dev : wsa_device) (f : Z) :
  max_tune_freq (descr dev) <= 9223372036854775807 ->
  int64_range f ->
  f < 0 \/ f < min_tune_freq (descr dev) \/ max_tune_freq (descr dev) < f ->
  wsa_verify_freq dev (to_uint64 f) = WSA_ERR_FREQOUTOFBOUND.
Proof.
  intros Hmax Hrange Hout. apply wsa_verify_freq_rejects.
  destruct (Z_lt_ge_dec f 0) as [Hlt | Hge].
  - rewrite to_uint64_neg by assumption. right.
    unfold int64_range in Hrange. lia.
  - rewrite to_uint64_nonneg by (assumption || lia). lia.
Qed.

Lemma wsa_verify_freq_signed_accepts (dev : wsa_device) (f : Z) :
  0 <= min_tune_freq (descr dev) ->
  max_tune_freq (descr dev) <= 9223372036854775807 ->
  min_tune_freq (descr dev) <= f <= max_tune_freq (descr dev) ->
  wsa_verify_freq dev (to_uint64 f) = 0.
Proof.
  intros Hmin Hmax Hin.
  rewrite to_uint64_nonneg by (unfold int64_range; lia).
  apply wsa_verify_freq_accepts. exact Hin.
Qed.

(** X16.  [wsa_set_sweep_freq] checks in a fixed order and sends nothing
    on a rejection: a start frequency outside the tune range is
    [WSA_ERR_STARTOOB] whatever the stop frequency is; with the start
    in range, a stop frequency outside is [WSA_ERR_STOPOOB]; with both
    in range, a stop frequency that is not above the start is
    [WSA_ERR_INVSTOPFREQ]. *)
Theorem wsa_set_sweep_freq_rejections :
  forall (device : wsa_device) (start_freq stop_freq : Z) (w : world),
    WSA_ERR_FREQOUTOFBOUND <> 0 ->
    0 <= min_tune_freq (descr device) ->
    max_tune_freq (descr device) <= 9223372036854775807 ->
    int64_range start_freq ->
    int64_range stop_freq ->
    (start_freq < min_tune_freq (descr device)
     \/ max_tune_freq (descr device) < start_freq ->
     wsa_set_sweep_freq device start_freq stop_freq w
     = Some (WSA_ERR_STARTOOB, w))
    /\ (min_tune_freq (descr device) <= start_freq
        <= max_tune_freq (descr device) ->
        (stop_freq < min_tune_freq (descr device)
         \/ max_tune_freq (descr device) < stop_freq ->
         wsa_set_sweep_freq device start_freq stop_freq w
         = Some (WSA_ERR_STOPOOB, w))
        /\ (min_tune_freq (descr device) <= stop_freq
            <= max_tune_freq (descr device) ->
            stop_freq <= start_freq ->
            wsa_set_sweep_freq device start_freq stop_freq w
            = Some (WSA_ERR_INVSTOPFREQ, w))).
Proof.
  intros device start_freq stop_freq w Hcode Hmin Hmax Hr1 Hr2.
  assert (Hzero : (0 =? WSA_ERR_FREQOUTOFBOUND) = false)
    by (apply Z.eqb_neq; congruence).
  split.
  - intros Hout. unfold wsa_set_sweep_freq.
    rewrite (wsa_verify_freq_signed_rejects device start_freq Hmax Hr1)
      by lia.
    rewrite Z.eqb_refl. reflexivity.
  - intros Hin. split.
    + intros Hout. unfold wsa_set_sweep_freq.
      rewrite (wsa_verify_freq_signed_accepts device start_freq Hmin Hmax Hin).
      rewrite Hzero. cbn [Z.ltb Z.compare].
      rewrite (wsa_verify_freq_signed_rejects device stop_freq Hmax Hr2)
        by lia.
      rewrite Z.eqb_refl. reflexivity.
    + intros Hin2 Hle. unfold wsa_set_sweep_freq.
      rewrite (wsa_verify_freq_signed_accepts device start_freq Hmin Hmax Hin).
      rewrite (wsa_verify_freq_signed_accepts device stop_freq Hmin Hmax Hin2).
      rewrite Hzero. cbn [Z.ltb Z.compare].
      apply Z.leb_le in Hle. rewrite Hle. reflexivity.
Qed.

(** X17.  The command of [wsa_set_sweep_freq] is formatted into a buffer
    of 50 bytes and has 31 characters besides the two numbers.  With a
    stop frequency below 1 GHz the line fits and is sent once.  With a
    start frequency of 100 MHz or more and a stop frequency of 1 GHz or
    more the line and its terminator need more than 50 bytes: the call
    writes past the buffer and has no defined result. *)
Theorem wsa_set_sweep_freq_buffer :
  forall (device : wsa_device) (start_freq stop_freq : Z) (w : world),
    WSA_ERR_FREQOUTOFBOUND <> 0 ->
    0 <= min_tune_freq (descr device) ->
    max_tune_freq (descr device) <= 9223372036854775807 ->
    min_tune_freq (descr device) <= start_freq ->
    start_freq < stop_freq ->
    stop_freq <= max_tune_freq (descr device) ->
    (stop_freq < 1000000000 ->
     forall (e : env_state) (r : Z),
       cmd_write (w_env w)
         ("SWEEP:ENTRY:FREQ:CENT " ++ fmt_lld start_freq ++ " Hz, "
            ++ fmt_lld stop_freq ++ " Hz" ++ nl) = (e, r) ->
       wsa_set_sweep_freq device start_freq stop_freq w
       = Some ((if r <? 0 then r else 0),
               log (EvWrite
                      ("SWEEP:ENTRY:FREQ:CENT " ++ fmt_lld start_freq
                         ++ " Hz, " ++ fmt_lld stop_freq ++ " Hz" ++ nl))
                 (set_env e w)))
    /\ (100000000 <= start_freq -> 1000000000 <= stop_freq ->
        wsa_set_sweep_freq device start_freq stop_freq w = None).
Proof.
  intros device start_freq stop_freq w Hcode Hmin Hmax Hlo Hlt Hhi.
  assert (Hzero : (0 =? WSA_ERR_FREQOUTOFBOUND) = false)
    by (apply Z.eqb_neq; congruence).
  assert (Hprefix :
            wsa_set_sweep_freq device start_freq stop_freq w
            = (temp_str <- sprintf 50
                  ("SWEEP:ENTRY:FREQ:CENT " ++ fmt_lld start_freq
                     ++ " Hz, " ++ fmt_lld stop_freq ++ " Hz" ++ nl) ;;
               result <- wsa_send_command device temp_str ;;
               if result <? 0 then ret result else ret 0) w).
  { unfold wsa_set_sweep_freq.
    rewrite (wsa_verify_freq_signed_accepts device start_freq Hmin Hmax)
      by lia.
    rewrite (wsa_verify_freq_signed_accepts device stop_freq Hmin Hmax)
      by lia.
    rewrite Hzero. cbn [Z.ltb Z.compare].
    replace (stop_freq <=? start_freq) with false
      by (symmetry; apply Z.leb_gt; exact Hlt).
    reflexivity. }
  rewrite Hprefix. split.
  - intros Hsmall e r Hw. apply format_and_send; [|exact Hw].
    pose proof (fmt_lld_length_le start_freq 9 ltac:(lia)
                  ltac:(change (10 ^ Z.of_nat 9) with 1000000000; lia)).
    pose proof (fmt_lld_length_le stop_freq 9 ltac:(lia)
                  ltac:(change (10 ^ Z.of_nat 9) with 1000000000; lia)).
    repeat first [rewrite length_append | progress cbn [String.length nl]].
    lia.
  - intros Hbig1 Hbig2. unfold bind. rewrite sprintf_overflow; [reflexivity|].
    pose proof (fmt_lld_length_gt start_freq 8
                  ltac:(change (10 ^ Z.of_nat 8) with 100000000; lia)).
    pose proof (fmt_lld_length_gt stop_freq 9
                  ltac:(change (10 ^ Z.of_nat 9) with 1000000000; lia)).
    repeat first [rewrite length_append | progress cbn [String.length nl]].
    lia.
Qed.

(** X18.  The two setters of the trigger level differ on the order of
    the frequencies.  With both frequencies in the tune range and the
    stop frequency not above the start, [wsa_set_sweep_trigger_level]
    returns [WSA_ERR_INVSTOPFREQ] and sends nothing, while
    [wsa_set_trigger_level] has no such check and goes on to format its
    command.  The amplitude, an [int32_t], is printed with [%ld]: where
    [long] has 32 bits the command is sent with the decimal text of the
    amplitude; where [long] is wider the call has no defined result. *)
Theorem trigger_level_order_check :
  forall (dev : wsa_device) (start_freq stop_freq amplitude : Z) (w : world),
    WSA_ERR_FREQOUTOFBOUND <> 0 ->
    0 <= min_tune_freq (descr dev) ->
    max_tune_freq (descr dev) < 100000000000 ->
    min_tune_freq (descr dev) <= start_freq <= max_tune_freq (descr dev) ->
    min_tune_freq (descr dev) <= stop_freq <= max_tune_freq (descr dev) ->
    int32_range amplitude ->
    stop_freq <= start_freq ->
    wsa_set_sweep_trigger_level dev start_freq stop_freq amplitude w
    = Some (WSA_ERR_INVSTOPFREQ, w)
    /\ (long_bits = 32 ->
        forall (e : env_state) (r : Z),
          cmd_write (w_env w)
            (":TRIG:LEVEL " ++ fmt_lld start_freq ++ ","
               ++ fmt_lld stop_freq ++ "," ++ fmt_d amplitude ++ nl)
          = (e, r) ->
          wsa_set_trigger_level dev start_freq stop_freq amplitude w
          = Some ((if r <? 0 then r else 0),
                  log (EvWrite
                         (":TRIG:LEVEL " ++ fmt_lld start_freq ++ ","
                            ++ fmt_lld stop_freq ++ "," ++ fmt_d amplitude
                            ++ nl))
                    (set_env e w)))
    /\ (long_bits <> 32 ->
        wsa_set_trigger_level dev start_freq stop_freq amplitude w = None).
Proof.
  intros dev start_freq stop_freq amplitude w Hcode Hmin Hmax Hin1 Hin2
    Hamp Hle.
  assert (Hzero : (0 =? WSA_ERR_FREQOUTOFBOUND) = false)
    by (apply Z.eqb_neq; congruence).
  assert (Hmax' : max_tune_freq (descr dev) <= 9223372036854775807) by lia.
  split; [|split].
  - unfold wsa_set_sweep_trigger_level.
    rewrite (wsa_verify_freq_signed_accepts dev start_freq Hmin Hmax' Hin1).
    rewrite (wsa_verify_freq_signed_accepts dev stop_freq Hmin Hmax' Hin2).
    rewrite Hzero. apply Z.leb_le in Hle. rewrite Hle. reflexivity.
  - intros Hlong e r Hw. unfold wsa_set_trigger_level.
    rewrite (wsa_verify_freq_signed_accepts dev start_freq Hmin Hmax' Hin1).
    rewrite (wsa_verify_freq_signed_accepts dev stop_freq Hmin Hmax' Hin2).
    rewrite Hzero. cbn [Z.ltb Z.compare].
    unfold fmt_ld. rewrite Hlong. cbn [Z.eqb Pos.eqb].
    rewrite (bind_run _ _ w w (fmt_d amplitude)) by reflexivity.
    apply format_and_send; [|exact Hw].
    pose proof (fmt_lld_length_le start_freq 11 ltac:(lia)
                  ltac:(change (10 ^ Z.of_nat 11) with 100000000000; lia)).
    pose proof (fmt_lld_length_le stop_freq 11 ltac:(lia)
                  ltac:(change (10 ^ Z.of_nat 11) with 100000000000; lia)).
    pose proof (fmt_d_int32_length amplitude Hamp) as Hlen.
    repeat first [rewrite length_append | progress cbn [String.length nl]].
    lia.
  - intros Hlong. unfold wsa_set_trigger_level.
    rewrite (wsa_verify_freq_signed_accepts dev start_freq Hmin Hmax' Hin1).
    rewrite (wsa_verify_freq_signed_accepts dev stop_freq Hmin Hmax' Hin2).
    rewrite Hzero. cbn [Z.ltb Z.compare].
    unfold fmt_ld. apply Z.eqb_neq in Hlong. rewrite Hlong. reflexivity.
Qed.

(** X19.  The trigger type of the sweep entry: [wsa_set_sweep_trigger_type]
    sends NONE for 0 and LEVEL for 1, and [wsa_get_sweep_trigger_type]
    reads these two words back as 0 and 1.  The getter compares the
    whole reply: any other text, one that only contains LEVEL or NONE
    among them, is stored as -1 with the result 0. *)
Theorem wsa_sweep_trigger_type_round_trip :
  forall (dev : wsa_device) (old : Z) (w : world),
    (forall (enable : Z) (e1 e2 : env_state) (r s : Z),
        0 <= enable <= 1 ->
        cmd_write (w_env w)
          ("SWEEP:ENTRY:TRIGGER:TYPE "
             ++ (if enable =? 0 then "NONE" else "LEVEL") ++ nl) = (e1, r) ->
        0 <= r ->
        cmd_query e1 ("SWEEP:ENTRY:TRIGGER:TYPE?" ++ nl)
        = (e2, (s, if enable =? 0 then "NONE"%string else "LEVEL"%string)) ->
        0 < s ->
        exists w1 w2 : world,
          wsa_set_sweep_trigger_type dev enable w = Some (0, w1)
          /\ wsa_get_sweep_trigger_type dev old w1 = Some ((0, enable), w2))
    /\ (forall (e : env_state) (s : Z) (text : string),
          cmd_query (w_env w) ("SWEEP:ENTRY:TRIGGER:TYPE?" ++ nl)
          = (e, (s, text)) ->
          0 < s ->
          text <> "LEVEL"%string ->
          text <> "NONE"%string ->
          wsa_get_sweep_trigger_type dev old w
          = Some ((0, -1),
                  log (EvWrite ("SWEEP:ENTRY:TRIGGER:TYPE?" ++ nl))
                    (set_env e w))).
Proof.
  intros dev old w. split.
  - intros enable e1 e2 r s Hen Hw Hr Hq Hs.
    assert (Hcases : enable = 0 \/ enable = 1) by lia.
    exists (log (EvWrite ("SWEEP:ENTRY:TRIGGER:TYPE "
                            ++ (if enable =? 0 then "NONE" else "LEVEL")
                            ++ nl)) (set_env e1 w)).
    eexists. split.
    + unfold wsa_set_sweep_trigger_type.
      replace ((enable <? 0) || (enable >? 1)) with false
        by (destruct Hcases as [-> | ->]; reflexivity).
      destruct Hcases as [-> | ->]; cbn [Z.eqb] in *;
        (erewrite bind_run by (apply sprintf_fits; cbn; lia));
        (erewrite bind_run by (apply wsa_send_command_run; exact Hw));
        replace (r <? 0) with false by (symmetry; apply Z.ltb_ge; exact Hr);
        reflexivity.
    + unfold wsa_get_sweep_trigger_type.
      erewrite bind_run
        by (apply wsa_send_query_run; cbn [w_env log set_env]; exact Hq).
      cbn [status output].
      replace (s <=? 0) with false by (symmetry; apply Z.leb_gt; exact Hs).
      destruct Hcases as [-> | ->]; reflexivity.
  - intros e s text Hq Hs Hlevel Hnone. unfold wsa_get_sweep_trigger_type.
    rewrite (bind_run _ _ _ _ _ (wsa_send_query_run dev _ _ _ _ _ Hq)).
    cbn [status output].
    replace (s <=? 0) with false by (symmetry; apply Z.leb_gt; exact Hs).
    rewrite !strcmp_eqb. apply String.eqb_neq in Hlevel, Hnone.
    rewrite Hlevel, Hnone. reflexivity.
Qed.

(** X20.  [wsa_get_sweep_freq] reads the two frequencies from the first
    two comma-separated tokens of the reply.  When the second token is
    no number the call returns [WSA_ERR_RESPUNKNOWN] with the start
    frequency of the caller already overwritten and the stop frequency
    as it was. *)
Theorem wsa_get_sweep_freq_tokens :
  forall (device : wsa_device) (old_start old_stop : Z) (w : world)
         (e : env_state) (s : Z) (text t1 t2 r1 r2 : string) (dstart : double),
    cmd_query (w_env w) ("SWEEP:ENTRY:FREQ:CENTER?" ++ nl)
    = (e, (s, text)) ->
    0 < s ->
    strtok_scan "," text = (Some t1, r1) ->
    strtok_scan "," r1 = (Some t2, r2) ->
    to_double t1 = Some dstart ->
    (forall dstop : double,
        to_double t2 = Some dstop ->
        exists w' : world,
          wsa_get_sweep_freq device (old_start, old_stop) w
          = Some ((0, (int64_of_double dstart, int64_of_double dstop)), w'))
    /\ (to_double t2 = None ->
        exists w' : world,
          wsa_get_sweep_freq device (old_start, old_stop) w
          = Some ((WSA_ERR_RESPUNKNOWN, (int64_of_double dstart, old_stop)), w')).
Proof.
  intros device old_start old_stop w e s text t1 t2 r1 r2 dstart Hq Hs
    Htok1 Htok2 Hdstart.
  assert (Hrun :
            wsa_get_sweep_freq device (old_start, old_stop) w
            = match to_double t2 with
              | None =>
                  Some ((WSA_ERR_RESPUNKNOWN,
                         (int64_of_double dstart, old_stop)),
                        log (EvParse t2)
                          (set_strtok r2
                             (log (EvParse t1)
                                (set_strtok r1
                                   (log (EvWrite
                                           ("SWEEP:ENTRY:FREQ:CENTER?" ++ nl))
                                      (set_env e w))))))
              | Some dstop =>
                  Some ((0, (int64_of_double dstart, int64_of_double dstop)),
                        log (EvParse t2)
                          (set_strtok r2
                             (log (EvParse t1)
                                (set_strtok r1
                                   (log (EvWrite
                                           ("SWEEP:ENTRY:FREQ:CENTER?" ++ nl))
                                      (set_env e w))))))
              end).
  { unfold wsa_get_sweep_freq.
    rewrite (bind_run _ _ _ _ _ (wsa_send_query_run device _ _ _ _ _ Hq)).
    cbn [status output].
    replace (s <=? 0) with false by (symmetry; apply Z.leb_gt; exact Hs).
    erewrite bind_run by (apply strtok_first_run; exact Htok1).
    unfold bind at 1. unfold call_to_double at 1. rewrite Hdstart.
    erewrite bind_run
      by (apply strtok_next_run; cbn [w_strtok set_strtok log set_env];
          exact Htok2).
    unfold bind, call_to_double.
    destruct (to_double t2); reflexivity. }
  split.
  - intros dstop Hdstop. eexists. rewrite Hrun, Hdstop. reflexivity.
  - intros Hdstop. eexists. rewrite Hrun, Hdstop. reflexivity.
Qed.

(** ** A sweep entry with a level trigger *)

(** X21.  On a record whose trigger type holds LEVEL and is followed by
    three numbers, [wsa_sweep_entry_read] returns 0 with
    [trigger_enable] set to 1 and the trigger start frequency, stop
    frequency and amplitude converted from these three tokens, in that
    order; the three tokens are consumed after the numeric capture
    settings. *)
Theorem wsa_sweep_entry_read_trigger_level :
  forall (dev : wsa_device) (id : Z) (sl : wsa_sweep_list) (w : world)
         (e : env_state) (s : Z) (text : string) (fields : list string)
         (trig rest t1 t2 t3 rest' : string) (dstart dstop damp : double),
    0 <= id ->
    cmd_query (w_env w) ("SWEEP:ENTRY:READ? " ++ fmt_d id ++ nl)
    = (e, (s, text)) ->
    0 < s ->
    entry_record text fields trig rest ->
    strstr trig "LEVEL" <> None ->
    strtok_tokens 3 "," rest = Some ([t1; t2; t3], rest') ->
    to_double t1 = Some dstart ->
    to_double t2 = Some dstop ->
    to_double t3 = Some damp ->
    exists (sl' : wsa_sweep_list) (w' : world),
      wsa_sweep_entry_read dev id sl w = Some ((0, sl'), w')
      /\ trigger_enable sl' = 1
      /\ trigger_start_freq sl' = int64_of_double dstart
      /\ trigger_stop_freq sl' = int64_of_double dstop
      /\ trigger_amplitude sl' = int32_of_double damp
      /\ w_strtok w' = rest'
      /\ w_trace w'
         = (w_trace w ++ EvWrite ("SWEEP:ENTRY:READ? " ++ fmt_d id ++ nl)
              :: map EvParse (numeric_fields fields ++ [t1; t2; t3]))%list.
Proof.
  intros dev id sl w e s text fields trig rest t1 t2 t3 rest' dstart dstop
    damp Hid Hq Hs Hrec Hlevel Htoks Hd1 Hd2 Hd3.
  destruct (wsa_sweep_entry_read_fields dev id sl w e s text fields trig rest
              Hid Hq Hs Hrec)
    as (sl12 & w12 & Hrun & Hen & Hlev & Hpos & Htr).
  apply strtok_tokens_S in Htoks. destruct Htoks as (q1 & Hs1 & Htoks).
  apply strtok_tokens_S in Htoks. destruct Htoks as (q2 & Hs2 & Htoks).
  apply strtok_tokens_S in Htoks. destruct Htoks as (q3 & Hs3 & Htoks).
  cbn [strtok_tokens] in Htoks. injection Htoks as <-.
  rewrite <- Hpos in Hs1.
  do 2 eexists. split; [|split; [|split; [|split; [|split; [|split]]]]].
  - rewrite Hrun. unfold sweep_entry_read_trigger.
    unfold bind at 1. unfold call_strstr, ret.
    destruct (strstr trig "LEVEL") as [found |];
      [|contradiction Hlevel; reflexivity].
    erewrite bind_run by (apply strtok_next_run; exact Hs1).
    rewrite (convert_or_return_number _ _ _ _ _ Hd1).
    erewrite bind_run
      by (apply strtok_next_run; cbn [w_strtok set_strtok log set_env];
          exact Hs2).
    rewrite (convert_or_return_number _ _ _ _ _ Hd2).
    erewrite bind_run
      by (apply strtok_next_run; cbn [w_strtok set_strtok log set_env];
          exact Hs3).
    rewrite (convert_or_return_number _ _ _ _ _ Hd3).
    reflexivity.
  - reflexivity.
  - reflexivity.
  - reflexivity.
  - reflexivity.
  - reflexivity.
  - cbn [w_trace log set_strtok set_env]. rewrite Htr.
    rewrite map_app. cbn [map].
    rewrite <- !app_assoc. cbn [app]. reflexivity.
Qed.

End ApiRestSpec.

(** * Getters on a failed query *)

Section QueryGettersSpec.
Context {num : CNumeric} {consts : WsaConsts} {more : WsaMoreConsts}
  {env : Environment} {limits : Wsa4000Limits} {neg : CNegation}.

(** The query is answered with a status that is not positive. *)
Ltac failed_query dev Hq Hs :=
  rewrite (bind_run _ _ _ _ _ (wsa_send_query_run dev _ _ _ _ _ Hq));
  cbn [status output]; apply Z.leb_le in Hs; rewrite Hs; reflexivity.

(** The getters with several out-parameters take them apart before the
    query. *)
Lemma wsa_get_sweep_freq_short (dev : wsa_device) :
  short_circuits (wsa_get_sweep_freq dev) ("SWEEP:ENTRY:FREQ:CENTER?" ++ nl).
Proof.
  intros [start_freq stop_freq] w e s text Hq Hs.
  unfold wsa_get_sweep_freq. failed_query dev Hq Hs.
Qed.

Lemma wsa_get_sweep_dwell_short (dev : wsa_device) :
  short_circuits (wsa_get_sweep_dwell dev) ("SWEEP:ENTRY:DWELL?" ++ nl).
Proof.
  intros [seconds microseconds] w e s text Hq Hs.
  unfold wsa_get_sweep_dwell. failed_query dev Hq Hs.
Qed.

Lemma wsa_get_trigger_level_short (dev : wsa_device) :
  short_circuits (wsa_get_trigger_level dev) (":TRIG:LEVEL?" ++ nl).
Proof.
  intros [start_freq [stop_freq amplitude]] w e s text Hq Hs.
  unfold wsa_get_trigger_level. failed_query dev Hq Hs.
Qed.

Lemma wsa_get_sweep_trigger_level_short (dev : wsa_device) :
  short_circuits (wsa_get_sweep_trigger_level dev)
    ("SWEEP:ENTRY:TRIGGER:LEVEL?" ++ nl).
Proof.
  intros [start_freq [stop_freq amplitude]] w e s text Hq Hs.
  unfold wsa_get_sweep_trigger_level. failed_query dev Hq Hs.
Qed.

(** C5.  Every getter of the API that sends a query short-circuits when
    the status of the query is zero or negative: it returns the status
    at once, through the 16-bit result type, hands the reply to no
    parsing helper and leaves its out-parameters as they were.  These
    are the 32 functions of the API that call [wsa_send_query].  Six of
    them send their query on a front end other than the RFE0440 only,
    and [wsa_get_reference_pll] on the RFE0560 only;
    [wsa_sweep_entry_read] sends it for an id that is not negative.  The
    16-bit result type changes no status that fits 16 bits. *)
Theorem query_getters_short_circuit :
  forall dev : wsa_device,
    short_circuits (wsa_system_request_acquisition_access dev)
      ("SYSTem:LOCK:REQuest? ACQuisition" ++ nl)
    /\ short_circuits (wsa_system_read_status dev)
         (":SYSTem:LOCK:HAVE? ACQuisition" ++ nl)
    /\ short_circuits (wsa_get_samples_per_packet dev)
         ("TRACE:SPPACKET?" ++ nl)
    /\ short_circuits (wsa_get_packets_per_block dev)
         ("TRACE:BLOCK:PACKETS?" ++ nl)
    /\ short_circuits (wsa_get_decimation dev) (":SENSE:DEC?" ++ nl)
    /\ short_circuits (wsa_get_freq dev) ("FREQ:CENT?" ++ nl)
    /\ short_circuits (wsa_get_freq_shift dev) ("FREQ:SHIFT?" ++ nl)
    /\ short_circuits (wsa_get_gain_rf dev) ("INPUT:GAIN:RF?" ++ nl)
    /\ short_circuits (wsa_get_trigger_level dev) (":TRIG:LEVEL?" ++ nl)
    /\ short_circuits (wsa_get_trigger_enable dev) (":TRIG:ENABLE?" ++ nl)
    /\ short_circuits (wsa_get_lock_ref_pll dev) ("LOCK:REFerence?" ++ nl)
    /\ short_circuits (wsa_get_sweep_gain_rf dev)
         ("SWEEP:ENTRY:GAIN:RF?" ++ nl)
    /\ short_circuits (wsa_get_sweep_samples_per_packet dev)
         ("SWEEP:ENTRY:SPPACKET?" ++ nl)
    /\ short_circuits (wsa_get_sweep_packets_per_block dev)
         ("SWEEP:ENTRY:PPBLOCK?" ++ nl)
    /\ short_circuits (wsa_get_sweep_decimation dev)
         ("SWEEP:ENTRY:DECIMATION?" ++ nl)
    /\ short_circuits (wsa_get_sweep_freq dev)
         ("SWEEP:ENTRY:FREQ:CENTER?" ++ nl)
    /\ short_circuits (wsa_get_sweep_freq_shift dev)
         ("SWEEP:ENTRY:FREQ:SHIFT?" ++ nl)
    /\ short_circuits (wsa_get_sweep_freq_step dev)
         ("SWEEP:ENTRY:FREQ:STEP?" ++ nl)
    /\ short_circuits (wsa_get_sweep_dwell dev) ("SWEEP:ENTRY:DWELL?" ++ nl)
    /\ short_circuits (wsa_get_sweep_trigger_level dev)
         ("SWEEP:ENTRY:TRIGGER:LEVEL?" ++ nl)
    /\ short_circuits (wsa_get_sweep_trigger_type dev)
         ("SWEEP:ENTRY:TRIGGER:TYPE?" ++ nl)
    /\ short_circuits (wsa_get_sweep_iteration dev)
         ("SWEEP:LIST:ITERATION?" ++ nl)
    /\ short_circuits (wsa_get_sweep_status dev) ("SWEEP:LIST:STATUS?" ++ nl)
    /\ short_circuits (wsa_get_sweep_entry_size dev)
         ("SWEEP:ENTRY:COUNT?" ++ nl)
    /\ (forall id : Z,
          0 <= id ->
          short_circuits (wsa_sweep_entry_read dev id)
            ("SWEEP:ENTRY:READ? " ++ fmt_d id ++ nl))
    /\ (rfe_name (descr dev) <> WSA_RFE0440 ->
        short_circuits (wsa_get_gain_if dev) ("INPUT:GAIN:IF?" ++ nl)
        /\ short_circuits (wsa_get_antenna dev) ("INPUT:ANTENNA?" ++ nl)
        /\ short_circuits (wsa_get_bpf_mode dev) ("INP:FILT:PRES?" ++ nl)
        /\ returns_failed_status (wsa_get_fw_ver dev) ("*IDN?" ++ nl)
        /\ short_circuits (wsa_get_sweep_antenna dev)
             ("SWEEP:ENTRY:ANTENNA?" ++ nl)
        /\ short_circuits (wsa_get_sweep_gain_if dev)
             ("SWEEP:ENTRY:GAIN:IF?" ++ nl))
    /\ (rfe_name (descr dev) = WSA_RFE0560 ->
        short_circuits (wsa_get_reference_pll dev)
          ("SOURCE:REFERENCE:PLL?" ++ nl))
    /\ (forall s : Z, -32768 <= s <= 0 -> to_int16 s = s).
Proof.
  intros dev.
  repeat match goal with
         | |- short_circuits _ _ /\ _ => split
         end;
    try exact (query_prefix_short_circuits dev _ _).
  - apply wsa_get_trigger_level_short.
  - apply wsa_get_sweep_freq_short.
  - apply wsa_get_sweep_dwell_short.
  - apply wsa_get_sweep_trigger_level_short.
  - split; [|split; [|split]].
    + intros id Hid old w e s text Hq Hs. unfold wsa_sweep_entry_read.
      replace (id <? 0) with false by (symmetry; apply Z.ltb_ge; exact Hid).
      failed_query dev Hq Hs.
    + intros Hrfe.
      pose proof (not_rfe0440 dev Hrfe) as Hcmp.
      repeat match goal with |- _ /\ _ => split end.
      * unfold wsa_get_gain_if. rewrite Hcmp.
        exact (query_prefix_short_circuits dev _ _).
      * unfold wsa_get_antenna. rewrite Hcmp.
        exact (query_prefix_short_circuits dev _ _).
      * unfold wsa_get_bpf_mode. rewrite Hcmp.
        exact (query_prefix_short_circuits dev _ _).
      * intros w e s text Hq Hs. unfold wsa_get_fw_ver. rewrite Hcmp.
        failed_query dev Hq Hs.
      * unfold wsa_get_sweep_antenna. rewrite Hcmp.
        exact (query_prefix_short_circuits dev _ _).
      * unfold wsa_get_sweep_gain_if. rewrite Hcmp.
        exact (query_prefix_short_circuits dev _ _).
    + intros Hrfe. unfold wsa_get_reference_pll.
      rewrite strcmp_eqb, Hrfe, String.eqb_refl. cbn [negb].
      exact (query_prefix_short_circuits dev _ _).
    + intros s Hs. apply to_int16_id. unfold int16_range. lia.
Qed.

End QueryGettersSpec.

(** * The properties at work on the sample platform *)

Import Sample.

(** C6 on the sample platform: 50 kHz is below the 100 kHz lower bound
    of the sample descriptor. *)
Lemma wsa_set_freq_out_of_bounds_witness :
  wsa_set_freq device 50000 (start silent steady_clock)
  = Some (WSA_ERR_FREQOUTOFBOUND, start silent steady_clock).
Proof.
  apply (wsa_set_freq_out_of_bounds device 50000).
  - reflexivity.
  - vm_compute. discriminate.
  - unfold int64_range. lia.
  - right. left. reflexivity.
Defined.

(** The sample numeric layer is exact below 2^53. *)
Lemma parse_decimal_fmt_lld (n : Z) : parse_decimal (fmt_lld n) = Some n.
Proof.
  unfold parse_decimal, fmt_lld.
  rewrite NilZero.isi.
  - rewrite DecimalZ.of_to. reflexivity.
  - destruct n; cbn; try discriminate.
    intros [= H]. exact (DecimalPos.Unsigned.to_uint_nonnil _ H).
  - destruct n; cbn; try discriminate.
    intros [= H]. exact (DecimalPos.Unsigned.to_uint_nonnil _ H).
Qed.

Lemma round_binary64_small (n : Z) : 0 <= n < 2 ^ 53 -> round_binary64 n = n.
Proof.
  intros H. unfold round_binary64.
  replace (Z.abs n <? 2 ^ 53) with true; [reflexivity|].
  symmetry. apply Z.ltb_lt. rewrite Z.abs_eq; lia.
Qed.

Lemma sample_exact_below_2_53 : exact_below_2_53.
Proof.
  intros n Hn. assert (H53 : 2 ^ 53 = 9007199254740992) by reflexivity.
  cbn [to_double double_of_uint64 int64_of_double double_ltb numeric].
  rewrite parse_decimal_fmt_lld. cbn [option_map].
  rewrite (round_binary64_small n Hn). repeat split.
  - unfold to_int64, wrap_signed.
    change (2 ^ (64 - 1)) with 9223372036854775808.
    change (2 ^ 64) with 18446744073709551616.
    rewrite Z.mod_small by lia. lia.
  - intros m Hm. rewrite (round_binary64_small m Hm). reflexivity.
Qed.

(** C4 on the sample platform: 2.4 GHz is set and read back. *)
Lemma wsa_freq_round_trip_witness :
  exists w1 w2 : world,
    wsa_set_freq device 2400000000 (start (bench "STOPPED" [] []) steady_clock)
    = Some (0, w1)
    /\ wsa_get_freq device 0 w1 = Some ((0, 2400000000), w2).
Proof.
  apply (wsa_freq_round_trip device 2400000000 0
           (start (bench "STOPPED" [] []) steady_clock)).
  - exact sample_exact_below_2_53.
  - vm_compute. discriminate.
  - vm_compute. reflexivity.
  - split; vm_compute; discriminate.
  - do 4 eexists. split; [vm_compute; reflexivity|].
    split; [vm_compute; discriminate|].
    split; [vm_compute; reflexivity|]. vm_compute. reflexivity.
Defined.

(** C1, the claim as the specification words it, fails while a sweep is
    running: the read of a stray header returns [WSA_ERR_NOTIQFRAME],
    but the abort finds the status RUNNING and writes no abort
    command. *)
Lemma wsa_read_vrt_packet_abort_not_issued :
  ~ aborts_exactly_once device EmptyString blank_structs [] [] 4
      (start (bench "RUNNING" [record_none] [stray_header]) steady_clock).
Proof.
  intros Hclaim.
  destruct (Hclaim (bench "RUNNING" [record_none] []) 8 (snd stray_header))
    as (out & w' & tr & Hrun & Htr & Hcount).
  - reflexivity.
  - discriminate.
  - vm_compute. discriminate.
  - vm_compute. discriminate.
  - vm_compute. discriminate.
  - vm_compute in Hrun. injection Hrun as _ <-.
    cbn [w_trace start app] in Htr. subst tr.
    vm_compute in Hcount. discriminate Hcount.
Qed.

(** C1 as amended, on the sample platform: with the sweep stopped, the
    read of a stray header is followed by one abort command. *)
Lemma wsa_read_vrt_packet_unknown_stream_witness :
  exists (w' : world) (tr : list event),
    wsa_read_vrt_packet device EmptyString blank_structs [] [] 4
      (start (bench "STOPPED" [record_none] [stray_header]) steady_clock)
    = Some ((WSA_ERR_NOTIQFRAME,
             (set_header (decode_header (snd stray_header)) blank_structs,
              ([], []))), w')
    /\ w_trace w'
       = EvRecv header_bytes :: EvWrite ("SWEEP:LIST:STATUS?" ++ nl) :: tr
    /\ (count_writes ("SYSTEM:ABORT" ++ nl) tr <= 1)%nat
    /\ (0 < 7 -> "STOPPED"%string = "STOPPED"%string ->
        tr = [EvWrite ("SYSTEM:ABORT" ++ nl)])
    /\ (0 < 7 -> "STOPPED"%string = "RUNNING"%string -> tr = [])
    /\ (-32768 <= 7 < 0 -> tr = []).
Proof.
  apply (wsa_read_vrt_packet_unknown_stream device EmptyString blank_structs
           [] [] 4
           (start (bench "STOPPED" [record_none] [stray_header]) steady_clock)
           (bench "STOPPED" [record_none] []) 8 (snd stray_header)
           (bench "STOPPED" [record_none] []) 7 "STOPPED").
  - reflexivity.
  - reflexivity.
  - discriminate.
  - vm_compute. discriminate.
  - vm_compute. discriminate.
  - vm_compute. discriminate.
  - reflexivity.
Defined.

(** C2 on the sample platform: a start during a sweep, and a start on an
    empty list. *)
Lemma wsa_sweep_start_rejections_witness :
  (exists w' : world,
      wsa_sweep_start device EmptyString
        (start (bench "RUNNING" [record_none] []) steady_clock)
      = Some (WSA_ERR_SWEEPALREADYRUNNING, w')
      /\ w_trace w' = [EvWrite ("SWEEP:LIST:STATUS?" ++ nl)]
      /\ count_writes ("SWEEP:LIST:START" ++ nl) (w_trace w') = 0%nat)
  /\ (exists w' : world,
         wsa_sweep_start device EmptyString
           (start (bench "STOPPED" [] []) steady_clock)
         = Some (WSA_ERR_SWEEPLISTEMPTY, w')
         /\ w_trace w'
            = [EvWrite ("SWEEP:LIST:STATUS?" ++ nl);
               EvWrite ("SWEEP:ENTRY:COUNT?" ++ nl); EvParse "0"]
         /\ count_writes ("SWEEP:LIST:START" ++ nl) (w_trace w') = 0%nat).
Proof.
  split.
  - apply (proj1 (wsa_sweep_start_rejections device EmptyString
                    (start (bench "RUNNING" [record_none] []) steady_clock)
                    (bench "RUNNING" [record_none] []) 7 "RUNNING"
                    eq_refl eq_refl)).
    reflexivity.
  - apply (proj2 (wsa_sweep_start_rejections device EmptyString
                    (start (bench "STOPPED" [] []) steady_clock)
                    (bench "STOPPED" [] []) 7 "STOPPED"
                    eq_refl eq_refl) eq_refl
             (bench "STOPPED" [] []) 1 "0"%string 0).
    + reflexivity.
    + reflexivity.
    + reflexivity.
    + reflexivity.
Defined.

(** C3.  On a list of three entries, [wsa_sweep_entry_copy] of the entry 1
    returns [WSA_ERR_SWEEPIDOOB]: the size is not asked for and no copy
    command is written, the state is what it was. *)
Theorem wsa_sweep_entry_copy_rejects_first_entry :
  wsa_sweep_entry_copy device 1
    (start (bench "STOPPED" [record_none; record_none; record_periodic] [])
       steady_clock)
  = Some (WSA_ERR_SWEEPIDOOB,
          start (bench "STOPPED" [record_none; record_none; record_periodic]
                   []) steady_clock).
Proof.
  apply wsa_sweep_entry_copy_positive_id. lia.
Qed.

(** The one id that passes the bound check is 0, which is no position of
    the list: on the same list the copy command is written for it. *)
Lemma wsa_sweep_entry_copy_id_zero :
  exists w' : world,
    wsa_sweep_entry_copy device 0
      (start (bench "STOPPED" [record_none; record_none; record_periodic] [])
         steady_clock)
    = Some (0, w')
    /\ w_trace w'
       = [EvWrite ("SWEEP:ENTRY:COUNT?" ++ nl); EvParse "3";
          EvWrite ("SWEEP:ENTRY:COPY 0" ++ nl)].
Proof.
  eexists. split; [vm_compute; reflexivity | reflexivity].
Qed.

(** The sample records are entry records. *)
Lemma sample_record_fields_numeric (i : nat) (t : string) :
  i <> 6%nat -> nth_error record_fields i = Some t -> to_double t <> None.
Proof.
  intros Hi Ht.
  do 12 (destruct i as [| i];
         [try (contradiction Hi; reflexivity);
          injection Ht as <-; vm_compute; discriminate|]).
  destruct i; discriminate Ht.
Qed.

Lemma record_none_is_entry_record :
  entry_record record_none record_fields "NONE" "7,8,9".
Proof.
  split; [reflexivity|]. split; [vm_compute; reflexivity|].
  exact sample_record_fields_numeric.
Qed.


(** C7 on the sample platform: a record with the trigger type NONE and
    three more fields after it, read into an entry whose trigger was
    enabled. *)
Lemma wsa_sweep_entry_read_trigger_none_witness :
  exists (sl' : wsa_sweep_list) (w' : world),
    wsa_sweep_entry_read device 1 blank_entry
      (start (bench "STOPPED" [record_none] []) steady_clock)
    = Some ((0, sl'), w')
    /\ trigger_enable sl' = 0
    /\ same_trigger_levels sl' blank_entry
    /\ w_strtok w' = "7,8,9"%string
    /\ w_trace w'
       = EvWrite ("SWEEP:ENTRY:READ? " ++ fmt_d 1 ++ nl)
           :: map EvParse (numeric_fields record_fields).
Proof.
  apply (wsa_sweep_entry_read_trigger_none device 1 blank_entry
           (start (bench "STOPPED" [record_none] []) steady_clock)
           (bench "STOPPED" [record_none] []) 66 record_none
           record_fields "NONE" "7,8,9").
  - lia.
  - reflexivity.
  - reflexivity.
  - exact record_none_is_entry_record.
  - reflexivity.
  - vm_compute. discriminate.
Defined.


(** C10 on the sample platform: the clock reads 0 at the start of the
    window and 2000, 4000, 6000 after it, so the loop makes two reads;
    both fail, the data channel having nothing to deliver, and the
    result is 0. *)
Lemma wsa_sweep_stop_returns_zero_witness :
  exists w3 : world,
    wsa_sweep_stop 3 device EmptyString
      (start (bench "STOPPED" [record_none] []) steady_clock)
    = Some (0, w3)
    /\ w_trace w3
       = [EvWrite ("SWEEP:LIST:STOP" ++ nl);
          EvWrite ("SWEEP:LIST:STATUS?" ++ nl);
          EvWrite ("SWEEP:FLUSH" ++ nl);
          EvRecv 8; EvRecv 8].
Proof.
  change [EvWrite ("SWEEP:LIST:STOP" ++ nl);
          EvWrite ("SWEEP:LIST:STATUS?" ++ nl);
          EvWrite ("SWEEP:FLUSH" ++ nl);
          EvRecv 8; EvRecv 8]
    with (w_trace
            (log (EvWrite ("SWEEP:FLUSH" ++ nl))
               (log (EvWrite ("SWEEP:LIST:STATUS?" ++ nl))
                  (log (EvWrite ("SWEEP:LIST:STOP" ++ nl))
                     (start (bench "STOPPED" [record_none] [])
                        steady_clock))))
            ++ repeat (EvRecv (2 * BYTES_PER_VRT_WORD)) 2)%list.
  apply (wsa_sweep_stop_returns_zero device EmptyString
           (start (bench "STOPPED" [record_none] []) steady_clock)
           (log (EvWrite ("SWEEP:LIST:STOP" ++ nl))
              (start (bench "STOPPED" [record_none] []) steady_clock))
           (log (EvWrite ("SWEEP:FLUSH" ++ nl))
              (log (EvWrite ("SWEEP:LIST:STATUS?" ++ nl))
                 (log (EvWrite ("SWEEP:LIST:STOP" ++ nl))
                    (start (bench "STOPPED" [record_none] []) steady_clock))))
           0 0 2%nat 3%nat).
  - reflexivity.
  - lia.
  - reflexivity.
  - lia.
  - intros k Hk. destruct k as [| [| k]]; [vm_compute; discriminate ..| lia].
  - vm_compute. reflexivity.
  - lia.
Defined.

(** * The rest of the API on the sample platform *)

Import SampleRest.

(** X1 on the sample platform: the gain VLOW, set and read back. *)
Lemma wsa_gain_rf_round_trip_witness :
  exists w1 w2 : world,
    wsa_set_gain_rf device (gain_value WSA_GAIN_VLOW)
      (facing [("INPUT:GAIN:RF?", "VLOW")]%string)
    = Some (0, w1)
    /\ wsa_get_gain_rf device 0 w1
       = Some ((0, gain_value WSA_GAIN_VLOW), w2).
Proof.
  apply (proj1 (proj2 (wsa_gain_rf_round_trip device WSA_GAIN_VLOW 0
                         (facing [("INPUT:GAIN:RF?", "VLOW")]%string)))
           (answering [("INPUT:GAIN:RF?", "VLOW")]%string)
           (answering [("INPUT:GAIN:RF?", "VLOW")]%string) 0 4).
  - reflexivity.
  - lia.
  - reflexivity.
  - lia.
Defined.

(** X2 on the sample platform: the reply AUTO. *)
Lemma wsa_get_gain_rf_unrecognised_witness :
  wsa_get_gain_rf device 3 (facing [("INPUT:GAIN:RF?", "AUTO")]%string)
  = Some ((0, 0),
          log (EvWrite ("INPUT:GAIN:RF?" ++ nl))
            (facing [("INPUT:GAIN:RF?", "AUTO")]%string)).
Proof.
  apply (proj1 (wsa_get_gain_rf_unrecognised device 3
                  (facing [("INPUT:GAIN:RF?", "AUTO")]%string)
                  (answering [("INPUT:GAIN:RF?", "AUTO")]%string) 4 "AUTO"
                  eq_refl eq_refl eq_refl eq_refl eq_refl)).
Defined.

(** X3 on the sample platform, whose rates go from 16 to 1023: the rate
    8 is rejected, the rate 0 is sent. *)
Lemma wsa_set_decimation_checks_witness :
  wsa_set_decimation device 8 (facing [])
  = Some (WSA_ERR_INVDECIMATIONRATE, facing [])
  /\ wsa_set_decimation device 0 (facing [])
     = Some (0, log (EvWrite ("SENSE:DEC " ++ fmt_d 0 ++ " " ++ nl))
                  (facing [])).
Proof.
  split.
  - apply (proj1 (wsa_set_decimation_checks device 8 (facing [])
                    ltac:(unfold int32_range; lia))).
    left. split; [lia | reflexivity].
  - apply (proj1 (proj2 (wsa_set_decimation_checks device 0 (facing [])
                           ltac:(unfold int32_range; lia))
                    ltac:(split; [left; reflexivity | vm_compute; discriminate]))
             (answering []) 0).
    reflexivity.
Defined.

(** X4 on the sample platform: the rate 16. *)
Lemma wsa_decimation_round_trip_witness :
  exists w1 w2 : world,
    wsa_set_decimation device 16 (facing [(":SENSE:DEC?", "16")]%string)
    = Some (0, w1)
    /\ wsa_get_decimation device 0 w1 = Some ((0, 16), w2).
Proof.
  apply (proj1 (wsa_decimation_round_trip device 16 0
                  (facing [(":SENSE:DEC?", "16")]%string)
                  (answering [(":SENSE:DEC?", "16")]%string)
                  (answering [(":SENSE:DEC?", "16")]%string) 0 2 "16"
                  ltac:(unfold int32_range; lia)
                  ltac:(split; [right; vm_compute; discriminate
                               | vm_compute; discriminate])
                  ltac:(lia) ltac:(lia) eq_refl)).
  - reflexivity.
  - reflexivity.
Defined.

(** X5 on the sample platform with the RFE0440 front end. *)
Lemma rfe0440_settings_are_refused_witness :
  wsa_set_gain_if device_rfe0440 0 (facing [])
  = Some (WSA_ERR_INVRFESETTING, facing [])
  /\ wsa_get_fw_ver device_rfe0440 (facing [])
     = Some (WSA_ERR_INVRFESETTING, facing []).
Proof.
  pose proof (rfe0440_settings_are_refused device_rfe0440 (facing []) 0 0
                eq_refl) as H.
  split; [apply H | apply H].
Defined.

(** X6 on the sample platform: an IF gain of 35 dB, above the 34 dB of
    the descriptor, and the PLL reference AUTO. *)
Lemma setters_reject_without_writing_witness :
  wsa_set_gain_if device 35 (facing [])
  = Some (WSA_ERR_INVIFGAIN, facing [])
  /\ wsa_set_reference_pll device "AUTO" (facing [])
     = Some (WSA_ERR_INVPLLREFSOURCE, facing []).
Proof.
  pose proof (setters_reject_without_writing device (facing [])) as H.
  split.
  - apply (proj1 H 35); [discriminate | right; reflexivity].
  - apply (proj1 (proj2 (proj2 (proj2 (proj2 (proj2 H))))) "AUTO"%string);
      discriminate.
Defined.

(** X7 on the sample platform: the antenna port 2. *)
Lemma integer_settings_round_trip_witness :
  exists w1 w2 : world,
    wsa_set_antenna device 2 (facing [("INPUT:ANTENNA?", "2")]%string)
    = Some (0, w1)
    /\ wsa_get_antenna device 0 w1 = Some ((0, 2), w2).
Proof.
  apply (proj1 (proj2 (integer_settings_round_trip device 2 0
                         (facing [("INPUT:ANTENNA?", "2")]%string)
                         (answering [("INPUT:ANTENNA?", "2")]%string)
                         (answering [("INPUT:ANTENNA?", "2")]%string)
                         0 1 "2" ltac:(lia) ltac:(lia) eq_refl))).
  - discriminate.
  - lia.
  - reflexivity.
  - reflexivity.
Defined.

(** X8 on the sample platform: the status STOPPED, and a status PAUSED
    that the function does not know. *)
Lemma wsa_get_sweep_status_answers_witness :
  wsa_get_sweep_status device EmptyString
    (facing [("SWEEP:LIST:STATUS?", "STOPPED")]%string)
  = Some ((0, "STOPPED"%string),
          log (EvWrite ("SWEEP:LIST:STATUS?" ++ nl))
            (facing [("SWEEP:LIST:STATUS?", "STOPPED")]%string))
  /\ wsa_get_sweep_status device EmptyString
       (facing [("SWEEP:LIST:STATUS?", "PAUSED")]%string)
     = Some ((WSA_ERR_SWEEPMODEUNDEF, EmptyString),
             log (EvWrite ("SWEEP:LIST:STATUS?" ++ nl))
               (facing [("SWEEP:LIST:STATUS?", "PAUSED")]%string)).
Proof.
  split.
  - apply (proj1 (wsa_get_sweep_status_answers device EmptyString
                    (facing [("SWEEP:LIST:STATUS?", "STOPPED")]%string)
                    (answering [("SWEEP:LIST:STATUS?", "STOPPED")]%string)
                    7 "STOPPED" eq_refl eq_refl)).
    left. reflexivity.
  - apply (proj2 (wsa_get_sweep_status_answers device EmptyString
                    (facing [("SWEEP:LIST:STATUS?", "PAUSED")]%string)
                    (answering [("SWEEP:LIST:STATUS?", "PAUSED")]%string)
                    6 "PAUSED" eq_refl eq_refl)); discriminate.
Defined.


(** X10 on a command channel that is down, where the stop command
    fails, and on the sample platform with a sweep that keeps
    running. *)
Lemma wsa_sweep_stop_gives_up_witness :
  wsa_sweep_stop (env := dead_line) 0 device EmptyString dead_start
  = Some (-1, log (EvWrite ("SWEEP:LIST:STOP" ++ nl)) dead_start)
  /\ exists w' : world,
       wsa_sweep_stop 0 device EmptyString
         (facing [("SWEEP:LIST:STATUS?", "RUNNING")]%string)
       = Some (WSA_ERR_SWEEPALREADYRUNNING, w')
       /\ w_trace w'
          = [EvWrite ("SWEEP:LIST:STOP" ++ nl);
             EvWrite ("SWEEP:LIST:STATUS?" ++ nl)]
       /\ w_now w' = O.
Proof.
  split.
  - apply (proj1 (wsa_sweep_stop_gives_up (env := dead_line) 0 device
                    EmptyString dead_start tt (-1) eq_refl)).
    lia.
  - eapply (proj2 (wsa_sweep_stop_gives_up 0 device EmptyString
                     (facing [("SWEEP:LIST:STATUS?", "RUNNING")]%string)
                     (answering [("SWEEP:LIST:STATUS?", "RUNNING")]%string)
                     0 eq_refl)).
    + lia.
    + reflexivity.
    + reflexivity.
    + reflexivity.
Defined.

(** X11 on the sample platform: a stopped sweep with a list of two
    entries is started. *)
Lemma wsa_sweep_start_and_resume_send_witness :
  exists w' : world,
    wsa_sweep_start device EmptyString
      (facing [("SWEEP:LIST:STATUS?", "STOPPED");
               ("SWEEP:ENTRY:COUNT?", "2")]%string)
    = Some (0, w')
    /\ w_trace w'
       = [EvWrite ("SWEEP:LIST:STATUS?" ++ nl);
          EvWrite ("SWEEP:ENTRY:COUNT?" ++ nl);
          EvParse "2";
          EvWrite ("SWEEP:LIST:START" ++ nl)].
Proof.
  apply (proj1 (wsa_sweep_start_and_resume_send device EmptyString
                  (facing [("SWEEP:LIST:STATUS?", "STOPPED");
                           ("SWEEP:ENTRY:COUNT?", "2")]%string)
                  (answering [("SWEEP:LIST:STATUS?", "STOPPED");
                              ("SWEEP:ENTRY:COUNT?", "2")]%string)
                  (answering [("SWEEP:LIST:STATUS?", "STOPPED");
                              ("SWEEP:ENTRY:COUNT?", "2")]%string)
                  (answering [("SWEEP:LIST:STATUS?", "STOPPED");
                              ("SWEEP:ENTRY:COUNT?", "2")]%string)
                  7 1 0 "2" 2
                  eq_refl eq_refl eq_refl eq_refl eq_refl eq_refl)).
  reflexivity.
Defined.

(** X12 on the sample platform: a resume during a sweep, and a resume
    on an empty list. *)
Lemma wsa_sweep_resume_rejections_witness :
  wsa_sweep_resume device EmptyString
    (facing [("SWEEP:LIST:STATUS?", "RUNNING")]%string)
  = Some (WSA_ERR_SWEEPALREADYRUNNING,
          log (EvWrite ("SWEEP:LIST:STATUS?" ++ nl))
            (facing [("SWEEP:LIST:STATUS?", "RUNNING")]%string))
  /\ exists w' : world,
       wsa_sweep_resume device EmptyString
         (facing [("SWEEP:LIST:STATUS?", "STOPPED");
                  ("SWEEP:ENTRY:COUNT?", "0")]%string)
       = Some (WSA_ERR_SWEEPLISTEMPTY, w')
       /\ w_trace w'
          = [EvWrite ("SWEEP:LIST:STATUS?" ++ nl);
             EvWrite ("SWEEP:ENTRY:COUNT?" ++ nl); EvParse "0"].
Proof.
  split.
  - apply (proj1 (wsa_sweep_resume_rejections device EmptyString
                    (facing [("SWEEP:LIST:STATUS?", "RUNNING")]%string)
                    (answering [("SWEEP:LIST:STATUS?", "RUNNING")]%string)
                    7 "RUNNING" eq_refl eq_refl)).
    reflexivity.
  - apply (proj2 (wsa_sweep_resume_rejections device EmptyString
                    (facing [("SWEEP:LIST:STATUS?", "STOPPED");
                             ("SWEEP:ENTRY:COUNT?", "0")]%string)
                    (answering [("SWEEP:LIST:STATUS?", "STOPPED");
                                ("SWEEP:ENTRY:COUNT?", "0")]%string)
                    7 "STOPPED" eq_refl eq_refl) eq_refl
             (answering [("SWEEP:LIST:STATUS?", "STOPPED");
                         ("SWEEP:ENTRY:COUNT?", "0")]%string)
             1 "0"%string 0).
    + reflexivity.
    + reflexivity.
    + reflexivity.
    + vm_compute. discriminate.
Defined.

(** X13 on the sample platform: on a list of three entries the entry 2
    is deleted and the entry 4 is out of bounds; with no answer to the
    size query the failure is reported as a failed deletion. *)
Lemma wsa_sweep_entry_delete_bounds_witness :
  wsa_sweep_entry_delete device 0 2 (facing [("SWEEP:ENTRY:COUNT?", "3")]%string)
  = Some (0,
          log (EvWrite ("SWEEP:ENTRY:DELETE " ++ fmt_u 2 ++ nl))
            (log (EvParse "3")
               (log (EvWrite ("SWEEP:ENTRY:COUNT?" ++ nl))
                  (facing [("SWEEP:ENTRY:COUNT?", "3")]%string))))
  /\ wsa_sweep_entry_delete device 0 4
       (facing [("SWEEP:ENTRY:COUNT?", "3")]%string)
     = Some (WSA_ERR_SWEEPIDOOB,
             log (EvParse "3")
               (log (EvWrite ("SWEEP:ENTRY:COUNT?" ++ nl))
                  (facing [("SWEEP:ENTRY:COUNT?", "3")]%string)))
  /\ wsa_sweep_entry_delete device 0 2 (facing [])
     = Some (WSA_ERR_SWEEPENTRYDELETEFAIL,
             log (EvWrite ("SWEEP:ENTRY:COUNT?" ++ nl)) (facing [])).
Proof.
  split; [|split].
  - apply (proj2 (proj2 (wsa_sweep_entry_delete_bounds device 0 2
                           (facing [("SWEEP:ENTRY:COUNT?", "3")]%string)
                           (answering [("SWEEP:ENTRY:COUNT?", "3")]%string)
                           1 "3" eq_refl)
                    eq_refl 3 eq_refl)
             ltac:(vm_compute; split; discriminate)
             (answering [("SWEEP:ENTRY:COUNT?", "3")]%string) 0).
    reflexivity.
  - apply (proj1 (proj2 (wsa_sweep_entry_delete_bounds device 0 4
                           (facing [("SWEEP:ENTRY:COUNT?", "3")]%string)
                           (answering [("SWEEP:ENTRY:COUNT?", "3")]%string)
                           1 "3" eq_refl)
                    eq_refl 3 eq_refl)).
    right. reflexivity.
  - apply (proj1 (wsa_sweep_entry_delete_bounds device 0 2 (facing [])
                    (answering []) (-1) EmptyString eq_refl)).
    lia.
Defined.

(** X14 on the sample platform: on a list of three entries the
    positions 0 and 4 are accepted, the position 5 is not. *)
Lemma wsa_sweep_entry_save_bounds_witness :
  wsa_sweep_entry_save device 0 (facing [("SWEEP:ENTRY:COUNT?", "3")]%string)
  = Some (0,
          log (EvWrite ("SWEEP:ENTRY:SAVE " ++ fmt_u 0 ++ nl))
            (log (EvParse "3")
               (log (EvWrite ("SWEEP:ENTRY:COUNT?" ++ nl))
                  (facing [("SWEEP:ENTRY:COUNT?", "3")]%string))))
  /\ wsa_sweep_entry_save device 4
       (facing [("SWEEP:ENTRY:COUNT?", "3")]%string)
     = Some (0,
             log (EvWrite ("SWEEP:ENTRY:SAVE " ++ fmt_u 4 ++ nl))
               (log (EvParse "3")
                  (log (EvWrite ("SWEEP:ENTRY:COUNT?" ++ nl))
                     (facing [("SWEEP:ENTRY:COUNT?", "3")]%string))))
  /\ wsa_sweep_entry_save device 5
       (facing [("SWEEP:ENTRY:COUNT?", "3")]%string)
     = Some (WSA_ERR_SWEEPIDOOB,
             log (EvParse "3")
               (log (EvWrite ("SWEEP:ENTRY:COUNT?" ++ nl))
                  (facing [("SWEEP:ENTRY:COUNT?", "3")]%string))).
Proof.
  split; [|split].
  - apply (proj2 (wsa_sweep_entry_save_bounds device 0
                    (facing [("SWEEP:ENTRY:COUNT?", "3")]%string)
                    (answering [("SWEEP:ENTRY:COUNT?", "3")]%string)
                    1 "3" 3 eq_refl eq_refl eq_refl
                    ltac:(vm_compute; discriminate))
             ltac:(vm_compute; split; discriminate)
             (answering [("SWEEP:ENTRY:COUNT?", "3")]%string) 0).
    reflexivity.
  - apply (proj2 (wsa_sweep_entry_save_bounds device 4
                    (facing [("SWEEP:ENTRY:COUNT?", "3")]%string)
                    (answering [("SWEEP:ENTRY:COUNT?", "3")]%string)
                    1 "3" 3 eq_refl eq_refl eq_refl
                    ltac:(vm_compute; discriminate))
             ltac:(vm_compute; split; discriminate)
             (answering [("SWEEP:ENTRY:COUNT?", "3")]%string) 0).
    reflexivity.
  - apply (proj1 (wsa_sweep_entry_save_bounds device 5
                    (facing [("SWEEP:ENTRY:COUNT?", "3")]%string)
                    (answering [("SWEEP:ENTRY:COUNT?", "3")]%string)
                    1 "3" 3 eq_refl eq_refl eq_refl
                    ltac:(vm_compute; discriminate))).
    right. reflexivity.
Defined.

(** X15 on the sample platform: a data channel with nothing to deliver,
    and a receiver context packet. *)
Lemma wsa_read_vrt_packet_by_raw_result_witness :
  (exists (p' : vrt_structs) (w1 : world),
      wsa_read_vrt_packet device EmptyString blank_structs [1] [2] 1
        (streaming [])
      = Some ((-1, (p', ([1], [2]))), w1))
  /\ (exists (p' : vrt_structs) (w1 : world),
         wsa_read_vrt_packet device EmptyString blank_structs [1] [2] 1
           (streaming [receiver_header; receiver_context])
         = Some ((0, (p', ([1], [2]))), w1)
         /\ receiver p' = snd receiver_context
         /\ w_trace w1 = [EvRecv 8; EvRecv 4]).
Proof.
  split.
  - do 2 eexists.
    refine (proj1 (wsa_read_vrt_packet_by_raw_result device EmptyString
                     blank_structs _ [1] [2] _ 1 _ (streaming []) _ _) _ _).
    + reflexivity.
    + reflexivity.
    + discriminate.
  - do 2 eexists. split; [|split].
    + refine (proj1 (proj2 (wsa_read_vrt_packet_by_raw_result device
                              EmptyString blank_structs _ [1] [2] _ 1 _
                              (streaming [receiver_header; receiver_context])
                              _ _)) _ _).
      * vm_compute. reflexivity.
      * discriminate.
      * discriminate.
    + reflexivity.
    + reflexivity.
Defined.

(** X16 on the sample platform, whose tune range is 100 kHz to 11 GHz:
    a start of 50 Hz, a stop of 20 GHz, and a stop equal to the start. *)
Lemma wsa_set_sweep_freq_rejections_witness :
  wsa_set_sweep_freq device 50 0 (facing [])
  = Some (WSA_ERR_STARTOOB, facing [])
  /\ wsa_set_sweep_freq device 1000000000 20000000000 (facing [])
     = Some (WSA_ERR_STOPOOB, facing [])
  /\ wsa_set_sweep_freq device 1000000000 1000000000 (facing [])
     = Some (WSA_ERR_INVSTOPFREQ, facing []).
Proof.
  split; [|split].
  - refine (proj1 (wsa_set_sweep_freq_rejections device 50 0 (facing [])
                     _ _ _ _ _) _).
    + discriminate.
    + discriminate.
    + discriminate.
    + unfold int64_range. lia.
    + unfold int64_range. lia.
    + left. reflexivity.
  - refine (proj1 (proj2 (wsa_set_sweep_freq_rejections device 1000000000
                            20000000000 (facing []) _ _ _ _ _) _) _).
    + discriminate.
    + discriminate.
    + discriminate.
    + unfold int64_range. lia.
    + unfold int64_range. lia.
    + split; discriminate.
    + right. reflexivity.
  - refine (proj2 (proj2 (wsa_set_sweep_freq_rejections device 1000000000
                            1000000000 (facing []) _ _ _ _ _) _) _ _).
    + discriminate.
    + discriminate.
    + discriminate.
    + unfold int64_range. lia.
    + unfold int64_range. lia.
    + split; discriminate.
    + split; discriminate.
    + lia.
Defined.

(** X17 on the sample platform: a sweep from 100 MHz to 900 MHz is
    sent; for a sweep from 2.4 GHz to 2.5 GHz the line has 51
    characters and the call has no result. *)
Lemma wsa_set_sweep_freq_buffer_witness :
  wsa_set_sweep_freq device 100000000 900000000 (facing [])
  = Some (0,
          log (EvWrite
                 ("SWEEP:ENTRY:FREQ:CENT " ++ fmt_lld 100000000 ++ " Hz, "
                    ++ fmt_lld 900000000 ++ " Hz" ++ nl))
            (facing []))
  /\ wsa_set_sweep_freq device 2400000000 2500000000 (facing []) = None.
Proof.
  split.
  - refine (proj1 (wsa_set_sweep_freq_buffer device 100000000 900000000
                     (facing []) _ _ _ _ _ _) _ (answering []) 0 _).
    + discriminate.
    + discriminate.
    + discriminate.
    + discriminate.
    + reflexivity.
    + discriminate.
    + reflexivity.
    + reflexivity.
  - refine (proj2 (wsa_set_sweep_freq_buffer device 2400000000 2500000000
                     (facing []) _ _ _ _ _ _) _ _).
    + discriminate.
    + discriminate.
    + discriminate.
    + discriminate.
    + reflexivity.
    + discriminate.
    + discriminate.
    + discriminate.
Defined.

(** X18 on the sample platform, where [long] has 32 bits, and on a
    platform where it has 64: a trigger window from 2.4 GHz to
    2.4 GHz. *)
Lemma trigger_level_order_check_witness :
  wsa_set_sweep_trigger_level device 2400000000 2400000000 (-40) (facing [])
  = Some (WSA_ERR_INVSTOPFREQ, facing [])
  /\ wsa_set_trigger_level device 2400000000 2400000000 (-40) (facing [])
     = Some (0,
             log (EvWrite
                    (":TRIG:LEVEL " ++ fmt_lld 2400000000 ++ ","
                       ++ fmt_lld 2400000000 ++ "," ++ fmt_d (-40) ++ nl))
               (facing []))
  /\ wsa_set_trigger_level (plat := lp64) device 2400000000 2400000000 (-40)
       (facing [])
     = None.
Proof.
  assert (H : WSA_ERR_FREQOUTOFBOUND <> 0
              /\ 0 <= min_tune_freq (descr device)
              /\ max_tune_freq (descr device) < 100000000000
              /\ min_tune_freq (descr device) <= 2400000000
                 <= max_tune_freq (descr device)
              /\ int32_range (-40)
              /\ 2400000000 <= 2400000000).
  { repeat split; try discriminate; reflexivity. }
  destruct H as (H1 & H2 & H3 & H4 & H5 & H6).
  split; [|split].
  - apply (proj1 (trigger_level_order_check device 2400000000 2400000000
                    (-40) (facing []) H1 H2 H3 H4 H4 H5 H6)).
  - refine (proj1 (proj2 (trigger_level_order_check device 2400000000
                            2400000000 (-40) (facing [])
                            H1 H2 H3 H4 H4 H5 H6))
              _ (answering []) 0 _).
    + reflexivity.
    + reflexivity.
  - apply (proj2 (proj2 (trigger_level_order_check (plat := lp64) device
                           2400000000 2400000000 (-40) (facing [])
                           H1 H2 H3 H4 H4 H5 H6))).
    discriminate.
Defined.

(** X19 on the sample platform: the trigger type LEVEL, set and read
    back, and a reply PERIODIC. *)
Lemma wsa_sweep_trigger_type_round_trip_witness :
  (exists w1 w2 : world,
      wsa_set_sweep_trigger_type device 1
        (facing [("SWEEP:ENTRY:TRIGGER:TYPE?", "LEVEL")]%string)
      = Some (0, w1)
      /\ wsa_get_sweep_trigger_type device 0 w1 = Some ((0, 1), w2))
  /\ wsa_get_sweep_trigger_type device 0
       (facing [("SWEEP:ENTRY:TRIGGER:TYPE?", "PERIODIC")]%string)
     = Some ((0, -1),
             log (EvWrite ("SWEEP:ENTRY:TRIGGER:TYPE?" ++ nl))
               (facing [("SWEEP:ENTRY:TRIGGER:TYPE?", "PERIODIC")]%string)).
Proof.
  split.
  - apply (proj1 (wsa_sweep_trigger_type_round_trip device 0
                    (facing [("SWEEP:ENTRY:TRIGGER:TYPE?", "LEVEL")]%string))
             1
             (answering [("SWEEP:ENTRY:TRIGGER:TYPE?", "LEVEL")]%string)
             (answering [("SWEEP:ENTRY:TRIGGER:TYPE?", "LEVEL")]%string)
             0 5).
    + lia.
    + reflexivity.
    + lia.
    + reflexivity.
    + lia.
  - apply (proj2 (wsa_sweep_trigger_type_round_trip device 0
                    (facing [("SWEEP:ENTRY:TRIGGER:TYPE?", "PERIODIC")]%string))
             (answering [("SWEEP:ENTRY:TRIGGER:TYPE?", "PERIODIC")]%string)
             8 "PERIODIC"%string).
    + reflexivity.
    + lia.
    + discriminate.
    + discriminate.
Defined.

(** X20 on the sample platform: a reply with two frequencies, and a
    reply whose second field is no number. *)
Lemma wsa_get_sweep_freq_tokens_witness :
  (exists w' : world,
      wsa_get_sweep_freq device (1, 2)
        (facing [("SWEEP:ENTRY:FREQ:CENTER?", "2400000000,2500000000")]%string)
      = Some ((0, (2400000000, 2500000000)), w'))
  /\ (exists w' : world,
         wsa_get_sweep_freq device (1, 2)
           (facing [("SWEEP:ENTRY:FREQ:CENTER?", "2400000000,MAX")]%string)
         = Some ((WSA_ERR_RESPUNKNOWN, (2400000000, 2)), w')).
Proof.
  split.
  - apply (proj1 (wsa_get_sweep_freq_tokens device 1 2
                    (facing [("SWEEP:ENTRY:FREQ:CENTER?",
                              "2400000000,2500000000")]%string)
                    (answering [("SWEEP:ENTRY:FREQ:CENTER?",
                                 "2400000000,2500000000")]%string)
                    21 "2400000000,2500000000" "2400000000" "2500000000"
                    "2500000000" EmptyString 2400000000
                    eq_refl eq_refl eq_refl eq_refl eq_refl)
             2500000000).
    reflexivity.
  - apply (proj2 (wsa_get_sweep_freq_tokens device 1 2
                    (facing [("SWEEP:ENTRY:FREQ:CENTER?",
                              "2400000000,MAX")]%string)
                    (answering [("SWEEP:ENTRY:FREQ:CENTER?",
                                 "2400000000,MAX")]%string)
                    14 "2400000000,MAX" "2400000000" "MAX"
                    "MAX" EmptyString 2400000000
                    eq_refl eq_refl eq_refl eq_refl eq_refl)).
    reflexivity.
Defined.

Lemma record_level_is_entry_record :
  entry_record record_level record_fields "LEVEL"
    "2410000000,2420000000,-35".
Proof.
  split; [reflexivity|]. split; [vm_compute; reflexivity|].
  exact sample_record_fields_numeric.
Qed.

(** X21 on the sample platform: a record with a level trigger from
    2.41 GHz to 2.42 GHz at -35 dBm. *)
Lemma wsa_sweep_entry_read_trigger_level_witness :
  exists (sl' : wsa_sweep_list) (w' : world),
    wsa_sweep_entry_read device 1 blank_entry
      (facing [("SWEEP:ENTRY:READ? 1", record_level)]%string)
    = Some ((0, sl'), w')
    /\ trigger_enable sl' = 1
    /\ trigger_start_freq sl' = int64_of_double 2410000000
    /\ trigger_stop_freq sl' = int64_of_double 2420000000
    /\ trigger_amplitude sl' = int32_of_double (-35)
    /\ w_strtok w' = EmptyString
    /\ w_trace w'
       = EvWrite ("SWEEP:ENTRY:READ? " ++ fmt_d 1 ++ nl)
           :: map EvParse
                (numeric_fields record_fields
                   ++ ["2410000000"; "2420000000"; "-35"]%string).
Proof.
  apply (wsa_sweep_entry_read_trigger_level device 1 blank_entry
           (facing [("SWEEP:ENTRY:READ? 1", record_level)]%string)
           (answering [("SWEEP:ENTRY:READ? 1", record_level)]%string)
           87 record_level record_fields "LEVEL"
           "2410000000,2420000000,-35" "2410000000" "2420000000" "-35"
           EmptyString 2410000000 2420000000 (-35)).
  - lia.
  - reflexivity.
  - reflexivity.
  - exact record_level_is_entry_record.
  - vm_compute. discriminate.
  - reflexivity.
  - reflexivity.
  - reflexivity.
  - reflexivity.
Defined.

(** C5 on the sample platform: four getters in front of an instrument
    that does not answer. *)
Lemma query_getters_short_circuit_witness :
  wsa_get_decimation device 16 (facing [])
  = Some ((to_int16 (-1), 16),
          log (EvWrite (":SENSE:DEC?" ++ nl))
            (set_env (answering []) (facing [])))
  /\ wsa_get_sweep_freq device (1, 2) (facing [])
     = Some ((to_int16 (-1), (1, 2)),
             log (EvWrite ("SWEEP:ENTRY:FREQ:CENTER?" ++ nl))
               (set_env (answering []) (facing [])))
  /\ wsa_sweep_entry_read device 1 blank_entry (facing [])
     = Some ((to_int16 (-1), blank_entry),
             log (EvWrite ("SWEEP:ENTRY:READ? " ++ fmt_d 1 ++ nl))
               (set_env (answering []) (facing [])))
  /\ wsa_get_fw_ver device (facing [])
     = Some (to_int16 (-1),
             log (EvWrite ("*IDN?" ++ nl))
               (set_env (answering []) (facing [])))
  /\ to_int16 (-1) = -1.
Proof.
  destruct (query_getters_short_circuit device)
    as (_ & _ & _ & _ & Hdec & _ & _ & _ & _ & _ & _ & _ & _ & _ & _ & Hsweep & _ & _ & _ & _ & _ & _ & _ & _ & Hread & Hrfe & _ & Hcast).
  split; [|split; [|split; [|split]]].
  - apply (Hdec 16 (facing []) (answering []) (-1) EmptyString);
      [reflexivity | lia].
  - apply (Hsweep (1, 2) (facing []) (answering []) (-1) EmptyString);
      [reflexivity | lia].
  - apply (Hread 1 ltac:(lia) blank_entry (facing []) (answering []) (-1)
             EmptyString); [reflexivity | lia].
  - apply (proj1 (proj2 (proj2 (proj2 (Hrfe ltac:(discriminate)))))
             (facing []) (answering []) (-1) EmptyString);
      [reflexivity | lia].
  - apply Hcast. lia.
Defined.


